(** * Structural design compliance checker: a shallow embedding

    The Python sources under [backend/] (the formula library, the automatic
    load calculator, the four member checkers and the orchestrator
    [check_compliance]) are embedded as Rocq functions.

    - Python [float] is IEEE 754 binary64, which is exactly Rocq's primitive
      [float]; arithmetic, comparisons and [math.sqrt] are the primitive
      operations, with the exceptions Python raises on top of them written
      out ([ZeroDivisionError], [ValueError], [OverflowError]).
    - Python objects are the dynamic type [value]; a [dict] is an association
      list in insertion order.
    - A computation that may raise is a value of [result A]; [try]/[except
      Exception] is a match on it.
    - What the CPython runtime does outside this repository (the C library's
      [pow], the text of [str(x)] for a float, parsing a number out of a
      string, the text of an exception) is the interface [Runtime]. *)

From Stdlib Require Import ZArith String Ascii List Bool Floats Lia.
From Stdlib Require Import DecimalString.
Import ListNotations.

Set Warnings "-inexact-float,-register-all".

Local Open Scope string_scope.
Local Open Scope list_scope.

(** ** Exceptions and the error monad *)

Inductive exn : Type :=
| KeyError (key : string)
| AttributeError (attr : string)
| TypeError
| ValueError
| ZeroDivisionError
| OverflowError
| UnboundLocalError (name : string).

(** [inl v]: the computation returned [v]; [inr e]: it raised [e]. *)
Definition result (A : Type) : Type := (A + exn)%type.

Definition ret {A : Type} (a : A) : result A := inl a.
Definition raise {A : Type} (e : exn) : result A := inr e.

Definition bind {A B : Type} (c : result A) (k : A -> result B) : result B :=
  match c with
  | inl a => k a
  | inr e => inr e
  end.

Declare Scope py_scope.
Delimit Scope py_scope with py.
Notation "x <- c ;; k" := (bind c (fun x => k))
  (at level 61, c at next level, right associativity) : py_scope.
Local Open Scope py_scope.

(** ** Python values *)

Inductive value : Type :=
| VNone
| VBool (b : bool)
| VInt (z : Z)
| VFloat (f : float)
| VStr (s : string)
| VList (l : list value)
| VDict (d : list (string * value)).

Definition dict : Type := list (string * value).

Fixpoint dict_get (k : string) (d : dict) : option value :=
  match d with
  | [] => None
  | (k', v) :: tl => if String.eqb k k' then Some v else dict_get k tl
  end.

Definition dict_mem (k : string) (d : dict) : bool :=
  match dict_get k d with Some _ => true | None => false end.

(** [d[k] = v]: an existing key keeps its position, a new key goes last. *)
Fixpoint dict_set (k : string) (v : value) (d : dict) : dict :=
  match d with
  | [] => [(k, v)]
  | (k', v') :: tl =>
      if String.eqb k k' then (k, v) :: tl else (k', v') :: dict_set k v tl
  end.

(** [d.setdefault(k, v)] *)
Definition dict_setdefault (k : string) (v : value) (d : dict) : dict :=
  if dict_mem k d then d else dict_set k v d.

Definition dict_keys (d : dict) : list string := map fst d.
Definition dict_values (d : dict) : list value := map snd d.

(** [bool(v)] *)
Definition truthy (v : value) : bool :=
  match v with
  | VNone => false
  | VBool b => b
  | VInt z => negb (Z.eqb z 0)
  | VFloat f => negb (PrimFloat.eqb f 0)
  | VStr s => negb (String.eqb s EmptyString)
  | VList l => match l with [] => false | _ => true end
  | VDict d => match d with [] => false | _ => true end
  end.

(** [v[k]] for a string key *)
Definition subscript (v : value) (k : string) : result value :=
  match v with
  | VDict d => match dict_get k d with
               | Some x => ret x
               | None => raise (KeyError k)
               end
  | _ => raise TypeError
  end.

(** [v.get(k, dflt)] *)
Definition get_method (v : value) (k : string) (dflt : value) : result value :=
  match v with
  | VDict d => ret (match dict_get k d with Some x => x | None => dflt end)
  | _ => raise (AttributeError "get")
  end.

(** [v.setdefault(k, dflt)], returning the updated object *)
Definition setdefault_method (v : value) (k : string) (dflt : value) : result value :=
  match v with
  | VDict d => ret (VDict (dict_setdefault k dflt d))
  | _ => raise (AttributeError "setdefault")
  end.

(** [v[k] = x], returning the updated object *)
Definition set_item (v : value) (k : string) (x : value) : result value :=
  match v with
  | VDict d => ret (VDict (dict_set k x d))
  | _ => raise TypeError
  end.

(** [v == s] for a string literal [s]; never raises. *)
Definition eq_str (v : value) (s : string) : bool :=
  match v with
  | VStr s' => String.eqb s' s
  | _ => false
  end.

(** [tbl.get(v, dflt)] for a table keyed by strings: an unhashable key
    raises, a key of another type is simply not found. *)
Definition table_get {A : Type} (tbl : list (string * A)) (v : value) (dflt : A) : result A :=
  match v with
  | VStr s =>
      ret (match find (fun kv => String.eqb s (fst kv)) tbl with
           | Some kv => snd kv
           | None => dflt
           end)
  | VList _ | VDict _ => raise TypeError
  | _ => ret dflt
  end.

(** ** Numbers *)

Module PyFloat.
Local Open Scope float_scope.

(** [float(z)] for an [int]: correctly rounded; too large raises. *)
Definition of_Z_rounded (z : Z) : float :=
  SF2Prim (binary_normalize prec emax z 0 false).

Definition of_Z (z : Z) : result float :=
  let f := of_Z_rounded z in
  if is_infinity f then raise OverflowError else ret f.

(** [int(x)]: truncation toward zero. *)
Definition to_Z (x : float) : result Z :=
  match Prim2SF x with
  | S754_zero _ => ret 0%Z
  | S754_finite s m e =>
      let a := if (0 <=? e)%Z then Z.shiftl (Zpos m) e
               else Z.shiftr (Zpos m) (- e) in
      ret (if s then (- a)%Z else a)
  | S754_infinity _ => raise OverflowError
  | S754_nan => raise ValueError
  end.

(** [a / b] *)
Definition div (a b : float) : result float :=
  if b =? 0 then raise ZeroDivisionError else ret (a / b).

(** [math.sqrt(x)] *)
Definition sqrt (x : float) : result float :=
  if x <? 0 then raise ValueError else ret (PrimFloat.sqrt x).

(** [math.pi] *)
Definition pi : float := 3.141592653589793.

(** [a / b] for two [int]s: the correctly rounded quotient. *)
Definition int_true_div (a b : Z) : result float :=
  match a, b with
  | _, Z0 => raise ZeroDivisionError
  | Z0, _ => ret (if (b <? 0)%Z then neg_zero else zero)
  | Zpos p, Zpos q =>
      let f := SF2Prim (SFdiv prec emax (S754_finite false p 0) (S754_finite false q 0)) in
      if is_infinity f then raise OverflowError else ret f
  | Zneg p, Zneg q =>
      let f := SF2Prim (SFdiv prec emax (S754_finite false p 0) (S754_finite false q 0)) in
      if is_infinity f then raise OverflowError else ret f
  | Zpos p, Zneg q | Zneg p, Zpos q =>
      let f := SF2Prim (SFdiv prec emax (S754_finite true p 0) (S754_finite false q 0)) in
      if is_infinity f then raise OverflowError else ret f
  end.

Definition round_half_even (num den : Z) : Z :=
  let q := (num / den)%Z in
  let r := (num mod den)%Z in
  match (2 * r ?= den)%Z with
  | Lt => q
  | Gt => (q + 1)%Z
  | Eq => if Z.even q then q else (q + 1)%Z
  end.

(** [round(x, nd)] for [0 <= nd]: the decimal expansion of [x] rounded
    half-to-even at [nd] places, read back as the nearest float; NaN and
    the infinities round to themselves. *)
Definition round (x : float) (nd : Z) : float :=
  match Prim2SF x with
  | S754_finite s m e =>
      let p := (10 ^ nd)%Z in
      let n := if (0 <=? e)%Z then (Zpos m * 2 ^ e * p)%Z
               else round_half_even (Zpos m * p) (2 ^ (- e)) in
      match n, p with
      | Zpos n', Zpos p' =>
          SF2Prim (SFdiv prec emax (S754_finite s n' 0) (S754_finite false p' 0))
      | _, _ => if s then neg_zero else zero
      end
  | _ => x
  end.

(** [a >= b], [a > b] *)
Definition geb (a b : float) : bool := b <=? a.
Definition gtb (a b : float) : bool := b <? a.

(** [max(a, b)] and [min(a, b)]: the first argument unless the second is
    strictly better. *)
Definition max (a b : float) : float := if gtb b a then b else a.
Definition min (a b : float) : float := if b <? a then b else a.
End PyFloat.

(** [int] or [float], the numeric tower as far as this program uses it
    ([bool] counts as an [int]). *)
Inductive num : Type :=
| NInt (z : Z)
| NFloat (f : float).

Definition as_num (v : value) : option num :=
  match v with
  | VBool b => Some (NInt (Z.b2z b))
  | VInt z => Some (NInt z)
  | VFloat f => Some (NFloat f)
  | _ => None
  end.

Definition num_value (n : num) : value :=
  match n with
  | NInt z => VInt z
  | NFloat f => VFloat f
  end.

Definition num_to_float (n : num) : result float :=
  match n with
  | NInt z => PyFloat.of_Z z
  | NFloat f => ret f
  end.

(** [round(n, nd)]: an [int] is returned unchanged for [0 <= nd]. *)
Definition num_round (n : num) (nd : Z) : num :=
  match n with
  | NInt z => NInt z
  | NFloat f => NFloat (PyFloat.round f nd)
  end.

(** A number read as a float.  The [int]s that meet a float in a [max], a
    [min] or a comparison of this program are small literals (6, 50, 150,
    200, 300, 450), which convert exactly, so comparing the converted value
    is Python's exact mixed comparison. *)
Definition num_as_float (n : num) : float :=
  match n with
  | NInt z => PyFloat.of_Z_rounded z
  | NFloat f => f
  end.

(** [max(k, x)] and [min(x, k)] for an [int] literal [k] and a float [x]:
    the result keeps the type of the argument that wins. *)
Definition max_int_float (k : Z) (x : float) : num :=
  if PyFloat.gtb x (PyFloat.of_Z_rounded k) then NFloat x else NInt k.

Definition min_float_int (x : float) (k : Z) : num :=
  if PrimFloat.ltb (PyFloat.of_Z_rounded k) x then NInt k else NFloat x.

(** [x * v], [x + v] for a float [x] and an arbitrary object [v] *)
Definition float_mul_value (x : float) (v : value) : result float :=
  match as_num v with
  | Some n => y <- num_to_float n ;; ret (PrimFloat.mul x y)
  | None => raise TypeError
  end.

Definition float_add_value (x : float) (v : value) : result float :=
  match as_num v with
  | Some n => y <- num_to_float n ;; ret (PrimFloat.add x y)
  | None => raise TypeError
  end.

(** [v / k] for an arbitrary object [v] and a non-zero [int] literal [k] *)
Definition value_div_int (v : value) (k : Z) : result float :=
  match as_num v with
  | Some (NInt z) => PyFloat.int_true_div z k
  | Some (NFloat f) => y <- PyFloat.of_Z k ;; PyFloat.div f y
  | None => raise TypeError
  end.

Fixpoint str_repeat (s : string) (n : nat) : string :=
  match n with O => EmptyString | S n' => s ++ str_repeat s n' end.

Fixpoint list_repeat {A : Type} (l : list A) (n : nat) : list A :=
  match n with O => [] | S n' => l ++ list_repeat l n' end.

(** [a * b] for two arbitrary objects: numbers multiply, a sequence times an
    [int] repeats. *)
Definition py_mul (a b : value) : result value :=
  match as_num a, as_num b with
  | Some (NInt x), Some (NInt y) => ret (VInt (x * y))
  | Some x, Some y =>
      fx <- num_to_float x ;;
      fy <- num_to_float y ;;
      ret (VFloat (PrimFloat.mul fx fy))
  | Some (NInt n), None | None, Some (NInt n) =>
      match (match as_num a with Some _ => b | None => a end) with
      | VStr s => ret (VStr (str_repeat s (Z.to_nat n)))
      | VList l => ret (VList (list_repeat l (Z.to_nat n)))
      | _ => raise TypeError
      end
  | _, _ => raise TypeError
  end.

(** [v == k] for an [int] literal [k]; never raises. *)
Definition eq_int (v : value) (k : Z) : bool :=
  match as_num v with
  | Some (NInt z) => Z.eqb z k
  | Some (NFloat f) => PrimFloat.eqb f (PyFloat.of_Z_rounded k)
  | None => false
  end.

(** [str(z)] for an [int] *)
Definition str_of_Z (z : Z) : string := NilZero.string_of_int (Z.to_int z).

(** ** The runtime outside the repository *)

Class Runtime : Type := {
  (** [x ** y] on floats (the C library's [pow] behind [float.__pow__]) *)
  float_pow : float -> float -> result float;
  (** [float(s)] for a string: [None] when [s] is not a number *)
  float_of_str : string -> option float;
  (** [int(s)] for a string *)
  int_of_str : string -> option Z;
  (** [str(x)] for a float *)
  str_of_float : float -> string;
  (** [str(e)] for a caught exception *)
  str_of_exn : exn -> string;
  (** [s.lower()] for a string: every cased character, ASCII or not, in
      lower case *)
  str_lower : string -> string
}.

Section Conversions.
Context {RT : Runtime}.

(** [float(v)] *)
Definition py_float (v : value) : result float :=
  match v with
  | VFloat f => ret f
  | VInt z => PyFloat.of_Z z
  | VBool b => ret (if b then 1%float else 0%float)
  | VStr s => match float_of_str s with
              | Some f => ret f
              | None => raise ValueError
              end
  | _ => raise TypeError
  end.

(** [v.lower()] *)
Definition lower_method (v : value) : result string :=
  match v with
  | VStr s => ret (str_lower s)
  | _ => raise (AttributeError "lower")
  end.

(** [int(v)] *)
Definition py_int (v : value) : result Z :=
  match v with
  | VInt z => ret z
  | VBool b => ret (Z.b2z b)
  | VFloat f => PyFloat.to_Z f
  | VStr s => match int_of_str s with
              | Some z => ret z
              | None => raise ValueError
              end
  | _ => raise TypeError
  end.

(** [str(n)] for a number *)
Definition str_of_num (n : num) : string :=
  match n with
  | NInt z => str_of_Z z
  | NFloat f => str_of_float f
  end.

(** [x ** 2] *)
Definition sq (x : float) : result float := float_pow x 2%float.
End Conversions.

(** ** formulas.py *)

Module MaterialConstants.
(** Concrete grades (fck in N/mm2) and steel grades (fy in N/mm2) *)
Definition CONCRETE_GRADES : list (string * Z) :=
  [("M15", 15); ("M20", 20); ("M25", 25); ("M30", 30); ("M35", 35);
   ("M40", 40); ("M45", 45); ("M50", 50); ("M55", 55); ("M60", 60)]%Z.

Definition STEEL_GRADES : list (string * Z) :=
  [("Fe415", 415); ("Fe500", 500); ("Fe550", 550); ("Fe600", 600)]%Z.

Definition CONCRETE_DENSITY : float := 25.0.
Definition STEEL_DENSITY : float := 78.5.
End MaterialConstants.

Module ISCodeLimits.
Definition GAMMA_C : float := 1.5.
Definition GAMMA_S : float := 1.15.
Definition LOAD_FACTOR_DEAD : float := 1.5.
Definition LOAD_FACTOR_LIVE : float := 1.5.
Definition MIN_TENSION_STEEL : float := 0.85.
Definition MIN_SHEAR_STEEL : float := 0.4.
Definition MAX_TENSION_STEEL : float := 4.0.
End ISCodeLimits.

(** The grade tables hold small integers; every use of [fck] and [fy] in the
    checkers is an operation with a float (or a true division), which
    converts them exactly, so they are read as floats at once. *)
Definition grade_value (tbl : list (string * Z)) (grade : value) (dflt : Z) : result float :=
  z <- table_get tbl grade dflt ;; ret (PyFloat.of_Z_rounded z).

Section Formulas.
Context {RT : Runtime}.
Local Open Scope float_scope.

(** [calculate_design_moment(span, udl, point_loads)]: [point_loads] is a
    list of pairs [(P, a)]; [None] and the empty list behave alike. *)
Fixpoint moment_point_loop (span : float) (pls : list (float * float)) (moment_point : float)
  : result float :=
  match pls with
  | [] => ret moment_point
  | (P, a) :: tl =>
      let b := span - a in
      t <- PyFloat.div (P * a * b) span ;;
      moment_point_loop span tl (moment_point + PyFloat.max moment_point t)
  end.

Definition calculate_design_moment (span udl : float) (point_loads : list (float * float))
  : result float :=
  span2 <- sq span ;;
  let moment_udl := udl * span2 / 8 in
  moment_point <- moment_point_loop span point_loads 0 ;;
  ret (moment_udl + moment_point).

(** [calculate_design_shear(span, udl, point_loads)] *)
Definition calculate_design_shear (span udl : float) (point_loads : list (float * float))
  : float :=
  let shear_udl := udl * span / 2 in
  let shear_point := fold_left (fun acc Pa => acc + fst Pa / 2) point_loads 0 in
  shear_udl + shear_point.

(** The body of [calculate_required_area_of_steel] once the moment is in
    Nmm (lines 118-131). *)
Definition required_steel_for_nmm (moment fck fy b d : float) : result float :=
  let xu_max := 0.48 * d in
  let Mu_lim := 0.36 * fck * b * xu_max * (d - 0.42 * xu_max) in
  if moment <=? Mu_lim then
    d2 <- sq d ;;
    k <- PyFloat.div moment (fck * b * d2) ;;
    let j := 1 - (k / 3) in
    PyFloat.div moment (0.87 * fy * j * d)
  else
    PyFloat.div moment (0.87 * fy * 0.9 * d).

(** [calculate_required_area_of_steel(moment, fck, fy, b, d)] *)
Definition calculate_required_area_of_steel (moment fck fy b d : float) : result float :=
  let moment := if moment <? 1000 then moment * 1e6 else moment in
  let xu_max := 0.48 * d in
  let Mu_lim := 0.36 * fck * b * xu_max * (d - 0.42 * xu_max) in
  if moment <=? Mu_lim then
    d2 <- sq d ;;
    k <- PyFloat.div moment (fck * b * d2) ;;
    let j := 1 - (k / 3) in
    PyFloat.div moment (0.87 * fy * j * d)
  else
    PyFloat.div moment (0.87 * fy * 0.9 * d).

(** IS 456 Table 19 for [fck <= 20] *)
Definition tau_c_table (pt : float) : float :=
  if pt <=? 0.15 then 0.28
  else if pt <=? 0.25 then 0.30
  else if pt <=? 0.50 then 0.35
  else if pt <=? 0.75 then 0.39
  else if pt <=? 1.00 then 0.42
  else if pt <=? 1.25 then 0.45
  else if pt <=? 1.50 then 0.48
  else if pt <=? 1.75 then 0.50
  else if pt <=? 2.00 then 0.52
  else if pt <=? 2.25 then 0.54
  else if pt <=? 2.50 then 0.56
  else if pt <=? 2.75 then 0.57
  else 0.58.

(** [calculate_shear_capacity(b, d, fck, Ast)] *)
Definition calculate_shear_capacity (b d fck Ast : float) : result float :=
  pt <- (if PyFloat.gtb Ast 0 then PyFloat.div (100 * Ast) (b * d) else ret 0.15) ;;
  let pt := PyFloat.min pt 3.0 in
  tau_c <- (if fck <=? 20 then ret (tau_c_table pt)
            else
              let base_tau_c := 0.28 + (pt - 0.15) * 0.02 in
              r <- PyFloat.sqrt (fck / 20) ;;
              ret (base_tau_c * r)) ;;
  ret (tau_c * b * d).

(** [calculate_deflection_ratio(span, loading_type)] *)
Definition calculate_deflection_ratio (span : float) (loading_type : string) : Z :=
  if String.eqb loading_type "cantilever" then 7%Z
  else if String.eqb loading_type "simply_supported" then 20%Z
  else if String.eqb loading_type "continuous" then 26%Z
  else 20%Z.

(** [check_minimum_steel(Ast_provided, b, d, fy)] *)
Definition check_minimum_steel (Ast_provided b d fy : float) : result (bool * float) :=
  q <- PyFloat.div 0.85 fy ;;
  let Ast_min := q * b * d in
  ret (PyFloat.geb Ast_provided Ast_min, Ast_min).

(** [check_maximum_steel(Ast_provided, b, d)] *)
Definition check_maximum_steel (Ast_provided b d : float) : bool * float :=
  let Ast_max := 0.04 * b * d in
  (Ast_provided <=? Ast_max, Ast_max).
End Formulas.

(** ** What the checkers share *)

(** [all(check['pass'] for check in checks.values())] *)
Fixpoint all_pass (checks : dict) : result bool :=
  match checks with
  | [] => ret true
  | (_, check) :: tl =>
      p <- subscript check "pass" ;;
      if truthy p then all_pass tl else ret false
  end.

Definition status_of (overall_pass : bool) : value :=
  VStr (if overall_pass then "PASS" else "FAIL").

Definition rounded (x : float) (nd : Z) : value := VFloat (PyFloat.round x nd).

(** ** beam_checker.py *)

(** The local variables of [check_beam_compliance] when the checks start
    (line 69). *)
Record beam_locals : Type := {
  beam_span : float;
  beam_width : float;
  beam_depth : float;
  beam_cover : float;
  beam_bar_dia : float;
  beam_d : float;
  beam_concrete_grade : value;
  beam_steel_grade : value;
  beam_fck : float;
  beam_fy : float;
  beam_dead_load : float;
  beam_live_load : float;
  beam_wu : float;
  beam_Mu : float;
  beam_Vu : float;
  beam_Mu_nmm : float;
  beam_Vu_n : float;
  beam_Ast_required : float;
  beam_num_bars : Z;
  beam_bar_area : float;
  beam_Ast_provided : float
}.

Section BeamChecker.
Context {RT : Runtime}.
Local Open Scope float_scope.

(** Lines 25-67: extraction of the design parameters and the design
    forces. *)
Definition beam_extract (design_data : value) : result beam_locals :=
  dimensions <- subscript design_data "dimensions" ;;
  loads <- subscript design_data "loads" ;;
  materials <- subscript design_data "materials" ;;
  reinforcement <- subscript design_data "reinforcement" ;;
  length <- (v <- get_method dimensions "length" (VInt 0) ;; py_float v) ;;
  let span := length * 1000 in
  width <- (v <- get_method dimensions "breadth" (VInt 0) ;; py_float v) ;;
  depth <- (v <- get_method dimensions "depth" (VInt 0) ;; py_float v) ;;
  cover <- (v <- get_method reinforcement "cover" (VInt 25) ;; py_float v) ;;
  bar_dia <- (v <- get_method reinforcement "bar_diameter" (VInt 16) ;; py_float v) ;;
  let d := depth - cover - bar_dia / 2 in
  concrete_grade <- get_method materials "concrete_grade" (VStr "M20") ;;
  steel_grade <- get_method materials "steel_grade" (VStr "Fe500") ;;
  fck <- grade_value MaterialConstants.CONCRETE_GRADES concrete_grade 20 ;;
  fy <- grade_value MaterialConstants.STEEL_GRADES steel_grade 500 ;;
  dead_load <- (v <- get_method loads "dead_load" (VInt 0) ;; py_float v) ;;
  live_load <- (v <- get_method loads "live_load" (VInt 0) ;; py_float v) ;;
  let wu := ISCodeLimits.LOAD_FACTOR_DEAD * dead_load
            + ISCodeLimits.LOAD_FACTOR_LIVE * live_load in
  Mu <- calculate_design_moment (span / 1000) wu [] ;;
  let Vu := calculate_design_shear (span / 1000) wu [] in
  let Mu_nmm := Mu * 1e6 in
  let Vu_n := Vu * 1000 in
  Ast_required <- calculate_required_area_of_steel Mu_nmm fck fy width d ;;
  num_bars <- (v <- get_method reinforcement "num_bars" (VInt 2) ;; py_int v) ;;
  half2 <- sq (bar_dia / 2) ;;
  let bar_area := PyFloat.pi * half2 in
  n <- PyFloat.of_Z num_bars ;;
  let Ast_provided := n * bar_area in
  ret {| beam_span := span; beam_width := width; beam_depth := depth;
         beam_cover := cover; beam_bar_dia := bar_dia; beam_d := d;
         beam_concrete_grade := concrete_grade; beam_steel_grade := steel_grade;
         beam_fck := fck; beam_fy := fy;
         beam_dead_load := dead_load; beam_live_load := live_load;
         beam_wu := wu; beam_Mu := Mu; beam_Vu := Vu;
         beam_Mu_nmm := Mu_nmm; beam_Vu_n := Vu_n;
         beam_Ast_required := Ast_required; beam_num_bars := num_bars;
         beam_bar_area := bar_area; beam_Ast_provided := Ast_provided |}.

(** Lines 69-153: the six checks, the overall verdict and the summary. *)
Definition beam_report (L : beam_locals) : result value :=
  let span := beam_span L in
  let width := beam_width L in
  let d := beam_d L in
  let fck := beam_fck L in
  let fy := beam_fy L in
  let Ast_required := beam_Ast_required L in
  let Ast_provided := beam_Ast_provided L in
  let bar_dia := beam_bar_dia L in
  (* 1. flexural strength *)
  let flexural_strength := VDict
    [("required_steel", rounded Ast_required 2);
     ("provided_steel", rounded Ast_provided 2);
     ("pass", VBool (PyFloat.geb Ast_provided Ast_required));
     ("description", VStr "Flexural reinforcement adequacy")] in
  (* 2. minimum steel *)
  min_chk <- check_minimum_steel Ast_provided width d fy ;;
  let '(min_adequate, Ast_min) := min_chk in
  let minimum_steel := VDict
    [("minimum_required", rounded Ast_min 2);
     ("provided_steel", rounded Ast_provided 2);
     ("pass", VBool min_adequate);
     ("description", VStr "Minimum tension reinforcement (IS 456 Cl. 26.5.1.1)")] in
  (* 3. maximum steel *)
  let '(max_adequate, Ast_max) := check_maximum_steel Ast_provided width d in
  let maximum_steel := VDict
    [("maximum_allowed", rounded Ast_max 2);
     ("provided_steel", rounded Ast_provided 2);
     ("pass", VBool max_adequate);
     ("description", VStr "Maximum tension reinforcement (IS 456 Cl. 26.5.1.1)")] in
  (* 4. shear strength *)
  Vc <- calculate_shear_capacity width d fck Ast_provided ;;
  let shear_strength := VDict
    [("design_shear", rounded (beam_Vu_n L) 2);
     ("shear_capacity", rounded Vc 2);
     ("pass", VBool (PyFloat.geb Vc (beam_Vu_n L)));
     ("description", VStr "Shear strength without stirrups (IS 456 Cl. 40)")] in
  (* 5. deflection *)
  let basic_ratio := calculate_deflection_ratio span "simply_supported" in
  actual_ratio <- PyFloat.div span d ;;
  fs <- (if PyFloat.gtb Ast_provided 0
         then PyFloat.div (0.58 * fy * Ast_required) Ast_provided
         else ret (0.58 * fy)) ;;
  let kt := 1.0 in
  let allowable_ratio := PyFloat.of_Z_rounded basic_ratio * kt in
  let deflection := VDict
    [("actual_span_depth_ratio", rounded actual_ratio 2);
     ("allowable_span_depth_ratio", rounded allowable_ratio 2);
     ("pass", VBool (actual_ratio <=? allowable_ratio));
     ("description", VStr "Deflection control (IS 456 Cl. 23.2.1)")] in
  (* 6. development length *)
  root_fck <- PyFloat.sqrt fck ;;
  ld <- PyFloat.div (bar_dia * fy) (4 * root_fck) ;;
  let available_length := span / 2 in
  let development_length := VDict
    [("required_length", rounded ld 2);
     ("available_length", rounded available_length 2);
     ("pass", VBool (PyFloat.geb available_length ld));
     ("description", VStr "Development length (IS 456 Cl. 26.2.1)")] in
  let checks :=
    [("flexural_strength", flexural_strength);
     ("minimum_steel", minimum_steel);
     ("maximum_steel", maximum_steel);
     ("shear_strength", shear_strength);
     ("deflection", deflection);
     ("development_length", development_length)] in
  overall_pass <- all_pass checks ;;
  ret (VDict
    [("member_type", VStr "beam");
     ("overall_compliance", VBool overall_pass);
     ("design_summary", VDict
        [("span", VFloat span);
         ("width", VFloat width);
         ("depth", VFloat (beam_depth L));
         ("effective_depth", rounded d 2);
         ("design_moment", rounded (beam_Mu L) 2);
         ("design_shear", rounded (beam_Vu L) 2);
         ("concrete_grade", beam_concrete_grade L);
         ("steel_grade", beam_steel_grade L)]);
     ("checks", VDict checks);
     ("status", status_of overall_pass)]).

Definition beam_body (design_data : value) : result value :=
  L <- beam_extract design_data ;; beam_report L.

(** [check_beam_compliance(design_data)] *)
Definition check_beam_compliance (design_data : value) : value :=
  match beam_body design_data with
  | inl res => res
  | inr e =>
      VDict [("error", VStr ("Beam compliance check failed: " ++ str_of_exn e)%string);
             ("member_type", VStr "beam")]
  end.
End BeamChecker.

(** ** column_checker.py *)

Record column_locals : Type := {
  col_width : float;
  col_depth : float;
  col_height : float;
  col_cover : float;
  col_concrete_grade : value;
  col_steel_grade : value;
  col_fck : float;
  col_fy : float;
  col_axial_load : float;
  col_moment : float;
  col_Pu : float;
  col_Mu : float;
  col_Ag : float;
  col_bar_dia : float;
  col_num_bars : Z;
  col_bar_area : float;
  col_Ast : float
}.

Section ColumnChecker.
Context {RT : Runtime}.
Local Open Scope float_scope.

(** Lines 20-52 *)
Definition column_extract (design_data : value) : result column_locals :=
  dimensions <- subscript design_data "dimensions" ;;
  loads <- subscript design_data "loads" ;;
  materials <- subscript design_data "materials" ;;
  reinforcement <- subscript design_data "reinforcement" ;;
  width <- (v <- get_method dimensions "breadth" (VInt 0) ;; py_float v) ;;
  depth <- (v <- get_method dimensions "depth" (VInt 0) ;; py_float v) ;;
  length <- (v <- get_method dimensions "length" (VInt 0) ;; py_float v) ;;
  let height := length * 1000 in
  cover <- (v <- get_method reinforcement "cover" (VInt 40) ;; py_float v) ;;
  concrete_grade <- get_method materials "concrete_grade" (VStr "M20") ;;
  steel_grade <- get_method materials "steel_grade" (VStr "Fe500") ;;
  fck <- grade_value MaterialConstants.CONCRETE_GRADES concrete_grade 20 ;;
  fy <- grade_value MaterialConstants.STEEL_GRADES steel_grade 500 ;;
  axial_load <- (v <- get_method loads "axial_load" (VInt 0) ;; py_float v) ;;
  moment <- (v <- get_method loads "moment" (VInt 0) ;; py_float v) ;;
  let Pu := ISCodeLimits.LOAD_FACTOR_DEAD * axial_load in
  let Mu := ISCodeLimits.LOAD_FACTOR_DEAD * moment in
  let Ag := width * depth in
  bar_dia <- (v <- get_method reinforcement "bar_diameter" (VInt 16) ;; py_float v) ;;
  num_bars <- (v <- get_method reinforcement "num_bars" (VInt 8) ;; py_int v) ;;
  half2 <- sq (bar_dia / 2) ;;
  let bar_area := PyFloat.pi * half2 in
  n <- PyFloat.of_Z num_bars ;;
  let Ast := n * bar_area in
  ret {| col_width := width; col_depth := depth; col_height := height;
         col_cover := cover;
         col_concrete_grade := concrete_grade; col_steel_grade := steel_grade;
         col_fck := fck; col_fy := fy;
         col_axial_load := axial_load; col_moment := moment;
         col_Pu := Pu; col_Mu := Mu; col_Ag := Ag;
         col_bar_dia := bar_dia; col_num_bars := num_bars;
         col_bar_area := bar_area; col_Ast := Ast |}.

(** Lines 54-153 *)
Definition column_report (L : column_locals) : result value :=
  let width := col_width L in
  let depth := col_depth L in
  let height := col_height L in
  let fck := col_fck L in
  let fy := col_fy L in
  let Pu := col_Pu L in
  let Ag := col_Ag L in
  let bar_dia := col_bar_dia L in
  let num_bars := col_num_bars L in
  let Ast := col_Ast L in
  (* 1. minimum dimension *)
  let min_dimension := PyFloat.min width depth in
  let minimum_dimension := VDict
    [("minimum_dimension", VFloat min_dimension);
     ("required_minimum", VInt 200);
     ("pass", VBool (PyFloat.geb min_dimension 200));
     ("description", VStr "Minimum column dimension (IS 456 Cl. 25.1.2)")] in
  (* 2. slenderness ratio *)
  let effective_length := height in
  let least_radius := PyFloat.min width depth / (2 * PrimFloat.sqrt 3) in
  slenderness_ratio <- PyFloat.div effective_length least_radius ;;
  let slenderness := VDict
    [("slenderness_ratio", rounded slenderness_ratio 2);
     ("maximum_allowed", VInt 60);
     ("pass", VBool (slenderness_ratio <=? 60));
     ("description", VStr "Slenderness ratio (IS 456 Cl. 25.3)")] in
  (* 3. minimum steel *)
  let Ast_min := 0.008 * Ag in
  let minimum_steel := VDict
    [("minimum_required", rounded Ast_min 2);
     ("provided_steel", rounded Ast 2);
     ("pass", VBool (PyFloat.geb Ast Ast_min));
     ("description", VStr "Minimum longitudinal reinforcement (IS 456 Cl. 26.5.3.1 a)")] in
  (* 4. maximum steel *)
  let Ast_max := 0.04 * Ag in
  let maximum_steel := VDict
    [("maximum_allowed", rounded Ast_max 2);
     ("provided_steel", rounded Ast 2);
     ("pass", VBool (Ast <=? Ast_max));
     ("description", VStr "Maximum longitudinal reinforcement (IS 456 Cl. 26.5.3.1 c)")] in
  (* 5. axial load capacity *)
  let Pu_max := 0.4 * fck * (Ag - Ast) + 0.67 * fy * Ast in
  let Pu_max := Pu_max / 1000 in
  let axial_capacity := VDict
    [("design_load", rounded Pu 2);
     ("capacity", rounded Pu_max 2);
     ("pass", VBool (Pu <=? Pu_max));
     ("description", VStr "Axial load capacity (IS 456 Cl. 39.3)")] in
  (* 6. minimum number of bars *)
  let min_bars := if PyFloat.min width depth <=? 200 then 4%Z else 6%Z in
  let minimum_bars := VDict
    [("minimum_required", VInt min_bars);
     ("provided_bars", VInt num_bars);
     ("pass", VBool (min_bars <=? num_bars)%Z);
     ("description", VStr "Minimum number of longitudinal bars (IS 456 Cl. 26.5.3.1 d)")] in
  (* 7. tie reinforcement *)
  let tie_dia := max_int_float 6 (bar_dia / 4) in
  let least_dimension := PyFloat.min width depth in
  let tie_spacing := min_float_int (PyFloat.min least_dimension (16 * bar_dia)) 300 in
  let tie_reinforcement := VDict
    [("minimum_tie_diameter", num_value (num_round tie_dia 2));
     ("maximum_tie_spacing", num_value (num_round tie_spacing 2));
     ("description", VStr "Tie reinforcement requirements (IS 456 Cl. 26.5.3.2)");
     ("pass", VBool true)] in
  let checks :=
    [("minimum_dimension", minimum_dimension);
     ("slenderness_ratio", slenderness);
     ("minimum_steel", minimum_steel);
     ("maximum_steel", maximum_steel);
     ("axial_capacity", axial_capacity);
     ("minimum_bars", minimum_bars);
     ("tie_reinforcement", tie_reinforcement)] in
  overall_pass <- all_pass checks ;;
  steel_percentage <- PyFloat.div (100 * Ast) Ag ;;
  ret (VDict
    [("member_type", VStr "column");
     ("overall_compliance", VBool overall_pass);
     ("design_summary", VDict
        [("width", VFloat width);
         ("depth", VFloat depth);
         ("height", VFloat height);
         ("gross_area", rounded Ag 2);
         ("steel_percentage", rounded steel_percentage 2);
         ("design_axial_load", rounded Pu 2);
         ("concrete_grade", col_concrete_grade L);
         ("steel_grade", col_steel_grade L)]);
     ("checks", VDict checks);
     ("status", status_of overall_pass)]).

Definition column_body (design_data : value) : result value :=
  L <- column_extract design_data ;; column_report L.

(** [check_column_compliance(design_data)] *)
Definition check_column_compliance (design_data : value) : value :=
  match column_body design_data with
  | inl res => res
  | inr e =>
      VDict [("error", VStr ("Column compliance check failed: " ++ str_of_exn e)%string);
             ("member_type", VStr "column")]
  end.
End ColumnChecker.

(** ** slab_checker.py *)

Record slab_locals : Type := {
  slab_length : float;
  slab_breadth : float;
  slab_thickness : float;
  slab_cover : float;
  slab_bar_dia : float;
  slab_d : float;
  slab_concrete_grade : value;
  slab_steel_grade : value;
  slab_fck : float;
  slab_fy : float;
  slab_wu : float;
  slab_aspect_ratio : float;
  slab_slab_type : string;
  slab_shorter_span : float;
  slab_Mu : float;
  slab_Mu_nmm : float;
  slab_Ast_required : float;
  slab_spacing : float;
  slab_bar_area : float;
  slab_Ast_provided : float;
  slab_reinforcement : value
}.

Section SlabChecker.
Context {RT : Runtime}.
Local Open Scope float_scope.

(** Lines 20-82 *)
Definition slab_extract (design_data : value) : result slab_locals :=
  dimensions <- subscript design_data "dimensions" ;;
  loads <- subscript design_data "loads" ;;
  materials <- subscript design_data "materials" ;;
  reinforcement <- subscript design_data "reinforcement" ;;
  length <- (v <- get_method dimensions "length" (VInt 0) ;; py_float v) ;;
  let length := length * 1000 in
  breadth <- (v <- get_method dimensions "breadth" (VInt 0) ;; py_float v) ;;
  let breadth := breadth * 1000 in
  thickness <- (v <- get_method dimensions "depth" (VInt 0) ;; py_float v) ;;
  cover <- (v <- get_method reinforcement "cover" (VInt 20) ;; py_float v) ;;
  bar_dia <- (v <- get_method reinforcement "bar_diameter" (VInt 10) ;; py_float v) ;;
  let d := thickness - cover - bar_dia / 2 in
  concrete_grade <- get_method materials "concrete_grade" (VStr "M20") ;;
  steel_grade <- get_method materials "steel_grade" (VStr "Fe500") ;;
  fck <- grade_value MaterialConstants.CONCRETE_GRADES concrete_grade 20 ;;
  fy <- grade_value MaterialConstants.STEEL_GRADES steel_grade 500 ;;
  dead_load <- (v <- get_method loads "dead_load" (VInt 0) ;; py_float v) ;;
  live_load <- (v <- get_method loads "live_load" (VInt 0) ;; py_float v) ;;
  let self_weight := thickness / 1000 * MaterialConstants.CONCRETE_DENSITY in
  let total_dead_load := dead_load + self_weight in
  let wu := ISCodeLimits.LOAD_FACTOR_DEAD * total_dead_load
            + ISCodeLimits.LOAD_FACTOR_LIVE * live_load in
  aspect_ratio <- PyFloat.div (PyFloat.max length breadth) (PyFloat.min length breadth) ;;
  let slab_type := if PyFloat.geb aspect_ratio 2.0 then "one_way" else "two_way" in
  let shorter_span := PyFloat.min length breadth / 1000 in
  ss2 <- sq shorter_span ;;
  let Mu := if String.eqb slab_type "one_way"
            then wu * ss2 / 8
            else (let alpha_x := 0.087 in alpha_x * wu * ss2) in
  let Mu_nmm := Mu * 1e6 / 1000 in
  let b := 1000 in
  d2 <- sq d ;;
  k <- PyFloat.div Mu_nmm (fck * b * d2) ;;
  Ast_required <- (if k <=? 0.138
                   then (let j := 1 - k / 3 in PyFloat.div Mu_nmm (0.87 * fy * j * d))
                   else PyFloat.div Mu_nmm (0.87 * fy * 0.9 * d)) ;;
  spacing <- (v <- get_method reinforcement "spacing" (VInt 150) ;; py_float v) ;;
  half2 <- sq (bar_dia / 2) ;;
  let bar_area := PyFloat.pi * half2 in
  Ast_provided <- PyFloat.div (1000 * bar_area) spacing ;;
  ret {| slab_length := length; slab_breadth := breadth; slab_thickness := thickness;
         slab_cover := cover; slab_bar_dia := bar_dia; slab_d := d;
         slab_concrete_grade := concrete_grade; slab_steel_grade := steel_grade;
         slab_fck := fck; slab_fy := fy; slab_wu := wu;
         slab_aspect_ratio := aspect_ratio; slab_slab_type := slab_type;
         slab_shorter_span := shorter_span; slab_Mu := Mu; slab_Mu_nmm := Mu_nmm;
         slab_Ast_required := Ast_required; slab_spacing := spacing;
         slab_bar_area := bar_area; slab_Ast_provided := Ast_provided;
         slab_reinforcement := reinforcement |}.

(** Lines 135-146: the sixth check, for one-way slabs only. *)
Definition slab_distribution_check (L : slab_locals) : result dict :=
  if String.eqb (slab_slab_type L) "one_way" then
    let Ast_dist_min := 0.12 * slab_thickness L * 1000 / 100 in
    dist_spacing <- (v <- get_method (slab_reinforcement L) "distribution_spacing" (VInt 200) ;;
                     py_float v) ;;
    Ast_dist_provided <- PyFloat.div (1000 * slab_bar_area L) dist_spacing ;;
    ret [("distribution_steel", VDict
            [("minimum_required", rounded Ast_dist_min 2);
             ("provided_steel", rounded Ast_dist_provided 2);
             ("pass", VBool (PyFloat.geb Ast_dist_provided Ast_dist_min));
             ("description", VStr "Distribution reinforcement (IS 456 Cl. 26.5.2.1)")])]
  else ret [].

(** Lines 84-171 *)
Definition slab_report (L : slab_locals) : result value :=
  let thickness := slab_thickness L in
  let d := slab_d L in
  let fck := slab_fck L in
  let wu := slab_wu L in
  let shorter_span := slab_shorter_span L in
  let Ast_required := slab_Ast_required L in
  let Ast_provided := slab_Ast_provided L in
  let spacing := slab_spacing L in
  let b := 1000 in
  (* 1. minimum thickness *)
  let min_thickness_required := shorter_span * 1000 / 20 in
  let minimum_thickness := VDict
    [("minimum_required", rounded min_thickness_required 2);
     ("provided_thickness", VFloat thickness);
     ("pass", VBool (PyFloat.geb thickness min_thickness_required));
     ("description", VStr "Minimum thickness for deflection control (IS 456 Cl. 23.2.1)")] in
  (* 2. flexural strength *)
  let flexural_strength := VDict
    [("required_steel", rounded Ast_required 2);
     ("provided_steel", rounded Ast_provided 2);
     ("pass", VBool (PyFloat.geb Ast_provided Ast_required));
     ("description", VStr "Flexural reinforcement adequacy")] in
  (* 3. minimum steel *)
  let Ast_min := 0.12 * thickness * 1000 / 100 in
  let minimum_steel := VDict
    [("minimum_required", rounded Ast_min 2);
     ("provided_steel", rounded Ast_provided 2);
     ("pass", VBool (PyFloat.geb Ast_provided Ast_min));
     ("description", VStr "Minimum reinforcement (IS 456 Cl. 26.5.2.1)")] in
  (* 4. maximum spacing *)
  let max_spacing := min_float_int (3 * thickness) 300 in
  let maximum_spacing := VDict
    [("maximum_allowed", num_value max_spacing);
     ("provided_spacing", VFloat spacing);
     ("pass", VBool (spacing <=? num_as_float max_spacing));
     ("description", VStr "Maximum spacing of reinforcement (IS 456 Cl. 26.3.3)")] in
  (* 5. shear *)
  let Vu := wu * shorter_span / 2 * 1000 in
  tau_v <- PyFloat.div Vu (b * d) ;;
  pt <- PyFloat.div (100 * Ast_provided) (b * d) ;;
  root_fck <- PyFloat.sqrt fck ;;
  let tau_c_max := 0.25 * root_fck in
  let shear_strength := VDict
    [("design_shear_stress", rounded tau_v 3);
     ("maximum_allowable", rounded tau_c_max 3);
     ("pass", VBool (tau_v <=? tau_c_max));
     ("description", VStr "Shear strength (IS 456 Cl. 40.2.1)")] in
  (* 6. distribution steel *)
  distribution <- slab_distribution_check L ;;
  let checks :=
    [("minimum_thickness", minimum_thickness);
     ("flexural_strength", flexural_strength);
     ("minimum_steel", minimum_steel);
     ("maximum_spacing", maximum_spacing);
     ("shear_strength", shear_strength)] ++ distribution in
  overall_pass <- all_pass checks ;;
  ret (VDict
    [("member_type", VStr "slab");
     ("overall_compliance", VBool overall_pass);
     ("design_summary", VDict
        [("length", VFloat (slab_length L));
         ("breadth", VFloat (slab_breadth L));
         ("thickness", VFloat thickness);
         ("effective_depth", rounded d 2);
         ("slab_type", VStr (slab_slab_type L));
         ("aspect_ratio", rounded (slab_aspect_ratio L) 2);
         ("design_moment", rounded (slab_Mu L) 2);
         ("factored_load", rounded wu 2);
         ("concrete_grade", slab_concrete_grade L);
         ("steel_grade", slab_steel_grade L)]);
     ("checks", VDict checks);
     ("status", status_of overall_pass)]).

Definition slab_body (design_data : value) : result value :=
  L <- slab_extract design_data ;; slab_report L.

(** [check_slab_compliance(design_data)] *)
Definition check_slab_compliance (design_data : value) : value :=
  match slab_body design_data with
  | inl res => res
  | inr e =>
      VDict [("error", VStr ("Slab compliance check failed: " ++ str_of_exn e)%string);
             ("member_type", VStr "slab")]
  end.
End SlabChecker.

(** ** footing_checker.py *)

Record footing_locals : Type := {
  ftg_length : float;
  ftg_breadth : float;
  ftg_thickness : float;
  ftg_cover : float;
  ftg_column_size : float;
  ftg_bar_dia : float;
  ftg_d : float;
  ftg_concrete_grade : value;
  ftg_steel_grade : value;
  ftg_fck : float;
  ftg_fy : float;
  ftg_axial_load : float;
  ftg_moment : float;
  ftg_sbc : float;
  ftg_footing_area : float;
  ftg_self_weight : float;
  ftg_total_load : float;
  ftg_bearing_pressure : float;
  ftg_net_pressure : float;
  ftg_cantilever_length : float;
  ftg_critical_moment : float;
  ftg_Mu_nmm : float;
  ftg_b : float;
  ftg_Ast_required : float;
  ftg_spacing : float;
  ftg_bar_area : float;
  ftg_num_bars : Z;
  ftg_Ast_provided : float
}.

Section FootingChecker.
Context {RT : Runtime}.
Local Open Scope float_scope.

(** Lines 20-92 *)
Definition footing_extract (design_data : value) : result footing_locals :=
  dimensions <- subscript design_data "dimensions" ;;
  loads <- subscript design_data "loads" ;;
  materials <- subscript design_data "materials" ;;
  reinforcement <- subscript design_data "reinforcement" ;;
  length <- (v <- get_method dimensions "length" (VInt 0) ;; py_float v) ;;
  let length := length * 1000 in
  breadth <- (v <- get_method dimensions "breadth" (VInt 0) ;; py_float v) ;;
  let breadth := breadth * 1000 in
  thickness <- (v <- get_method dimensions "depth" (VInt 0) ;; py_float v) ;;
  cover <- (v <- get_method reinforcement "cover" (VInt 50) ;; py_float v) ;;
  column_size <- (v <- get_method dimensions "column_size" (VInt 300) ;; py_float v) ;;
  bar_dia <- (v <- get_method reinforcement "bar_diameter" (VInt 16) ;; py_float v) ;;
  let d := thickness - cover - bar_dia / 2 in
  concrete_grade <- get_method materials "concrete_grade" (VStr "M20") ;;
  steel_grade <- get_method materials "steel_grade" (VStr "Fe500") ;;
  fck <- grade_value MaterialConstants.CONCRETE_GRADES concrete_grade 20 ;;
  fy <- grade_value MaterialConstants.STEEL_GRADES steel_grade 500 ;;
  axial_load <- (v <- get_method loads "axial_load" (VInt 0) ;; py_float v) ;;
  moment <- (v <- get_method loads "moment" (VInt 0) ;; py_float v) ;;
  sbc <- (v <- get_method loads "safe_bearing_capacity" (VInt 200) ;; py_float v) ;;
  let footing_area := length * breadth / 1e6 in
  let self_weight := footing_area * thickness / 1000 * MaterialConstants.CONCRETE_DENSITY in
  let total_load := axial_load + self_weight in
  bearing_pressure <- PyFloat.div total_load footing_area ;;
  sw_per_area <- PyFloat.div self_weight footing_area ;;
  let net_pressure := bearing_pressure - sw_per_area in
  let cantilever_length := (PyFloat.max length breadth - column_size) / 2 / 1000 in
  cl2 <- sq cantilever_length ;;
  let '(moment_x, moment_y) :=
    if PyFloat.geb length breadth
    then (net_pressure * breadth / 1000 * cl2 / 2, net_pressure * length / 1000 * cl2 / 2)
    else (net_pressure * length / 1000 * cl2 / 2, net_pressure * breadth / 1000 * cl2 / 2) in
  let critical_moment := PyFloat.max moment_x moment_y in
  Mu_nmm <- PyFloat.div (critical_moment * 1e6) (PyFloat.min length breadth) ;;
  let b := PyFloat.min length breadth in
  d2 <- sq d ;;
  k <- PyFloat.div Mu_nmm (fck * b * d2) ;;
  Ast_required <- (if k <=? 0.138
                   then (let j := 1 - k / 3 in PyFloat.div Mu_nmm (0.87 * fy * j * d))
                   else PyFloat.div Mu_nmm (0.87 * fy * 0.9 * d)) ;;
  spacing <- (v <- get_method reinforcement "spacing" (VInt 150) ;; py_float v) ;;
  half2 <- sq (bar_dia / 2) ;;
  let bar_area := PyFloat.pi * half2 in
  bars <- (q <- PyFloat.div b spacing ;; PyFloat.to_Z q) ;;
  let num_bars := (bars + 1)%Z in
  n <- PyFloat.of_Z num_bars ;;
  let Ast_provided := n * bar_area in
  ret {| ftg_length := length; ftg_breadth := breadth; ftg_thickness := thickness;
         ftg_cover := cover; ftg_column_size := column_size; ftg_bar_dia := bar_dia;
         ftg_d := d;
         ftg_concrete_grade := concrete_grade; ftg_steel_grade := steel_grade;
         ftg_fck := fck; ftg_fy := fy;
         ftg_axial_load := axial_load; ftg_moment := moment; ftg_sbc := sbc;
         ftg_footing_area := footing_area; ftg_self_weight := self_weight;
         ftg_total_load := total_load; ftg_bearing_pressure := bearing_pressure;
         ftg_net_pressure := net_pressure; ftg_cantilever_length := cantilever_length;
         ftg_critical_moment := critical_moment; ftg_Mu_nmm := Mu_nmm; ftg_b := b;
         ftg_Ast_required := Ast_required; ftg_spacing := spacing;
         ftg_bar_area := bar_area; ftg_num_bars := num_bars;
         ftg_Ast_provided := Ast_provided |}.

(** Lines 140-163: the one-way shear check. *)
Definition footing_one_way_shear (L : footing_locals) : result value :=
  let d := ftg_d L in
  let b := ftg_b L in
  let shear_span := ftg_cantilever_length L - d / 1000 in
  if PyFloat.gtb shear_span 0 then
    let Vu := ftg_net_pressure L * PyFloat.min (ftg_length L) (ftg_breadth L) / 1000
              * shear_span * 1000 in
    tau_v <- PyFloat.div Vu (b * d) ;;
    pt <- PyFloat.div (100 * ftg_Ast_provided L) (b * d) ;;
    root_fck <- PyFloat.sqrt (ftg_fck L) ;;
    let tau_c := 0.36 * root_fck in
    ret (VDict
      [("design_shear_stress", rounded tau_v 3);
       ("allowable_shear_stress", rounded tau_c 3);
       ("pass", VBool (tau_v <=? tau_c));
       ("description", VStr "One-way shear strength (IS 456 Cl. 40)")])
  else
    ret (VDict
      [("design_shear_stress", VInt 0);
       ("allowable_shear_stress", VInt 0);
       ("pass", VBool true);
       ("description", VStr "One-way shear - Not critical")]).

(** Lines 94-203 *)
Definition footing_report (L : footing_locals) : result value :=
  let thickness := ftg_thickness L in
  let d := ftg_d L in
  let b := ftg_b L in
  let bearing_pressure := ftg_bearing_pressure L in
  let sbc := ftg_sbc L in
  let Ast_required := ftg_Ast_required L in
  let Ast_provided := ftg_Ast_provided L in
  let spacing := ftg_spacing L in
  let column_size := ftg_column_size L in
  (* 1. bearing pressure *)
  let bearing := VDict
    [("bearing_pressure", rounded bearing_pressure 2);
     ("safe_bearing_capacity", VFloat sbc);
     ("pass", VBool (bearing_pressure <=? sbc));
     ("description", VStr "Soil bearing pressure check")] in
  (* 2. minimum thickness *)
  let min_thickness := max_int_float 150 (ftg_cantilever_length L * 1000 / 4) in
  let minimum_thickness := VDict
    [("minimum_required", num_value (num_round min_thickness 2));
     ("provided_thickness", VFloat thickness);
     ("pass", VBool (PyFloat.geb thickness (num_as_float min_thickness)));
     ("description", VStr "Minimum thickness requirement")] in
  (* 3. flexural strength *)
  let flexural_strength := VDict
    [("required_steel", rounded Ast_required 2);
     ("provided_steel", rounded Ast_provided 2);
     ("pass", VBool (PyFloat.geb Ast_provided Ast_required));
     ("description", VStr "Flexural reinforcement adequacy")] in
  (* 4. minimum steel *)
  let Ast_min := 0.12 * thickness * b / 100 in
  let minimum_steel := VDict
    [("minimum_required", rounded Ast_min 2);
     ("provided_steel", rounded Ast_provided 2);
     ("pass", VBool (PyFloat.geb Ast_provided Ast_min));
     ("description", VStr "Minimum reinforcement (IS 456 Cl. 26.5.2.1)")] in
  (* 5. maximum spacing *)
  let max_spacing := min_float_int (3 * thickness) 450 in
  let maximum_spacing := VDict
    [("maximum_allowed", num_value max_spacing);
     ("provided_spacing", VFloat spacing);
     ("pass", VBool (spacing <=? num_as_float max_spacing));
     ("description", VStr "Maximum spacing of reinforcement")] in
  (* 6. one-way shear *)
  one_way_shear <- footing_one_way_shear L ;;
  (* 7. two-way (punching) shear *)
  let critical_perimeter := 4 * (column_size + d) in
  punching_area <- sq (column_size + d) ;;
  let punching_force := ftg_axial_load L * 1000
                        - ftg_net_pressure L * punching_area / 1e6 * 1000 in
  tau_v_punch <- PyFloat.div punching_force (critical_perimeter * d) ;;
  root_fck <- PyFloat.sqrt (ftg_fck L) ;;
  let tau_c_punch := 0.25 * root_fck in
  let punching_shear := VDict
    [("punching_shear_stress", rounded tau_v_punch 3);
     ("allowable_punching_stress", rounded tau_c_punch 3);
     ("pass", VBool (tau_v_punch <=? tau_c_punch));
     ("description", VStr "Two-way shear (punching) strength (IS 456 Cl. 31.6)")] in
  let checks :=
    [("bearing_pressure", bearing);
     ("minimum_thickness", minimum_thickness);
     ("flexural_strength", flexural_strength);
     ("minimum_steel", minimum_steel);
     ("maximum_spacing", maximum_spacing);
     ("one_way_shear", one_way_shear);
     ("punching_shear", punching_shear)] in
  overall_pass <- all_pass checks ;;
  ret (VDict
    [("member_type", VStr "footing");
     ("overall_compliance", VBool overall_pass);
     ("design_summary", VDict
        [("length", VFloat (ftg_length L));
         ("breadth", VFloat (ftg_breadth L));
         ("thickness", VFloat thickness);
         ("effective_depth", rounded d 2);
         ("footing_area", rounded (ftg_footing_area L) 2);
         ("bearing_pressure", rounded bearing_pressure 2);
         ("critical_moment", rounded (ftg_critical_moment L) 2);
         ("concrete_grade", ftg_concrete_grade L);
         ("steel_grade", ftg_steel_grade L)]);
     ("checks", VDict checks);
     ("status", status_of overall_pass)]).

Definition footing_body (design_data : value) : result value :=
  L <- footing_extract design_data ;; footing_report L.

(** [check_footing_compliance(design_data)] *)
Definition check_footing_compliance (design_data : value) : value :=
  match footing_body design_data with
  | inl res => res
  | inr e =>
      VDict [("error", VStr ("Footing compliance check failed: " ++ str_of_exn e)%string);
             ("member_type", VStr "footing")]
  end.
End FootingChecker.

(** ** load_calculator.py *)

(** [v <= k] for an arbitrary object [v] and an [int] literal [k] *)
Definition value_le_int (v : value) (k : Z) : result bool :=
  match as_num v with
  | Some (NInt z) => ret (z <=? k)%Z
  | Some (NFloat f) => ret (PrimFloat.leb f (PyFloat.of_Z_rounded k))
  | None => raise TypeError
  end.

(** Reading back a float that this module has just stored under [k]
    ([d[k]] or [d.get(k, dflt)] on a dictionary built a few lines above). *)
Definition read_float (d : value) (k : string) (dflt : float) : result float :=
  v <- get_method d k (VFloat dflt) ;;
  match v with
  | VFloat f => ret f
  | _ => raise TypeError
  end.

Module LoadCalculator.
Section Methods.
Context {RT : Runtime}.
Local Open Scope float_scope.

(** Material densities (kN/m3), IS 875 Part 1 *)
Definition MATERIAL_DENSITIES : list (string * float) :=
  [("concrete", 25.0); ("brick_masonry", 19.0); ("stone_masonry", 24.0);
   ("steel", 78.5); ("timber", 6.0); ("plaster", 20.0); ("flooring", 23.0);
   ("waterproofing", 1.5)].

(** Live loads (kN/m2), IS 875 Part 2 *)
Definition LIVE_LOADS : list (string * float) :=
  [("residential", 2.0); ("office", 3.0); ("retail", 4.0); ("industrial", 5.0);
   ("warehouse", 7.5); ("parking", 2.5); ("corridor", 3.0); ("stairs", 3.0);
   ("terrace", 1.5); ("roof", 0.75)].

(** Basic wind speeds (m/s), IS 875 Part 3 *)
Definition WIND_SPEEDS : list (string * Z) :=
  [("zone_1", 39); ("zone_2", 44); ("zone_3", 47); ("zone_4", 50);
   ("zone_5", 55); ("zone_6", 60)]%Z.

(** [MATERIAL_DENSITIES['concrete']] *)
Definition concrete_density : float := 25.0.

(** [calculate_self_weight(member_type, dimensions, material)] *)
Definition calculate_self_weight (member_type : string) (dimensions : value)
    (material : value) : result value :=
  length <- (v <- get_method dimensions "length" (VInt 0) ;; py_float v) ;;
  let length := length / 1000 in
  breadth <- (v <- get_method dimensions "breadth" (VInt 0) ;; py_float v) ;;
  let breadth := breadth / 1000 in
  depth <- (v <- get_method dimensions "depth" (VInt 0) ;; py_float v) ;;
  let depth := depth / 1000 in
  density <- table_get MATERIAL_DENSITIES material 25.0 ;;
  if String.eqb member_type "beam" then
    let volume := breadth * depth * length in
    let self_weight := volume * density in
    udl <- PyFloat.div self_weight length ;;
    ret (VDict [("volume", VFloat volume);
                ("total_self_weight", VFloat self_weight);
                ("udl_self_weight", VFloat udl);
                ("unit", VStr "kN/m")])
  else if String.eqb member_type "column" then
    let volume := breadth * depth * length in
    let self_weight := volume * density in
    ret (VDict [("volume", VFloat volume);
                ("total_self_weight", VFloat self_weight);
                ("unit", VStr "kN")])
  else if String.eqb member_type "slab" then
    let area := length * breadth in
    let volume := area * depth in
    let self_weight := volume * density in
    let self_weight_per_area := density * depth in
    ret (VDict [("area", VFloat area);
                ("volume", VFloat volume);
                ("total_self_weight", VFloat self_weight);
                ("self_weight_per_area", VFloat self_weight_per_area);
                ("unit", VStr "kN/m²")])
  else if String.eqb member_type "footing" then
    let volume := length * breadth * depth in
    let self_weight := volume * density in
    ret (VDict [("volume", VFloat volume);
                ("total_self_weight", VFloat self_weight);
                ("unit", VStr "kN")])
  else ret VNone.

(** [sum(loads.values())] over the float entries gathered so far *)
Definition sum_floats (l : list float) : float := fold_left PrimFloat.add l 0.

(** [calculate_superimposed_dead_load(member_type, building_use,
    include_partition, include_finishes)] *)
Definition calculate_superimposed_dead_load (member_type : string) (building_use : value)
    (include_partition include_finishes : bool) : value :=
  if String.eqb member_type "beam" || String.eqb member_type "slab" then
    let finishes : list (string * float) :=
      if include_finishes
      then [("floor_finish", 1.0); ("ceiling_finish", 0.5); ("waterproofing", 0.3)]
      else [] in
    let partition : list (string * float) :=
      if include_partition then
        if eq_str building_use "residential" || eq_str building_use "office"
        then [("partition_walls", 1.0)]
        else if eq_str building_use "retail" || eq_str building_use "industrial"
        then [("partition_walls", 1.5)]
        else [("partition_walls", 1.0)]
      else [] in
    let loads := finishes ++ partition ++ [("mep_services", 0.5)] in
    let total_sidl := sum_floats (map snd loads) in
    VDict (map (fun kv => (fst kv, VFloat (snd kv))) loads
           ++ [("total_sidl", VFloat total_sidl); ("unit", VStr "kN/m²")])
  else VDict [].

(** [calculate_live_load(member_type, building_use)] *)
Definition calculate_live_load (member_type : string) (building_use : value) : result value :=
  base_live_load <- table_get LIVE_LOADS building_use 2.0 ;;
  if String.eqb member_type "beam" then
    ret (VDict [("live_load", VFloat base_live_load);
                ("unit", VStr "kN/m²");
                ("note", VStr "Apply to tributary area")])
  else if String.eqb member_type "column" then
    ret (VDict [("live_load_per_floor", VFloat base_live_load);
                ("unit", VStr "kN/m²");
                ("note", VStr "Multiply by tributary area and number of floors")])
  else if String.eqb member_type "slab" then
    ret (VDict [("live_load", VFloat base_live_load);
                ("unit", VStr "kN/m²")])
  else if String.eqb member_type "footing" then
    ret (VDict [("live_load", VFloat base_live_load);
                ("unit", VStr "kN/m²");
                ("note", VStr "From superstructure")])
  else ret VNone.

(** [base if height <= 10 else base * (height/10)**0.15] *)
Definition height_factor (base : float) (height : value) : result float :=
  low <- value_le_int height 10 ;;
  if low then ret base
  else
    h10 <- value_div_int height 10 ;;
    p <- float_pow h10 0.15 ;;
    ret (base * p).

(** [calculate_wind_load(height, wind_zone, terrain_category,
    importance_factor)] *)
Definition calculate_wind_load (height wind_zone terrain_category : value)
    (importance_factor : float) : result value :=
  vb <- table_get WIND_SPEEDS wind_zone 44%Z ;;
  k2 <- (if eq_int terrain_category 1 then height_factor 1.05 height
         else if eq_int terrain_category 2 then height_factor 1.00 height
         else if eq_int terrain_category 3 then height_factor 0.91 height
         else height_factor 0.80 height) ;;
  let k3 := 1.0 in
  let vz := PyFloat.of_Z_rounded vb * k2 * k3 in
  vz2 <- sq vz ;;
  let pz := 0.6 * vz2 / 1000 in
  let design_wind_pressure := pz * importance_factor in
  ret (VDict [("basic_wind_speed", VInt vb);
              ("terrain_height_factor", VFloat k2);
              ("topography_factor", VFloat k3);
              ("design_wind_speed", VFloat vz);
              ("wind_pressure", VFloat design_wind_pressure);
              ("unit", VStr "kN/m²");
              ("height", height);
              ("zone", wind_zone)]).

(** [max(a, b, c)] *)
Definition max3 (a b c : float) : float := PyFloat.max (PyFloat.max a b) c.

(** [calculate_column_axial_load(column_data)] *)
Definition calculate_column_axial_load (column_data : value) : result value :=
  dimensions <- get_method column_data "dimensions" (VDict []) ;;
  building_data <- get_method column_data "building_data" (VDict []) ;;
  wind_data <- get_method column_data "wind_data" (VDict []) ;;
  self_weight <- calculate_self_weight "column" dimensions (VStr "concrete") ;;
  num_floors <- get_method building_data "num_floors" (VInt 1) ;;
  floor_area_per_column <- get_method building_data "tributary_area" (VFloat 20.0) ;;
  building_use <- get_method building_data "building_use" (VStr "residential") ;;
  floor_height <- get_method building_data "floor_height" (VFloat 3.0) ;;
  slab_thickness <- get_method building_data "slab_thickness" (VInt 150) ;;
  st_m <- value_div_int slab_thickness 1000 ;;
  let slab_self_weight := concrete_density * st_m in
  let sidl := calculate_superimposed_dead_load "slab" building_use true true in
  total_sidl <- read_float sidl "total_sidl" 2.0 ;;
  live_load_data <- calculate_live_load "slab" building_use ;;
  live_load_per_floor <- read_float live_load_data "live_load" 2.0 ;;
  dead_load_per_floor <- float_mul_value (slab_self_weight + total_sidl) floor_area_per_column ;;
  live_load_per_floor_total <- float_mul_value live_load_per_floor floor_area_per_column ;;
  column_self_weight <- read_float self_weight "total_self_weight" 0 ;;
  dead_load_from_floors <- float_mul_value dead_load_per_floor num_floors ;;
  let total_dead_load := column_self_weight + dead_load_from_floors in
  total_live_load <- float_mul_value live_load_per_floor_total num_floors ;;
  length <- (v <- get_method dimensions "length" (VInt 3000) ;; py_float v) ;;
  let total_height := length / 1000 in
  wind <- (if truthy wind_data then
             wind_zone <- get_method wind_data "wind_zone" (VStr "zone_2") ;;
             terrain_category <- get_method wind_data "terrain_category" (VInt 2) ;;
             wind_load_data <- calculate_wind_load (VFloat total_height) wind_zone
                                 terrain_category 1.0 ;;
             wind_pressure <- read_float wind_load_data "wind_pressure" 0 ;;
             wind_area_per_column <- get_method building_data "wind_area_per_column"
                                       (VFloat 15.0) ;;
             total_wind_load <- float_mul_value wind_pressure wind_area_per_column ;;
             ret (NFloat total_wind_load, NFloat wind_pressure)
           else ret (NInt 0, NInt 0)) ;;
  let '(total_wind_load, wind_pressure) := wind in
  let WL := num_as_float total_wind_load in
  let combination_1 := 1.5 * (total_dead_load + total_live_load) in
  let combination_2 := 1.2 * (total_dead_load + total_live_load + WL) in
  let combination_3 := 1.5 * (total_dead_load + 0.25 * total_live_load + WL) in
  let critical_load := max3 combination_1 combination_2 combination_3 in
  ret (VDict [("column_self_weight", VFloat column_self_weight);
              ("dead_load_from_floors", VFloat dead_load_from_floors);
              ("total_dead_load", VFloat total_dead_load);
              ("total_live_load", VFloat total_live_load);
              ("total_wind_load", num_value total_wind_load);
              ("load_combination_1", VFloat combination_1);
              ("load_combination_2", VFloat combination_2);
              ("load_combination_3", VFloat combination_3);
              ("critical_axial_load", VFloat critical_load);
              ("wind_pressure", num_value wind_pressure);
              ("num_floors", num_floors);
              ("tributary_area", floor_area_per_column);
              ("unit", VStr "kN")]).

(** [calculate_beam_loads(beam_data)] *)
Definition calculate_beam_loads (beam_data : value) : result value :=
  dimensions <- get_method beam_data "dimensions" (VDict []) ;;
  loading_data <- get_method beam_data "loading_data" (VDict []) ;;
  self_weight <- calculate_self_weight "beam" dimensions (VStr "concrete") ;;
  beam_udl <- read_float self_weight "udl_self_weight" 0 ;;
  tributary_width <- get_method loading_data "tributary_width" (VFloat 3.0) ;;
  slab_thickness <- get_method loading_data "slab_thickness" (VInt 150) ;;
  building_use <- get_method loading_data "building_use" (VStr "residential") ;;
  st_m <- value_div_int slab_thickness 1000 ;;
  let slab_self_weight := concrete_density * st_m in
  let sidl := calculate_superimposed_dead_load "slab" building_use true true in
  total_sidl <- read_float sidl "total_sidl" 2.0 ;;
  total_slab_dead_load <- float_mul_value (slab_self_weight + total_sidl) tributary_width ;;
  live_load_data <- calculate_live_load "slab" building_use ;;
  live_load <- read_float live_load_data "live_load" 2.0 ;;
  slab_live_load <- float_mul_value live_load tributary_width ;;
  wall_load <- get_method loading_data "wall_load" (VInt 0) ;;
  total_dead_load <- float_add_value (beam_udl + total_slab_dead_load) wall_load ;;
  let total_live_load := slab_live_load in
  let combination_1 := 1.5 * (total_dead_load + total_live_load) in
  ret (VDict [("beam_self_weight", VFloat beam_udl);
              ("slab_dead_load", VFloat total_slab_dead_load);
              ("slab_live_load", VFloat slab_live_load);
              ("wall_load", wall_load);
              ("total_dead_load", VFloat total_dead_load);
              ("total_live_load", VFloat total_live_load);
              ("factored_load", VFloat combination_1);
              ("tributary_width", tributary_width);
              ("unit", VStr "kN/m")]).
End Methods.
End LoadCalculator.

Section AutoCalculateLoads.
Context {RT : Runtime}.
Local Open Scope float_scope.
Import LoadCalculator.

Definition default_building_parameters : value :=
  VDict [("building_use", VStr "residential");
         ("num_floors", VInt 1);
         ("floor_height", VFloat 3.0);
         ("slab_thickness", VInt 150);
         ("tributary_area", VFloat 20.0);
         ("tributary_width", VFloat 3.0)].

Definition default_wind_parameters : value :=
  VDict [("wind_zone", VStr "zone_2");
         ("terrain_category", VInt 2);
         ("importance_factor", VFloat 1.0)].

(** Lines 423-444.  [building_data] is the object stored under
    ['building_parameters'], so what [setdefault] adds to it is seen
    through [design_data]: the filled dictionary is written back. *)
Definition resolve_building_parameters (design_data : value) : result (value * value) :=
  building_data <- get_method design_data "building_parameters" (VDict []) ;;
  let building_data := if truthy building_data then building_data
                       else default_building_parameters in
  building_data <- setdefault_method building_data "building_use" (VStr "residential") ;;
  building_data <- setdefault_method building_data "num_floors" (VInt 1) ;;
  building_data <- setdefault_method building_data "floor_height" (VFloat 3.0) ;;
  building_data <- setdefault_method building_data "slab_thickness" (VInt 150) ;;
  building_data <- setdefault_method building_data "tributary_area" (VFloat 20.0) ;;
  building_data <- setdefault_method building_data "tributary_width" (VFloat 3.0) ;;
  building_data <- setdefault_method building_data "wall_load" (VInt 0) ;;
  design_data <- set_item design_data "building_parameters" building_data ;;
  ret (building_data, design_data).

(** Lines 446-458, with the same aliasing. *)
Definition resolve_wind_parameters (design_data : value) : result (value * value) :=
  wind_data <- get_method design_data "wind_parameters" (VDict []) ;;
  let wind_data := if truthy wind_data then wind_data else default_wind_parameters in
  wind_data <- setdefault_method wind_data "wind_zone" (VStr "zone_2") ;;
  wind_data <- setdefault_method wind_data "terrain_category" (VInt 2) ;;
  wind_data <- setdefault_method wind_data "importance_factor" (VFloat 1.0) ;;
  design_data <- set_item design_data "wind_parameters" wind_data ;;
  ret (wind_data, design_data).

(** [design_data['loads'] = loads], then the two audit blocks. *)
Definition store_loads (design_data loads load_calculations wind_calculations : value)
  : result value :=
  design_data <- set_item design_data "loads" loads ;;
  design_data <- set_item design_data "load_calculations" load_calculations ;;
  set_item design_data "wind_calculations" wind_calculations.

(** Lines 460-487 *)
Definition auto_loads_column (design_data building_data wind_data : value) : result value :=
  dimensions <- subscript design_data "dimensions" ;;
  let column_data := VDict [("dimensions", dimensions);
                            ("building_data", building_data);
                            ("wind_data", wind_data)] in
  load_results <- calculate_column_axial_load column_data ;;
  length <- (v <- get_method dimensions "length" (VInt 3000) ;; py_float v) ;;
  let total_height := length / 1000 in
  wind_zone <- get_method wind_data "wind_zone" (VStr "zone_2") ;;
  terrain_category <- get_method wind_data "terrain_category" (VInt 2) ;;
  wind_load_data <- calculate_wind_load (VFloat total_height) wind_zone terrain_category 1.0 ;;
  wind_pressure <- read_float wind_load_data "wind_pressure" 0 ;;
  th2 <- sq total_height ;;
  let wind_moment := wind_pressure * th2 / 6 in
  critical_axial_load <- read_float load_results "critical_axial_load" 0 ;;
  let loads := VDict
    [("axial_load", VStr (str_of_float critical_axial_load));
     ("moment", VStr (str_of_num (max_int_float 50 wind_moment)))] in
  store_loads design_data loads load_results wind_load_data.

(** Lines 489-518 *)
Definition auto_loads_beam (design_data building_data wind_data : value) : result value :=
  dimensions <- subscript design_data "dimensions" ;;
  let beam_data := VDict [("dimensions", dimensions);
                          ("loading_data", building_data)] in
  load_results <- calculate_beam_loads beam_data ;;
  depth <- (v <- get_method dimensions "depth" (VInt 600) ;; py_float v) ;;
  let beam_height := depth / 1000 in
  wind_zone <- get_method wind_data "wind_zone" (VStr "zone_2") ;;
  terrain_category <- get_method wind_data "terrain_category" (VInt 2) ;;
  wind_load_data <- calculate_wind_load (VFloat beam_height) wind_zone terrain_category 1.0 ;;
  breadth <- (v <- get_method dimensions "breadth" (VInt 300) ;; py_float v) ;;
  let beam_width := breadth / 1000 in
  wind_pressure <- read_float wind_load_data "wind_pressure" 0 ;;
  let wind_load_on_beam := wind_pressure * beam_width in
  total_dead_load <- read_float load_results "total_dead_load" 0 ;;
  total_live_load <- read_float load_results "total_live_load" 0 ;;
  factored_load <- read_float load_results "factored_load" 0 ;;
  let loads := VDict
    [("dead_load", VStr (str_of_float total_dead_load));
     ("live_load", VStr (str_of_float total_live_load));
     ("wind_load", VStr (str_of_float wind_load_on_beam));
     ("factored_load", VStr (str_of_float factored_load))] in
  store_loads design_data loads load_results wind_load_data.

(** Lines 520-551 *)
Definition auto_loads_slab (design_data building_data wind_data : value) : result value :=
  dimensions <- subscript design_data "dimensions" ;;
  self_weight <- calculate_self_weight "slab" dimensions (VStr "concrete") ;;
  building_use <- get_method building_data "building_use" (VStr "residential") ;;
  let sidl := calculate_superimposed_dead_load "slab" building_use true true in
  building_use' <- get_method building_data "building_use" (VStr "residential") ;;
  live_load <- calculate_live_load "slab" building_use' ;;
  floor_height <- get_method building_data "floor_height" (VFloat 3.0) ;;
  num_floors <- get_method building_data "num_floors" (VInt 1) ;;
  slab_height <- py_mul floor_height num_floors ;;
  wind_zone <- get_method wind_data "wind_zone" (VStr "zone_2") ;;
  terrain_category <- get_method wind_data "terrain_category" (VInt 2) ;;
  wind_load_data <- calculate_wind_load slab_height wind_zone terrain_category 1.0 ;;
  wind_pressure <- read_float wind_load_data "wind_pressure" 0 ;;
  let wind_uplift := -0.8 * wind_pressure in
  self_weight_per_area <- read_float self_weight "self_weight_per_area" 0 ;;
  total_sidl <- read_float sidl "total_sidl" 2.0 ;;
  let total_dead_load := self_weight_per_area + total_sidl in
  total_live_load <- read_float live_load "live_load" 2.0 ;;
  let loads := VDict
    [("dead_load", VStr (str_of_float total_dead_load));
     ("live_load", VStr (str_of_float total_live_load));
     ("wind_load", VStr (str_of_float wind_uplift));
     ("total_load", VStr (str_of_float (total_dead_load + total_live_load)))] in
  let load_calculations := VDict
    [("self_weight", self_weight); ("sidl", sidl); ("live_load", live_load)] in
  store_loads design_data loads load_calculations wind_load_data.

(** The floats the footing branch derives (lines 557-590) before it
    writes them out. *)
Record footing_auto_loads : Type := {
  fal_total_dead_load_per_floor : float;
  fal_live_load_per_floor : float;
  fal_total_dead_load : float;
  fal_total_live_load : float;
  fal_wind_force : float;
  fal_wind_moment : float;
  fal_footing_self_weight : float;
  fal_num_floors : value;
  fal_tributary_area : value;
  fal_wind_load_data : value
}.

Definition footing_auto_derive (design_data building_data wind_data : value)
  : result footing_auto_loads :=
  num_floors <- get_method building_data "num_floors" (VInt 1) ;;
  tributary_area <- get_method building_data "tributary_area" (VFloat 20.0) ;;
  building_use <- get_method building_data "building_use" (VStr "residential") ;;
  live_load_data <- calculate_live_load "slab" building_use ;;
  live_load_per_floor <- read_float live_load_data "live_load" 2.0 ;;
  slab_thickness <- get_method building_data "slab_thickness" (VInt 150) ;;
  st_m <- value_div_int slab_thickness 1000 ;;
  let slab_dead_load := concrete_density * st_m in
  let sidl := calculate_superimposed_dead_load "slab" building_use true true in
  total_sidl <- read_float sidl "total_sidl" 2.0 ;;
  let total_dead_load_per_floor := slab_dead_load + total_sidl in
  dl_area <- float_mul_value total_dead_load_per_floor tributary_area ;;
  total_dead_load <- float_mul_value dl_area num_floors ;;
  ll_area <- float_mul_value live_load_per_floor tributary_area ;;
  total_live_load <- float_mul_value ll_area num_floors ;;
  floor_height <- get_method building_data "floor_height" (VFloat 3.0) ;;
  building_height <- py_mul floor_height num_floors ;;
  wind_zone <- get_method wind_data "wind_zone" (VStr "zone_2") ;;
  terrain_category <- get_method wind_data "terrain_category" (VInt 2) ;;
  wind_load_data <- calculate_wind_load building_height wind_zone terrain_category 1.0 ;;
  wind_area <- py_mul building_height (VInt 10) ;;
  wind_pressure <- read_float wind_load_data "wind_pressure" 0 ;;
  wind_force <- float_mul_value wind_pressure wind_area ;;
  wf_h <- float_mul_value wind_force building_height ;;
  let wind_moment := wf_h / 2 in
  dimensions <- subscript design_data "dimensions" ;;
  footing_self_weight <- calculate_self_weight "footing" dimensions (VStr "concrete") ;;
  fsw <- read_float footing_self_weight "total_self_weight" 0 ;;
  ret {| fal_total_dead_load_per_floor := total_dead_load_per_floor;
         fal_live_load_per_floor := live_load_per_floor;
         fal_total_dead_load := total_dead_load;
         fal_total_live_load := total_live_load;
         fal_wind_force := wind_force;
         fal_wind_moment := wind_moment;
         fal_footing_self_weight := fsw;
         fal_num_floors := num_floors;
         fal_tributary_area := tributary_area;
         fal_wind_load_data := wind_load_data |}.

(** The ['loads'] block of a footing (lines 592-597) *)
Definition footing_loads_block (a : footing_auto_loads) : dict :=
  [("vertical_load", VStr (str_of_float (fal_total_dead_load a + fal_total_live_load a
                                          + fal_footing_self_weight a)));
   ("dead_load", VStr (str_of_float (fal_total_dead_load a)));
   ("live_load", VStr (str_of_float (fal_total_live_load a)));
   ("wind_moment", VStr (str_of_float (fal_wind_moment a)))].

(** Lines 553-607 *)
Definition auto_loads_footing (design_data building_data wind_data : value) : result value :=
  a <- footing_auto_derive design_data building_data wind_data ;;
  let loads := VDict (footing_loads_block a) in
  let load_calculations := VDict
    [("dead_load_per_floor", VFloat (fal_total_dead_load_per_floor a));
     ("live_load_per_floor", VFloat (fal_live_load_per_floor a));
     ("total_dead_load", VFloat (fal_total_dead_load a));
     ("total_live_load", VFloat (fal_total_live_load a));
     ("footing_self_weight", VFloat (fal_footing_self_weight a));
     ("num_floors", fal_num_floors a);
     ("tributary_area", fal_tributary_area a)] in
  store_loads design_data loads load_calculations (fal_wind_load_data a).

(** [auto_calculate_loads(member_type, design_data)]: the design record
    after the call. *)
Definition auto_calculate_loads (member_type : string) (design_data : value) : result value :=
  bd <- resolve_building_parameters design_data ;;
  let '(building_data, design_data) := bd in
  wd <- resolve_wind_parameters design_data ;;
  let '(wind_data, design_data) := wd in
  if String.eqb member_type "column" then auto_loads_column design_data building_data wind_data
  else if String.eqb member_type "beam" then auto_loads_beam design_data building_data wind_data
  else if String.eqb member_type "slab" then auto_loads_slab design_data building_data wind_data
  else if String.eqb member_type "footing" then auto_loads_footing design_data building_data wind_data
  else ret design_data.
End AutoCalculateLoads.

(** ** api/check_code_new.py *)

(** What [check_compliance] does besides computing its result: the line it
    prints and the calls it makes into the other modules. *)
Inductive event : Type :=
| Printed (line : string)
| CalledAutoCalculateLoads (member_type : string) (design_data : value)
| CalledChecker (member_type : string) (design_data : value).

Section Orchestrator.
Context {RT : Runtime}.

Definition supported_types : value :=
  VList [VStr "beam"; VStr "column"; VStr "slab"; VStr "footing"].

(** Lines 58-70 *)
Definition recommendations_for (member_type : string) : value :=
  if String.eqb member_type "beam" then
    VList [VStr "Consider increasing beam depth if moment capacity is insufficient";
           VStr "Check reinforcement spacing for shear requirements"]
  else if String.eqb member_type "column" then
    VList [VStr "Increase column dimensions if axial capacity is exceeded";
           VStr "Check minimum reinforcement percentage"]
  else if String.eqb member_type "slab" then
    VList [VStr "Consider increasing slab thickness if deflection is excessive";
           VStr "Check reinforcement requirements for flexure"]
  else if String.eqb member_type "footing" then
    VList [VStr "Increase footing dimensions if bearing pressure is excessive";
           VStr "Check reinforcement for punching shear"]
  else VList [].

(** ['loads' in design_data], for the dictionary [design_data] is once
    [design_data.get] has worked *)
Definition has_key (design_data : value) (k : string) : bool :=
  match design_data with
  | VDict d => dict_mem k d
  | _ => false
  end.

(** Lines 34-38: the design record the checker will see, and what was
    printed and called to obtain it. *)
Definition resolve_loads (member_type : string) (design_data : value)
  : list event * result value :=
  match get_method design_data "auto_calculate_loads" (VBool true) with
  | inr e => ([], inr e)
  | inl auto_calc =>
      if truthy auto_calc || negb (has_key design_data "loads") then
        ([Printed ("Auto-calculating loads for " ++ member_type);
          CalledAutoCalculateLoads member_type design_data],
         auto_calculate_loads member_type design_data)
      else ([], ret design_data)
  end.

(** Lines 41-48: the checker chosen by [member_type], if any. *)
Definition checker_for (member_type : string) : option (value -> value) :=
  if String.eqb member_type "beam" then Some check_beam_compliance
  else if String.eqb member_type "column" then Some check_column_compliance
  else if String.eqb member_type "slab" then Some check_slab_compliance
  else if String.eqb member_type "footing" then Some check_footing_compliance
  else None.

(** Lines 55-79: recommendations and the load audit. *)
Definition finish_result (member_type : string) (design_data res : value) : result value :=
  overall <- get_method res "overall_compliance" (VBool true) ;;
  res <- (if negb (truthy overall)
          then set_item res "recommendations" (recommendations_for member_type)
          else ret res) ;;
  if has_key design_data "load_calculations" then
    lc <- subscript design_data "load_calculations" ;;
    res <- set_item res "load_calculations" lc ;;
    loads <- subscript design_data "loads" ;;
    set_item res "calculated_loads" loads
  else ret res.

(** Lines 34-79, with [member_type] bound. *)
Definition compliance_steps (member_type : string) (design_data : value)
  : list event * result value :=
  let '(tr, dd) := resolve_loads member_type design_data in
  match dd with
  | inr e => (tr, inr e)
  | inl design_data =>
      match checker_for member_type with
      | Some checker =>
          (tr ++ [CalledChecker member_type design_data],
           finish_result member_type design_data (checker design_data))
      | None =>
          (tr, ret (VDict
             [("error", VStr ("Unsupported member type: " ++ member_type));
              ("supported_types", supported_types)]))
      end
  end.

(** [check_compliance(design_data)].  The handler of the [try] reads the
    local [member_type], which the first statement of the body binds; when
    that statement itself raises, the name is unbound and the handler
    raises in turn. *)
Definition check_compliance_traced (design_data : value) : list event * result value :=
  match (v <- get_method design_data "member_type" (VStr EmptyString) ;; lower_method v) with
  | inr _ => ([], raise (UnboundLocalError "member_type"))
  | inl member_type =>
      let '(tr, r) := compliance_steps member_type design_data in
      (tr,
       match r with
       | inl res => ret res
       | inr e =>
           ret (VDict [("error", VStr ("Compliance check failed: " ++ str_of_exn e));
                       ("member_type", VStr member_type)])
       end)
  end.

Definition check_compliance (design_data : value) : result value :=
  snd (check_compliance_traced design_data).
End Orchestrator.

(** ** A runtime instance for evaluating concrete designs

    [str(x)] for a float is the shortest decimal that reads back as [x], laid
    out as CPython does; [float(s)] and [int(s)] read decimal literals
    (CPython also accepts underscores between digits, which this reader
    rejects).  Both are exact: they go through integer arithmetic and one
    correctly rounded conversion. *)

Module PyRepr.

(** Nearest float to [d * 10^k] for a positive [d]: a correctly rounded
    decimal-to-binary conversion. *)
Definition of_decimal (d : positive) (k : Z) : float :=
  match k with
  | Z0 => SF2Prim (binary_normalize prec emax (Zpos d) 0 false)
  | Zpos _ => SF2Prim (binary_normalize prec emax (Zpos d * 10 ^ k) 0 false)
  | Zneg _ =>
      match (10 ^ (- k))%Z with
      | Zpos p => SF2Prim (SFdiv prec emax (S754_finite false d 0) (S754_finite false p 0))
      | _ => PrimFloat.zero
      end
  end.

(** [x] scaled by [10^j], as a fraction of integers, for [x = m * 2^e]. *)
Definition scaled (m : positive) (e j : Z) : Z * Z :=
  let num := (Zpos m * 2 ^ (Z.max e 0) * 10 ^ (Z.max j 0))%Z in
  let den := (2 ^ (Z.max (- e) 0) * 10 ^ (Z.max (- j) 0))%Z in
  (num, den).

(** The position of the decimal point: the [k] with [10^(k-1) <= x < 10^k]. *)
Fixpoint settle_decpt (fuel : nat) (m : positive) (e k : Z) : Z :=
  match fuel with
  | O => k
  | S fuel' =>
      let '(num, den) := scaled m e (- k) in
      if (den <=? num)%Z then settle_decpt fuel' m e (k + 1)
      else
        let '(num', den') := scaled m e (1 - k) in
        if (num' <? den')%Z then settle_decpt fuel' m e (k - 1)
        else k
  end.

Definition decpt_of (m : positive) (e : Z) : Z :=
  let bits := (Z.log2 (Zpos m) + e)%Z in
  settle_decpt 8 m e ((bits * 30103) / 100000)%Z.

(** The shortest decimal with [n] digits or fewer that reads back as [x],
    the nearest one to [x] if both neighbours do. *)
Definition candidate (x : float) (m : positive) (e k n : Z) : option Z :=
  let '(num, den) := scaled m e (n - k) in
  let lo := (num / den)%Z in
  let hi := (lo + 1)%Z in
  let back (c : Z) : bool :=
    match c with
    | Zpos p => PrimFloat.eqb (of_decimal p (k - n)) x
    | _ => false
    end in
  let r := (num mod den)%Z in
  match back lo, back hi with
  | true, true =>
      match (2 * r ?= den)%Z with
      | Lt => Some lo
      | Gt => Some hi
      | Eq => Some (if Z.even lo then lo else hi)
      end
  | true, false => Some lo
  | false, true => Some hi
  | false, false => None
  end.

Fixpoint shortest (fuel : nat) (x : float) (m : positive) (e k n : Z) : Z * Z :=
  match fuel with
  | O => (Zpos m, n)
  | S fuel' =>
      match candidate x m e k n with
      | Some c => (c, n)
      | None => shortest fuel' x m e k (n + 1)
      end
  end.

Fixpoint strip_zeros (fuel : nat) (c : Z) (scale : Z) : Z * Z :=
  match fuel with
  | O => (c, scale)
  | S fuel' =>
      if (c mod 10 =? 0)%Z then strip_zeros fuel' (c / 10)%Z (scale + 1)%Z
      else (c, scale)
  end.

Definition digits_of (z : Z) : string := NilZero.string_of_uint (N.to_uint (Z.to_N z)).

Fixpoint zeros (n : nat) : string :=
  match n with O => EmptyString | S n' => String "0" (zeros n') end.

Definition two_digits (z : Z) : string :=
  if (z <? 10)%Z then String "0" (digits_of z) else digits_of z.

(** Python's layout of the digits [ds] with the decimal point after
    [decpt] of them. *)
Definition layout (ds : string) (decpt : Z) : string :=
  let len := Z.of_nat (String.length ds) in
  if (decpt <=? -4)%Z || (16 <? decpt)%Z then
    let mant := match ds with
                | String c EmptyString => String c EmptyString
                | String c tl => String c (String "." tl)
                | EmptyString => EmptyString
                end in
    let ex := (decpt - 1)%Z in
    mant ++ (if (ex <? 0)%Z then "e-" else "e+") ++ two_digits (Z.abs ex)
  else if (decpt <=? 0)%Z then
    "0." ++ zeros (Z.to_nat (- decpt)) ++ ds
  else if (len <=? decpt)%Z then
    ds ++ zeros (Z.to_nat (decpt - len)) ++ ".0"
  else
    String.substring 0 (Z.to_nat decpt) ds ++ "."
    ++ String.substring (Z.to_nat decpt) (Z.to_nat (len - decpt)) ds.

(** [repr(x)], which is also [str(x)] *)
Definition repr (x : float) : string :=
  match Prim2SF x with
  | S754_nan => "nan"
  | S754_infinity s => if s then "-inf" else "inf"
  | S754_zero s => if s then "-0.0" else "0.0"
  | S754_finite s m e =>
      let ax := PrimFloat.abs x in
      let k := decpt_of m e in
      let '(c, n) := shortest 17 ax m e k 1 in
      let '(c', t) := strip_zeros 17 c 0 in
      let ds := digits_of c' in
      let decpt := (Z.of_nat (String.length ds) + (k - n) + t)%Z in
      (if s then "-" else EmptyString) ++ layout ds decpt
  end.

(** *** Reading numbers *)

Definition is_space (c : ascii) : bool :=
  let n := nat_of_ascii c in
  (n =? 32)%nat || ((9 <=? n)%nat && (n <=? 13)%nat).

Fixpoint lstrip (s : string) : string :=
  match s with
  | String c tl => if is_space c then lstrip tl else s
  | EmptyString => EmptyString
  end.

Fixpoint rev_string (s acc : string) : string :=
  match s with
  | EmptyString => acc
  | String c tl => rev_string tl (String c acc)
  end.

Definition strip (s : string) : string :=
  rev_string (lstrip (rev_string (lstrip s) EmptyString)) EmptyString.

Definition digit_of (c : ascii) : option Z :=
  let n := nat_of_ascii c in
  if (48 <=? n)%nat && (n <=? 57)%nat then Some (Z.of_nat (n - 48)) else None.

(** The leading digits of [s]: their value, their number, and the rest. *)
Fixpoint read_digits (s : string) (acc : Z) (count : Z) : Z * Z * string :=
  match s with
  | String c tl =>
      match digit_of c with
      | Some d => read_digits tl (acc * 10 + d)%Z (count + 1)%Z
      | None => (acc, count, s)
      end
  | EmptyString => (acc, count, s)
  end.

Definition read_sign (s : string) : bool * string :=
  match s with
  | String "-" tl => (true, tl)
  | String "+" tl => (false, tl)
  | _ => (false, s)
  end.

(** [int(s)] for a decimal literal with an optional sign, surrounded by
    optional white space. *)
Definition parse_int (s : string) : option Z :=
  let '(neg, s1) := read_sign (strip s) in
  let '(v, n, rest) := read_digits s1 0 0 in
  match rest with
  | EmptyString => if (n =? 0)%Z then None else Some (if neg then (- v)%Z else v)
  | _ => None
  end.

Definition signed (neg : bool) (x : float) : float :=
  if neg then PrimFloat.opp x else x.

(** The float nearest to [d * 10^k] *)
Definition decimal_value (d k digits : Z) : float :=
  match d with
  | Zpos p =>
      if (310 <? k + digits)%Z then PrimFloat.infinity
      else if (k + digits <? -330)%Z then PrimFloat.zero
      else of_decimal p k
  | _ => PrimFloat.zero
  end.

Definition read_exponent (s : string) : option Z :=
  match s with
  | EmptyString => Some 0%Z
  | String c tl =>
      if (Ascii.eqb c "e" || Ascii.eqb c "E")%bool then
        let '(neg, s1) := read_sign tl in
        let '(v, n, rest) := read_digits s1 0 0 in
        match rest with
        | EmptyString => if (n =? 0)%Z then None else Some (if neg then (- v)%Z else v)
        | _ => None
        end
      else None
  end.

(** [float(s)] for [inf], [infinity], [nan] and decimal literals with an
    optional sign, fraction and exponent, surrounded by optional white
    space. *)
Definition parse_float (s : string) : option float :=
  let '(neg, s1) := read_sign (strip s) in
  let low := (fix lower (t : string) : string :=
                match t with
                | EmptyString => EmptyString
                | String c tl =>
                    let n := nat_of_ascii c in
                    String (if (65 <=? n)%nat && (n <=? 90)%nat
                            then ascii_of_nat (n + 32) else c) (lower tl)
                end) s1 in
  if String.eqb low "inf" || String.eqb low "infinity" then
    Some (signed neg PrimFloat.infinity)
  else if String.eqb low "nan" then Some PrimFloat.nan
  else
    let '(ip, ni, rest) := read_digits s1 0 0 in
    let '(d, nf, rest') :=
      match rest with
      | String "." tl => let '(v, n, r) := read_digits tl ip 0 in (v, n, r)
      | _ => (ip, 0%Z, rest)
      end in
    if (ni + nf =? 0)%Z then None
    else
      match read_exponent rest' with
      | Some ex =>
          let digits := Z.of_nat (String.length (digits_of d)) in
          Some (signed neg (decimal_value d (ex - nf) digits))
      | None => None
      end.
End PyRepr.

(** [x ** 2] is taken as the correctly rounded square (what the C library
    returns for an exact product); no example below raises a float to
    another power (the heights stay within 10 m). *)
Definition square_pow (x y : float) : result float :=
  if PrimFloat.eqb y 2 then
    let r := PrimFloat.mul x x in
    if is_infinity r && negb (is_infinity x) then raise OverflowError else ret r
  else raise OverflowError.

(** Exception texts in the style of CPython's *)
Definition exn_text (e : exn) : string :=
  match e with
  | KeyError k => "'" ++ k ++ "'"
  | AttributeError a => "object has no attribute '" ++ a ++ "'"
  | TypeError => "unsupported operand type(s)"
  | ValueError => "could not convert string to float"
  | ZeroDivisionError => "float division by zero"
  | OverflowError => "(34, 'Numerical result out of range')"
  | UnboundLocalError n => "local variable '" ++ n ++ "' referenced before assignment"
  end.

(** [s.lower()] for a string of ASCII characters, which is what the
    examples below hold; other bytes are left as they are. *)
Definition lower_ascii (c : ascii) : ascii :=
  let n := nat_of_ascii c in
  if (65 <=? n)%nat && (n <=? 90)%nat then ascii_of_nat (n + 32) else c.

Fixpoint ascii_lower (s : string) : string :=
  match s with
  | EmptyString => EmptyString
  | String c tl => String (lower_ascii c) (ascii_lower tl)
  end.

Definition example_runtime : Runtime :=
  {| float_pow := square_pow;
     float_of_str := PyRepr.parse_float;
     int_of_str := PyRepr.parse_int;
     str_of_float := PyRepr.repr;
     str_of_exn := exn_text;
     str_lower := ascii_lower |}.

(** ** Reading results and describing inputs *)

(** [r[k]] when [r] is a dictionary that has the key *)
Definition result_field (r : value) (k : string) : option value :=
  match r with
  | VDict d => dict_get k d
  | _ => None
  end.

(** The boolean stored under ['pass'] in a check *)
Definition check_pass_flag (check : value) : option bool :=
  match result_field check "pass" with
  | Some (VBool b) => Some b
  | _ => None
  end.

Definition passes (check : value) : bool :=
  match check_pass_flag check with
  | Some b => b
  | None => false
  end.

(** [r['checks'][name]] *)
Definition named_check (r : value) (name : string) : option value :=
  match result_field r "checks" with
  | Some checks => result_field checks name
  | None => None
  end.

(** [r['design_summary'][name]] *)
Definition summary_field (r : value) (name : string) : option value :=
  match result_field r "design_summary" with
  | Some summary => result_field summary name
  | None => None
  end.

(** The shape of what a member checker returns when nothing was raised. *)
Definition is_report (member : string) (r : value) : Prop :=
  exists overall summary checks,
    r = VDict [("member_type", VStr member);
               ("overall_compliance", VBool overall);
               ("design_summary", VDict summary);
               ("checks", VDict checks);
               ("status", status_of overall)]
    /\ overall = forallb passes (dict_values checks)
    /\ Forall (fun c => check_pass_flag c <> None) (dict_values checks).

(** [overall_compliance] is the conjunction of the [pass] flags and [status]
    spells it out. *)
Definition verdict_consistent (r : value) : Prop :=
  exists checks,
    result_field r "checks" = Some (VDict checks)
    /\ (forall c, In c (dict_values checks) -> exists b, check_pass_flag c = Some b)
    /\ result_field r "overall_compliance"
       = Some (VBool (forallb passes (dict_values checks)))
    /\ (result_field r "status" = Some (VStr "PASS")
        <-> forallb passes (dict_values checks) = true)
    /\ (result_field r "status" = Some (VStr "FAIL")
        <-> forallb passes (dict_values checks) = false).

(** An error result: an ['error'] entry, a tag, and no ['checks']. *)
Definition is_error_result (r : value) : Prop :=
  result_field r "error" <> None
  /\ result_field r "checks" = None
  /\ (result_field r "member_type" <> None \/ result_field r "supported_types" <> None).

(** The design [design_data] with [reinforcement['num_bars']] set to [n];
    every other entry is left as it is. *)
Definition set_num_bars (n : value) (design_data : value) : value :=
  match design_data with
  | VDict dd =>
      match dict_get "reinforcement" dd with
      | Some (VDict r) => VDict (dict_set "reinforcement" (VDict (dict_set "num_bars" n r)) dd)
      | _ => design_data
      end
  | _ => design_data
  end.


(** The flag [design_data.get('auto_calculate_loads', True)] as a truth
    value *)
Definition auto_calc_flag (dd : dict) : bool :=
  match dict_get "auto_calculate_loads" dd with
  | Some v => truthy v
  | None => true
  end.

(** [member_type] as [check_compliance] binds it (line 32) *)
Definition member_type_of {RT : Runtime} (design_data : value) : result string :=
  v <- get_method design_data "member_type" (VStr EmptyString) ;; lower_method v.

(** The governing load combination:
    [max(1.5*(DL+LL), 1.2*(DL+LL+WL), 1.5*(DL+0.25*LL+WL))]. *)
Definition governing_combination (DL LL WL : float) : float :=
  LoadCalculator.max3 (1.5 * (DL + LL)) (1.2 * (DL + LL + WL))
    (1.5 * (DL + 0.25 * LL + WL)).

(** Two designs that differ at most in [reinforcement['num_bars']]: every
    other entry of the design and of its reinforcement block reads the
    same. *)
Definition differ_only_in_num_bars (d1 d2 : value) : Prop :=
  exists dd1 dd2 r1 r2,
    d1 = VDict dd1 /\ d2 = VDict dd2
    /\ (forall k, k <> "reinforcement" -> dict_get k dd1 = dict_get k dd2)
    /\ dict_get "reinforcement" dd1 = Some (VDict r1)
    /\ dict_get "reinforcement" dd2 = Some (VDict r2)
    /\ (forall k, k <> "num_bars" -> dict_get k r1 = dict_get k r2).

(** The four blocks every member checker subscripts, in the order it reads
    them (lines 20-23 of the column, slab and footing checkers, 25-28 of the
    beam checker). *)
Definition required_blocks : list string :=
  ["dimensions"; "loads"; "materials"; "reinforcement"].

(** The first of them a design record lacks, if any. *)
Definition first_missing_block (dd : dict) : option string :=
  find (fun k => negb (dict_mem k dd)) required_blocks.

(** Two designs that differ at most in entry [key] of block [block]. *)
Definition differ_only_in_entry (block key : string) (d1 d2 : value) : Prop :=
  exists dd1 dd2 b1 b2,
    d1 = VDict dd1 /\ d2 = VDict dd2
    /\ (forall k, k <> block -> dict_get k dd1 = dict_get k dd2)
    /\ dict_get block dd1 = Some (VDict b1)
    /\ dict_get block dd2 = Some (VDict b2)
    /\ (forall k, k <> key -> dict_get k b1 = dict_get k b2).

(** The design [design_data] with [design_data[block][key]] set to [x]. *)
Definition set_entry (block key : string) (x : value) (design_data : value) : value :=
  match design_data with
  | VDict dd =>
      match dict_get block dd with
      | Some (VDict b) => VDict (dict_set block (VDict (dict_set key x b)) dd)
      | _ => design_data
      end
  | _ => design_data
  end.

(** The keys of a design record that [check_compliance] and the functions
    it calls look up, [member_type] apart; and those still looked up once
    the load calculator is done. *)
Definition observed_keys : list string :=
  ["auto_calculate_loads"; "loads"; "building_parameters"; "wind_parameters";
   "dimensions"; "materials"; "reinforcement"; "load_calculations"].

Definition checked_keys : list string :=
  ["loads"; "dimensions"; "materials"; "reinforcement"; "load_calculations"].

(** Two records that read the same under every key of [ks]. *)
Definition agree_on (ks : list string) (a b : dict) : Prop :=
  forall k, In k ks -> dict_get k a = dict_get k b.

(** Two runs that end alike: with records that agree on [ks], or with the
    same exception. *)
Definition same_outcome (ks : list string) (r1 r2 : result value) : Prop :=
  match r1, r2 with
  | inl (VDict a), inl (VDict b) => agree_on ks a b
  | inr e1, inr e2 => e1 = e2
  | _, _ => False
  end.

(** ** Concrete designs *)

Module Examples.
Local Open Scope float_scope.

(** Scenario A: M20, Fe415, 6 m span, 300 x 600 mm, 4 bars of 16 mm, 25 mm
    cover, 2.5 kN/m dead and 3 kN/m live load. *)
Definition beam_A : value := VDict
  [("member_type", VStr "beam");
   ("dimensions", VDict [("length", VFloat 6.0); ("breadth", VInt 300); ("depth", VInt 600)]);
   ("materials", VDict [("concrete_grade", VStr "M20"); ("steel_grade", VStr "Fe415")]);
   ("reinforcement", VDict [("num_bars", VInt 4); ("bar_diameter", VInt 16);
                            ("cover", VInt 25)]);
   ("loads", VDict [("dead_load", VFloat 2.5); ("live_load", VFloat 3.0)]);
   ("auto_calculate_loads", VBool false)].

(** The same beam with a single bar, and without the flag. *)
Definition beam_one_bar : value := set_num_bars (VInt 1) beam_A.

(** Scenario A with its breadth left out, which the checker reads as 0: with
    one bar, and with no bar at all. *)
Definition beam_no_breadth : value := VDict
  [("member_type", VStr "beam");
   ("dimensions", VDict [("length", VFloat 6.0); ("depth", VInt 600)]);
   ("materials", VDict [("concrete_grade", VStr "M20"); ("steel_grade", VStr "Fe415")]);
   ("reinforcement", VDict [("num_bars", VInt 1); ("bar_diameter", VInt 16);
                            ("cover", VInt 25)]);
   ("loads", VDict [("dead_load", VFloat 2.5); ("live_load", VFloat 3.0)]);
   ("auto_calculate_loads", VBool false)].

Definition beam_no_breadth_no_bar : value := set_num_bars (VInt 0) beam_no_breadth.


(** A 1 m beam under 0.004 kN/m of dead load: a design moment of 750 Nmm. *)
Definition beam_feather : value := VDict
  [("member_type", VStr "beam");
   ("dimensions", VDict [("length", VFloat 1.0); ("breadth", VInt 300); ("depth", VInt 600)]);
   ("materials", VDict [("concrete_grade", VStr "M20"); ("steel_grade", VStr "Fe415")]);
   ("reinforcement", VDict [("num_bars", VInt 4); ("bar_diameter", VInt 16);
                            ("cover", VInt 25)]);
   ("loads", VDict [("dead_load", VFloat 0.004); ("live_load", VFloat 0.0)])].

(** Scenario B: a 150 x 150 mm column. *)
Definition column_B : value := VDict
  [("member_type", VStr "column");
   ("dimensions", VDict [("length", VFloat 3.0); ("breadth", VInt 150); ("depth", VInt 150)]);
   ("materials", VDict [("concrete_grade", VStr "M25"); ("steel_grade", VStr "Fe415")]);
   ("reinforcement", VDict [("num_bars", VInt 4); ("bar_diameter", VInt 12);
                            ("cover", VInt 40)]);
   ("loads", VDict [("axial_load", VFloat 100.0)])].



(** Scenario D: slabs of 5 x 2 m and 3 x 2 m, 150 mm thick. *)
Definition slab_D (length : float) : value := VDict
  [("member_type", VStr "slab");
   ("dimensions", VDict [("length", VFloat length); ("breadth", VFloat 2.0);
                         ("depth", VInt 150)]);
   ("materials", VDict [("concrete_grade", VStr "M20"); ("steel_grade", VStr "Fe415")]);
   ("reinforcement", VDict [("bar_diameter", VInt 10); ("spacing", VInt 150);
                            ("cover", VInt 20)]);
   ("loads", VDict [("dead_load", VFloat 1.0); ("live_load", VFloat 2.0)])].

(** A 2 x 2 m footing, 500 mm thick, with no loads block. *)
Definition footing_E : value := VDict
  [("member_type", VStr "footing");
   ("dimensions", VDict [("length", VFloat 2.0); ("breadth", VFloat 2.0);
                         ("depth", VInt 500)]);
   ("materials", VDict [("concrete_grade", VStr "M20"); ("steel_grade", VStr "Fe415")]);
   ("reinforcement", VDict [("bar_diameter", VInt 12); ("cover", VInt 50)])].

(** A column with no loads block, for the load calculator. *)
Definition column_F : value := VDict
  [("member_type", VStr "column");
   ("dimensions", VDict [("length", VInt 3000); ("breadth", VInt 300); ("depth", VInt 300)]);
   ("materials", VDict [("concrete_grade", VStr "M25"); ("steel_grade", VStr "Fe415")]);
   ("reinforcement", VDict [("num_bars", VInt 8); ("bar_diameter", VInt 16);
                            ("cover", VInt 40)])].

(** A design whose [member_type] is not a string. *)
Definition untyped_member : value := VDict [("member_type", VNone)].

(** A 2 x 2 m footing, 500 mm thick, under 400 kN. *)
Definition footing_G : value := VDict
  [("member_type", VStr "footing");
   ("dimensions", VDict [("length", VFloat 2.0); ("breadth", VFloat 2.0);
                         ("depth", VInt 500)]);
   ("materials", VDict [("concrete_grade", VStr "M20"); ("steel_grade", VStr "Fe415")]);
   ("reinforcement", VDict [("bar_diameter", VInt 12); ("cover", VInt 50)]);
   ("loads", VDict [("axial_load", VFloat 400.0)])].

(** A 0.5 x 0.5 m footing, 500 mm thick, under a 300 mm column. *)
Definition footing_small : value := VDict
  [("member_type", VStr "footing");
   ("dimensions", VDict [("length", VFloat 0.5); ("breadth", VFloat 0.5);
                         ("depth", VInt 500)]);
   ("materials", VDict [("concrete_grade", VStr "M20"); ("steel_grade", VStr "Fe415")]);
   ("reinforcement", VDict [("bar_diameter", VInt 12); ("cover", VInt 50)]);
   ("loads", VDict [("axial_load", VFloat 50.0)])].

(** Scenario B with a design moment. *)
Definition column_B_moment : value :=
  set_entry "loads" "moment" (VFloat 75.0) column_B.

(** A beam whose length is left out, and without loads. *)
Definition beam_no_length : value := VDict
  [("member_type", VStr "beam");
   ("dimensions", VDict [("breadth", VInt 300); ("depth", VInt 600)]);
   ("materials", VDict [("concrete_grade", VStr "M20"); ("steel_grade", VStr "Fe415")]);
   ("reinforcement", VDict [("num_bars", VInt 4); ("bar_diameter", VInt 16);
                            ("cover", VInt 25)])].

(** Scenario A tagged in capitals, with a key no function reads. *)
Definition beam_upper : value := VDict
  [("member_type", VStr "BEAM");
   ("project", VStr "tower");
   ("dimensions", VDict [("length", VFloat 6.0); ("breadth", VInt 300); ("depth", VInt 600)]);
   ("materials", VDict [("concrete_grade", VStr "M20"); ("steel_grade", VStr "Fe415")]);
   ("reinforcement", VDict [("num_bars", VInt 4); ("bar_diameter", VInt 16);
                            ("cover", VInt 25)]);
   ("loads", VDict [("dead_load", VFloat 2.5); ("live_load", VFloat 3.0)]);
   ("auto_calculate_loads", VBool false)].

(** A column in wind zone 4, and the same with another importance
    factor. *)
Definition column_windy : value := VDict
  [("member_type", VStr "column");
   ("dimensions", VDict [("length", VInt 3000); ("breadth", VInt 300); ("depth", VInt 300)]);
   ("materials", VDict [("concrete_grade", VStr "M25"); ("steel_grade", VStr "Fe415")]);
   ("reinforcement", VDict [("num_bars", VInt 8); ("bar_diameter", VInt 16);
                            ("cover", VInt 40)]);
   ("wind_parameters", VDict [("wind_zone", VStr "zone_4");
                              ("importance_factor", VFloat 1.0)])].

Definition column_windy_important : value :=
  set_entry "wind_parameters" "importance_factor" (VFloat 1.5) column_windy.
End Examples.

(** * Properties *)

(** ** Dictionaries *)

Lemma dict_get_set_same (k : string) (v : value) (d : dict) :
  dict_get k (dict_set k v d) = Some v.
Proof.
  induction d as [|[k' v'] tl IH]; cbn [dict_set dict_get].
  - rewrite String.eqb_refl. reflexivity.
  - destruct (String.eqb k k') eqn:E; cbn [dict_get]; rewrite ?String.eqb_refl, ?E; auto.
Qed.

Lemma dict_get_set_other (k k' : string) (v : value) (d : dict) :
  k <> k' -> dict_get k (dict_set k' v d) = dict_get k d.
Proof.
  intros Hne. induction d as [|[k0 v0] tl IH]; cbn [dict_set dict_get].
  - destruct (String.eqb_spec k k'); [contradiction | reflexivity].
  - destruct (String.eqb_spec k' k0) as [->|Hk0]; cbn [dict_get].
    + destruct (String.eqb_spec k k0); [contradiction | reflexivity].
    + destruct (String.eqb_spec k k0); [reflexivity | exact IH].
Qed.

(** ** The order on floats *)

Lemma SFleb_trans (x y z : spec_float) :
  SFleb x y = true -> SFleb y z = true -> SFleb x z = true.
Proof.
  unfold SFleb, SFcompare.
  destruct x as [sx|sx| |sx mx ex], y as [sy|sy| |sy my ey], z as [sz|sz| |sz mz ez];
    try discriminate;
    repeat match goal with s : bool |- _ => destruct s end;
    try discriminate; try reflexivity;
    change (Pos.compare_cont Eq) with Pos.compare;
    destruct (Z.compare_spec ex ey), (Z.compare_spec ey ez), (Z.compare_spec ex ez);
    try discriminate; try reflexivity; try lia;
    destruct (Pos.compare_spec mx my), (Pos.compare_spec my mz), (Pos.compare_spec mx mz);
    simpl; try discriminate; try reflexivity; try lia.
Qed.

Lemma float_leb_trans (a b c : float) :
  PrimFloat.leb a b = true -> PrimFloat.leb b c = true -> PrimFloat.leb a c = true.
Proof. rewrite !leb_spec. apply SFleb_trans. Qed.

(** [a >= r] survives replacing [a] by something at least as large. *)
Lemma geb_monotone (a a' r : float) :
  PrimFloat.leb a a' = true -> PyFloat.geb a r = true -> PyFloat.geb a' r = true.
Proof. unfold PyFloat.geb. intros Ha Hr. exact (float_leb_trans _ _ _ Hr Ha). Qed.

(** ** The verdict of a report *)

Lemma all_pass_forallb (checks : dict) :
  Forall (fun c => check_pass_flag c <> None) (dict_values checks) ->
  all_pass checks = inl (forallb passes (dict_values checks)).
Proof.
  induction checks as [|[name c] tl IH]; intros HF; [reflexivity|].
  inversion HF as [|? ? Hc Htl]; subst.
  cbn [all_pass dict_values map snd forallb].
  unfold passes at 1. unfold check_pass_flag, result_field in Hc |- *.
  destruct c as [| | | | | |fields]; try congruence.
  cbn [subscript].
  destruct (dict_get "pass" fields) as [[| b | | | | |]|]; try congruence.
  cbn [bind ret truthy]. destruct b; cbn [andb]; [apply IH; exact Htl | reflexivity].
Qed.

Lemma is_report_consistent (member : string) (r : value) :
  is_report member r -> verdict_consistent r.
Proof.
  intros (overall & summary & checks & -> & -> & HF).
  exists checks. cbn [result_field dict_get String.eqb Ascii.eqb Bool.eqb].
  repeat split; try reflexivity.
  - intros c Hc. rewrite Forall_forall in HF. specialize (HF c Hc).
    destruct (check_pass_flag c) as [b|]; [exists b; reflexivity | congruence].
  - unfold status_of. destruct (forallb passes (dict_values checks)); intros H; congruence.
  - unfold status_of. destruct (forallb passes (dict_values checks)); intros H;
      [reflexivity | discriminate].
  - unfold status_of. destruct (forallb passes (dict_values checks)); intros H; congruence.
  - unfold status_of. destruct (forallb passes (dict_values checks)); intros H;
      [discriminate | reflexivity].
Qed.

(** One step of reading a successful run backwards: the computation in
    front of a [bind] returned, or a pair was taken apart. *)
Ltac step_bind H :=
  match type of H with
  | match ?c with inl _ => _ | inr _ => _ end = inl _ =>
      let E := fresh "E" in destruct c eqn:E; [| discriminate H]
  | (let '(_, _) := ?p in _) = inl _ => destruct p eqn:?
  end.

Ltac unfold_binds H := cbv beta iota zeta delta [bind ret] in H.

Ltac solve_flags := repeat constructor; discriminate.

Ltac finish_report H :=
  match goal with
  | E : all_pass _ = inl _ |- _ =>
      rewrite all_pass_forallb in E by solve_flags; injection E as <-
  end;
  try (injection H as <-);
  eexists _, _, _; split; [reflexivity | split; [reflexivity | solve_flags]].

Section Reports.
Context {RT : Runtime}.

Lemma beam_report_is_report (L : beam_locals) (r : value) :
  beam_report L = inl r -> is_report "beam" r.
Proof.
  intros H. unfold beam_report, check_maximum_steel in H. unfold_binds H.
  repeat step_bind H. finish_report H.
Qed.

Lemma column_report_is_report (L : column_locals) (r : value) :
  column_report L = inl r -> is_report "column" r.
Proof.
  intros H. unfold column_report in H. unfold_binds H.
  repeat step_bind H. finish_report H.
Qed.

Lemma slab_distribution_check_flags (L : slab_locals) (cs : dict) :
  slab_distribution_check L = inl cs ->
  Forall (fun c => check_pass_flag c <> None) (dict_values cs).
Proof.
  unfold slab_distribution_check. intros H.
  destruct (String.eqb (slab_slab_type L) "one_way").
  - unfold_binds H. repeat step_bind H. injection H as <-. solve_flags.
  - injection H as <-. constructor.
Qed.

Lemma slab_report_is_report (L : slab_locals) (r : value) :
  slab_report L = inl r -> is_report "slab" r.
Proof.
  intros H. unfold slab_report in H. unfold_binds H.
  repeat step_bind H.
  match goal with
  | E : slab_distribution_check _ = inl ?cs |- _ =>
      pose proof (slab_distribution_check_flags _ _ E) as Hcs
  end.
  match goal with
  | E : all_pass _ = inl _ |- _ =>
      rewrite all_pass_forallb in E
        by (cbn [app dict_values map snd]; repeat (constructor; [discriminate|]); exact Hcs);
      injection E as <-
  end.
  injection H as <-.
  eexists _, _, _; split; [reflexivity | split; [reflexivity |]].
  cbn [app dict_values map snd]; repeat (constructor; [discriminate|]); exact Hcs.
Qed.

Lemma footing_one_way_shear_flag (L : footing_locals) (c : value) :
  footing_one_way_shear L = inl c -> check_pass_flag c <> None.
Proof.
  unfold footing_one_way_shear. intros H.
  destruct (PyFloat.gtb _ 0).
  - unfold_binds H. repeat step_bind H. injection H as <-. discriminate.
  - injection H as <-. discriminate.
Qed.

Lemma footing_report_is_report (L : footing_locals) (r : value) :
  footing_report L = inl r -> is_report "footing" r.
Proof.
  intros H. unfold footing_report in H. unfold_binds H.
  repeat step_bind H.
  match goal with
  | E : footing_one_way_shear _ = inl ?c |- _ =>
      pose proof (footing_one_way_shear_flag _ _ E) as Hc
  end.
  match goal with
  | E : all_pass _ = inl _ |- _ =>
      rewrite all_pass_forallb in E
        by (cbn [dict_values map snd]; repeat (constructor; [first [discriminate | exact Hc]|]);
            constructor);
      injection E as <-
  end.
  injection H as <-.
  eexists _, _, _; split; [reflexivity | split; [reflexivity |]].
  cbn [dict_values map snd]; repeat (constructor; [first [discriminate | exact Hc]|]);
    constructor.
Qed.
End Reports.

(** ** What a member checker returns *)

Section CheckerResults.
Context {RT : Runtime}.

Lemma beam_result_cases (d : value) :
  (exists L r, beam_extract d = inl L /\ beam_report L = inl r
               /\ check_beam_compliance d = r /\ is_report "beam" r)
  \/ (exists e, check_beam_compliance d
                = VDict [("error", VStr ("Beam compliance check failed: " ++ str_of_exn e));
                         ("member_type", VStr "beam")]).
Proof.
  unfold check_beam_compliance, beam_body, bind.
  destruct (beam_extract d) as [L|e]; [| right; exists e; reflexivity].
  destruct (beam_report L) as [r|e] eqn:E; [| right; exists e; reflexivity].
  left. exists L, r.
  repeat split; first [reflexivity | exact E | exact (beam_report_is_report L r E)].
Qed.

Lemma column_result_cases (d : value) :
  (exists L r, column_extract d = inl L /\ column_report L = inl r
               /\ check_column_compliance d = r /\ is_report "column" r)
  \/ (exists e, check_column_compliance d
                = VDict [("error", VStr ("Column compliance check failed: " ++ str_of_exn e));
                         ("member_type", VStr "column")]).
Proof.
  unfold check_column_compliance, column_body, bind.
  destruct (column_extract d) as [L|e]; [| right; exists e; reflexivity].
  destruct (column_report L) as [r|e] eqn:E; [| right; exists e; reflexivity].
  left. exists L, r.
  repeat split; first [reflexivity | exact E | exact (column_report_is_report L r E)].
Qed.

Lemma slab_result_cases (d : value) :
  (exists L r, slab_extract d = inl L /\ slab_report L = inl r
               /\ check_slab_compliance d = r /\ is_report "slab" r)
  \/ (exists e, check_slab_compliance d
                = VDict [("error", VStr ("Slab compliance check failed: " ++ str_of_exn e));
                         ("member_type", VStr "slab")]).
Proof.
  unfold check_slab_compliance, slab_body, bind.
  destruct (slab_extract d) as [L|e]; [| right; exists e; reflexivity].
  destruct (slab_report L) as [r|e] eqn:E; [| right; exists e; reflexivity].
  left. exists L, r.
  repeat split; first [reflexivity | exact E | exact (slab_report_is_report L r E)].
Qed.

Lemma footing_result_cases (d : value) :
  (exists L r, footing_extract d = inl L /\ footing_report L = inl r
               /\ check_footing_compliance d = r /\ is_report "footing" r)
  \/ (exists e, check_footing_compliance d
                = VDict [("error", VStr ("Footing compliance check failed: " ++ str_of_exn e));
                         ("member_type", VStr "footing")]).
Proof.
  unfold check_footing_compliance, footing_body, bind.
  destruct (footing_extract d) as [L|e]; [| right; exists e; reflexivity].
  destruct (footing_report L) as [r|e] eqn:E; [| right; exists e; reflexivity].
  left. exists L, r.
  repeat split; first [reflexivity | exact E | exact (footing_report_is_report L r E)].
Qed.

(** C1: whenever a member checker (beam, column, slab or footing) returns
    a result without an ['error'] field, [overall_compliance] is the
    logical AND of the ['pass'] flags of all the checks in ['checks'], and
    ['status'] is ["PASS"] exactly when [overall_compliance] is true (and
    ["FAIL"] exactly when it is false). *)
Theorem overall_compliance_is_conjunction (checker : value -> value) (d : value) :
  In checker [check_beam_compliance; check_column_compliance;
              check_slab_compliance; check_footing_compliance] ->
  result_field (checker d) "error" = None ->
  verdict_consistent (checker d).
Proof.
  intros Hin Herr.
  destruct Hin as [<-|[<-|[<-|[<-|[]]]]].
  - destruct (beam_result_cases d) as [(L & r & _ & _ & Hr & Hrep)|[e He]].
    + rewrite Hr. exact (is_report_consistent _ _ Hrep).
    + rewrite He in Herr. discriminate Herr.
  - destruct (column_result_cases d) as [(L & r & _ & _ & Hr & Hrep)|[e He]].
    + rewrite Hr. exact (is_report_consistent _ _ Hrep).
    + rewrite He in Herr. discriminate Herr.
  - destruct (slab_result_cases d) as [(L & r & _ & _ & Hr & Hrep)|[e He]].
    + rewrite Hr. exact (is_report_consistent _ _ Hrep).
    + rewrite He in Herr. discriminate Herr.
  - destruct (footing_result_cases d) as [(L & r & _ & _ & Hr & Hrep)|[e He]].
    + rewrite Hr. exact (is_report_consistent _ _ Hrep).
    + rewrite He in Herr. discriminate Herr.
Qed.

(** C5: for every input on which the column checker returns a result (no
    ['error'] field), the ['tie_reinforcement'] check is present with
    [pass = True]; its two computed entries come from the column's own
    dimensions and bar diameter only, and its [pass] entry is the constant
    [True], compared against nothing. *)
Theorem tie_reinforcement_always_passes (d : value) :
  result_field (check_column_compliance d) "error" = None ->
  exists L,
    column_extract d = inl L
    /\ named_check (check_column_compliance d) "tie_reinforcement"
       = Some (VDict
           [("minimum_tie_diameter",
             num_value (num_round (max_int_float 6 (col_bar_dia L / 4)) 2));
            ("maximum_tie_spacing",
             num_value (num_round
               (min_float_int (PyFloat.min (PyFloat.min (col_width L) (col_depth L))
                                           (16 * col_bar_dia L)) 300) 2));
            ("description", VStr "Tie reinforcement requirements (IS 456 Cl. 26.5.3.2)");
            ("pass", VBool true)])
    /\ (forall tie, named_check (check_column_compliance d) "tie_reinforcement" = Some tie ->
                    check_pass_flag tie = Some true).
Proof.
  intros Herr.
  destruct (column_result_cases d) as [(L & r & HL & Hrep & Hr & _)|[e He]].
  2:{ rewrite He in Herr. discriminate Herr. }
  exists L. split; [exact HL|]. rewrite Hr. clear Hr Herr HL.
  unfold column_report in Hrep. unfold_binds Hrep. repeat step_bind Hrep.
  injection Hrep as <-.
  split; [reflexivity|]. intros tie Htie. injection Htie as <-. reflexivity.
Qed.
End CheckerResults.

(** The verdict of scenario A is a conjunction of six passing checks. *)
Lemma overall_compliance_is_conjunction_witness :
  result_field (check_beam_compliance (RT := example_runtime) Examples.beam_A) "error" = None
  /\ verdict_consistent (check_beam_compliance (RT := example_runtime) Examples.beam_A).
Proof.
  split; [reflexivity|].
  apply (@overall_compliance_is_conjunction example_runtime check_beam_compliance Examples.beam_A).
  - left. reflexivity.
  - reflexivity.
Defined.

(** Scenario B: the 150 mm column fails, and its tie check passes all the
    same. *)
Lemma tie_reinforcement_always_passes_witness :
  result_field (check_column_compliance (RT := example_runtime) Examples.column_B) "error" = None
  /\ exists L,
      column_extract (RT := example_runtime) Examples.column_B = inl L
      /\ named_check (check_column_compliance (RT := example_runtime) Examples.column_B)
           "tie_reinforcement"
         = Some (VDict
             [("minimum_tie_diameter",
               num_value (num_round (max_int_float 6 (col_bar_dia L / 4)) 2));
              ("maximum_tie_spacing",
               num_value (num_round
                 (min_float_int (PyFloat.min (PyFloat.min (col_width L) (col_depth L))
                                             (16 * col_bar_dia L)) 300) 2));
              ("description", VStr "Tie reinforcement requirements (IS 456 Cl. 26.5.3.2)");
              ("pass", VBool true)])
      /\ (forall tie,
            named_check (check_column_compliance (RT := example_runtime) Examples.column_B)
              "tie_reinforcement" = Some tie ->
            check_pass_flag tie = Some true).
Proof.
  split; [reflexivity|].
  apply (@tie_reinforcement_always_passes example_runtime Examples.column_B).
  reflexivity.
Defined.

(** Scenario B: with 150 mm sides the minimum-dimension check fails and so
    does the column. *)
Example column_150_fails :
  (forall c,
      named_check (check_column_compliance (RT := example_runtime) Examples.column_B)
        "minimum_dimension" = Some c ->
      check_pass_flag c = Some false)
  /\ result_field (check_column_compliance (RT := example_runtime) Examples.column_B)
       "overall_compliance" = Some (VBool false)
  /\ result_field (check_column_compliance (RT := example_runtime) Examples.column_B)
       "status" = Some (VStr "FAIL").
Proof.
  repeat split; try (vm_compute; reflexivity).
  intros c Hc. vm_compute in Hc. injection Hc as <-. reflexivity.
Qed.

(** ** Slabs: one-way or two-way *)

Section SlabType.
Context {RT : Runtime}.
Local Open Scope float_scope.



End SlabType.


(** Scenario D, second half: a 3 m by 2 m slab has ratio 1.5, is two-way and
    has no distribution-steel check. *)
Example slab_ratio_1_5_two_way :
  summary_field (check_slab_compliance (RT := example_runtime) (Examples.slab_D 3.0))
    "slab_type" = Some (VStr "two_way")
  /\ summary_field (check_slab_compliance (RT := example_runtime) (Examples.slab_D 3.0))
       "aspect_ratio" = Some (VFloat 1.5)
  /\ named_check (check_slab_compliance (RT := example_runtime) (Examples.slab_D 3.0))
       "distribution_steel" = None.
Proof. repeat split; vm_compute; reflexivity. Qed.


(** ** Beams: more steel never fails a steel-adequacy check *)

Lemma set_num_bars_differs (n : value) (dd r : dict) :
  dict_get "reinforcement" dd = Some (VDict r) ->
  differ_only_in_num_bars (set_num_bars n (VDict dd)) (VDict dd).
Proof.
  intros Hr. unfold set_num_bars. rewrite Hr.
  exists (dict_set "reinforcement" (VDict (dict_set "num_bars" n r)) dd), dd,
         (dict_set "num_bars" n r), r.
  repeat split; auto.
  - intros k Hk. apply dict_get_set_other. exact Hk.
  - apply dict_get_set_same.
  - intros k Hk. apply dict_get_set_other. exact Hk.
Qed.

Section BeamMonotone.
Context {RT : Runtime}.
Local Open Scope float_scope.

(** Everything [beam_extract] derives, the bar count and the provided area
    apart, is the same for two designs that differ only in the bar count. *)
Lemma beam_extract_same_requirements (d1 d2 : value) (L1 L2 : beam_locals) :
  differ_only_in_num_bars d1 d2 ->
  beam_extract d1 = inl L1 -> beam_extract d2 = inl L2 ->
  beam_width L1 = beam_width L2
  /\ beam_d L1 = beam_d L2
  /\ beam_fy L1 = beam_fy L2
  /\ beam_fck L1 = beam_fck L2
  /\ beam_span L1 = beam_span L2
  /\ beam_Mu_nmm L1 = beam_Mu_nmm L2
  /\ beam_Ast_required L1 = beam_Ast_required L2
  /\ beam_bar_area L1 = beam_bar_area L2.
Proof.
  intros (dd1 & dd2 & r1 & r2 & -> & -> & Hdd & Hr1 & Hr2 & Hr) H1 H2.
  unfold beam_extract in H1, H2. cbn [subscript] in H1, H2.
  rewrite Hr1 in H1. rewrite Hr2 in H2.
  rewrite <- !Hdd in H2 by discriminate.
  unfold_binds H1. unfold_binds H2.
  cbn [get_method] in H1, H2.
  rewrite <- (Hr "cover") in H2 by discriminate.
  rewrite <- (Hr "bar_diameter") in H2 by discriminate.
  repeat step_bind H1.
  repeat match goal with
  | E : ?c = inl ?a |- _ =>
      match type of H2 with
      | match c with inl _ => _ | inr _ => _ end = inl _ => rewrite E in H2
      end
  end.
  repeat step_bind H2.
  injection H1 as <-. injection H2 as <-.
  cbn [beam_width beam_d beam_fy beam_fck beam_span beam_Mu_nmm beam_Ast_required
       beam_bar_area].
  repeat split; reflexivity.
Qed.

(** The two steel-adequacy checks of a beam report and what decides them
    (lines 72-87, and [check_minimum_steel]). *)
Lemma beam_report_steel_flags (L : beam_locals) (r : value) :
  beam_report L = inl r ->
  exists q c1 c2,
    PyFloat.div 0.85 (beam_fy L) = inl q
    /\ named_check r "flexural_strength" = Some c1
    /\ check_pass_flag c1
       = Some (PyFloat.geb (beam_Ast_provided L) (beam_Ast_required L))
    /\ named_check r "minimum_steel" = Some c2
    /\ check_pass_flag c2
       = Some (PyFloat.geb (beam_Ast_provided L) (q * beam_width L * beam_d L)).
Proof.
  intros H. unfold beam_report, check_minimum_steel, check_maximum_steel in H.
  destruct (PyFloat.div 0.85 (beam_fy L)) as [q|] eqn:Eq; [|discriminate H].
  unfold_binds H. repeat step_bind H. injection H as <-.
  exists q. eexists _, _. repeat split; reflexivity.
Qed.

(** C6: for two inputs that both get a report.  Take two beam inputs that
    differ only in the number of bars, the second with at least as much
    provided steel area as the first, and for both of which the checker
    returns a report rather than an error result.  Each steel-adequacy check
    that compares the provided steel against a required minimum
    (['flexural_strength'] and ['minimum_steel']) and passes on the first
    input passes on the second as well: among reports, more steel never
    turns a pass into a fail. *)
Theorem beam_steel_adequacy_monotone (d1 d2 : value) (name : string)
    (L1 L2 : beam_locals) (c1 : value) :
  differ_only_in_num_bars d1 d2 ->
  In name ["flexural_strength"; "minimum_steel"]%string ->
  beam_extract d1 = inl L1 ->
  beam_extract d2 = inl L2 ->
  (beam_Ast_provided L1 <=? beam_Ast_provided L2) = true ->
  result_field (check_beam_compliance d1) "error" = None ->
  result_field (check_beam_compliance d2) "error" = None ->
  named_check (check_beam_compliance d1) name = Some c1 ->
  check_pass_flag c1 = Some true ->
  exists c2,
    named_check (check_beam_compliance d2) name = Some c2
    /\ check_pass_flag c2 = Some true.
Proof.
  intros Hdiff Hname HL1 HL2 Hle Herr1 Herr2 Hc1 Hpass.
  destruct (beam_extract_same_requirements _ _ _ _ Hdiff HL1 HL2)
    as (Hw & Hd & Hfy & _ & _ & _ & Hreq & _).
  destruct (beam_result_cases d1) as [(L1' & r1 & HL1' & Hrep1 & Hr1 & _)|[e He]].
  2:{ rewrite He in Herr1. discriminate Herr1. }
  destruct (beam_result_cases d2) as [(L2' & r2 & HL2' & Hrep2 & Hr2 & _)|[e He]].
  2:{ rewrite He in Herr2. discriminate Herr2. }
  rewrite HL1 in HL1'. injection HL1' as <-.
  rewrite HL2 in HL2'. injection HL2' as <-.
  rewrite Hr1 in Hc1. rewrite Hr2. clear Hr1 Hr2 Herr1 Herr2.
  destruct (beam_report_steel_flags _ _ Hrep1) as (q1 & a1 & b1 & Hq1 & Ha1 & Hfa1 & Hb1 & Hfb1).
  destruct (beam_report_steel_flags _ _ Hrep2) as (q2 & a2 & b2 & Hq2 & Ha2 & Hfa2 & Hb2 & Hfb2).
  rewrite <- Hfy, Hq1 in Hq2. injection Hq2 as <-.
  rewrite <- Hreq in Hfa2. rewrite <- Hw, <- Hd in Hfb2.
  destruct Hname as [<-|[<-|[]]].
  - exists a2. split; [exact Ha2|].
    rewrite Ha1 in Hc1. injection Hc1 as <-.
    rewrite Hfa1 in Hpass. injection Hpass as Hpass.
    rewrite Hfa2. f_equal. exact (geb_monotone _ _ _ Hle Hpass).
  - exists b2. split; [exact Hb2|].
    rewrite Hb1 in Hc1. injection Hc1 as <-.
    rewrite Hfb1 in Hpass. injection Hpass as Hpass.
    rewrite Hfb2. f_equal. exact (geb_monotone _ _ _ Hle Hpass).
Qed.
End BeamMonotone.

(** Scenario A with one bar instead of four: the flexural check passes with
    201 mm2 of steel and still passes with 804 mm2. *)
Lemma beam_steel_adequacy_monotone_witness :
  differ_only_in_num_bars Examples.beam_one_bar Examples.beam_A
  /\ exists c2,
       named_check (check_beam_compliance (RT := example_runtime) Examples.beam_A)
         "flexural_strength" = Some c2
       /\ check_pass_flag c2 = Some true.
Proof.
  assert (Hdiff : differ_only_in_num_bars Examples.beam_one_bar Examples.beam_A).
  { apply set_num_bars_differs with
      (r := [("num_bars", VInt 4); ("bar_diameter", VInt 16); ("cover", VInt 25)]).
    reflexivity. }
  split; [exact Hdiff|].
  destruct (beam_extract (RT := example_runtime) Examples.beam_one_bar) as [L1|] eqn:E1;
    [| vm_compute in E1; discriminate E1].
  destruct (beam_extract (RT := example_runtime) Examples.beam_A) as [L2|] eqn:E2;
    [| vm_compute in E2; discriminate E2].
  destruct (named_check (check_beam_compliance (RT := example_runtime) Examples.beam_one_bar)
              "flexural_strength") as [c1|] eqn:Ec1;
    [| vm_compute in Ec1; discriminate Ec1].
  apply (@beam_steel_adequacy_monotone example_runtime
           Examples.beam_one_bar Examples.beam_A "flexural_strength" L1 L2 c1).
  - exact Hdiff.
  - left. reflexivity.
  - exact E1.
  - exact E2.
  - vm_compute in E1. vm_compute in E2.
    injection E1 as <-. injection E2 as <-. reflexivity.
  - reflexivity.
  - reflexivity.
  - exact Ec1.
  - vm_compute in Ec1. injection Ec1 as <-. reflexivity.
Defined.

(** C6 as stated fails when the larger area costs the report.  Scenario A
    with its breadth left out reads the width as 0.  With no bar the
    provided area is 0, [calculate_shear_capacity] takes its default steel
    percentage, and the report's ['minimum_steel'] check passes (0 >= 0).
    With one bar the provided area is positive, the steel percentage
    [100 * Ast / (b * d)] divides by zero, and the checker returns an error
    result: the check that passed with less steel is no longer there. *)
Lemma more_steel_loses_the_report :
  differ_only_in_num_bars Examples.beam_no_breadth_no_bar Examples.beam_no_breadth
  /\ (exists L1 L2,
        beam_extract (RT := example_runtime) Examples.beam_no_breadth_no_bar = inl L1
        /\ beam_extract (RT := example_runtime) Examples.beam_no_breadth = inl L2
        /\ beam_width L1 = 0%float
        /\ beam_Ast_provided L1 = 0%float
        /\ (beam_Ast_provided L1 <? beam_Ast_provided L2)%float = true)
  /\ (exists c1,
        named_check (check_beam_compliance (RT := example_runtime)
                       Examples.beam_no_breadth_no_bar) "minimum_steel" = Some c1
        /\ check_pass_flag c1 = Some true)
  /\ check_beam_compliance (RT := example_runtime) Examples.beam_no_breadth
     = VDict [("error", VStr "Beam compliance check failed: float division by zero");
              ("member_type", VStr "beam")]
  /\ named_check (check_beam_compliance (RT := example_runtime) Examples.beam_no_breadth)
       "minimum_steel" = None.
Proof.
  split.
  { apply set_num_bars_differs with
      (r := [("num_bars", VInt 1); ("bar_diameter", VInt 16); ("cover", VInt 25)]).
    reflexivity. }
  split.
  { eexists _, _. split; [vm_compute; reflexivity|]. split; [vm_compute; reflexivity|].
    repeat split; vm_compute; reflexivity. }
  split.
  { eexists. split; vm_compute; reflexivity. }
  split; vm_compute; reflexivity.
Qed.

(** ** The unit guess of [calculate_required_area_of_steel] *)

Section MomentUnits.
Context {RT : Runtime}.
Local Open Scope float_scope.

(** Lines 114-116 against the rest of the function. *)
Lemma required_area_unit_guess (moment fck fy b d : float) :
  calculate_required_area_of_steel moment fck fy b d
  = required_steel_for_nmm (if moment <? 1000 then moment * 1e6 else moment) fck fy b d.
Proof. reflexivity. Qed.

(** What the beam checker passes and receives (lines 54-62). *)
Lemma beam_extract_moment (design_data : value) (L : beam_locals) :
  beam_extract design_data = inl L ->
  beam_Mu_nmm L = beam_Mu L * 1e6
  /\ calculate_required_area_of_steel (beam_Mu_nmm L) (beam_fck L) (beam_fy L)
       (beam_width L) (beam_d L) = inl (beam_Ast_required L).
Proof.
  intros H. unfold beam_extract in H. unfold_binds H. repeat step_bind H.
  injection H as <-.
  cbn [beam_Mu_nmm beam_Mu beam_fck beam_fy beam_width beam_d beam_Ast_required].
  split; [reflexivity | assumption].
Qed.

(** C9: [calculate_required_area_of_steel] multiplies a moment argument
    strictly below 1000 by 1e6 before computing the steel area and uses any
    other argument unchanged; hence a moment given in kNm and the same
    moment given in Nmm (at least 1000) receive the same result; and the
    beam checker, which always passes [Mu * 1e6], has its moment multiplied
    by 1e6 a second time whenever [Mu * 1e6] is below 1000. *)
Theorem moment_unit_guess (design_data : value) (L : beam_locals) :
  beam_extract design_data = inl L ->
  (forall moment fck fy b d,
      (moment <? 1000) = true ->
      calculate_required_area_of_steel moment fck fy b d
      = required_steel_for_nmm (moment * 1e6) fck fy b d)
  /\ (forall moment fck fy b d,
      (moment <? 1000) = false ->
      calculate_required_area_of_steel moment fck fy b d
      = required_steel_for_nmm moment fck fy b d)
  /\ (forall kNm fck fy b d,
      (kNm <? 1000) = true -> (kNm * 1e6 <? 1000) = false ->
      calculate_required_area_of_steel kNm fck fy b d
      = calculate_required_area_of_steel (kNm * 1e6) fck fy b d)
  /\ beam_Mu_nmm L = beam_Mu L * 1e6
  /\ calculate_required_area_of_steel (beam_Mu_nmm L) (beam_fck L) (beam_fy L)
       (beam_width L) (beam_d L) = inl (beam_Ast_required L)
  /\ ((beam_Mu_nmm L <? 1000) = true ->
      required_steel_for_nmm (beam_Mu L * 1e6 * 1e6) (beam_fck L) (beam_fy L)
        (beam_width L) (beam_d L) = inl (beam_Ast_required L)).
Proof.
  intros HL.
  destruct (beam_extract_moment _ _ HL) as [Hnmm Hreq].
  repeat split.
  - intros moment fck fy b d Hlt. rewrite required_area_unit_guess, Hlt. reflexivity.
  - intros moment fck fy b d Hge. rewrite required_area_unit_guess, Hge. reflexivity.
  - intros kNm fck fy b d Hlt Hge.
    rewrite !required_area_unit_guess, Hlt, Hge. reflexivity.
  - exact Hnmm.
  - exact Hreq.
  - intros Hlt. rewrite <- Hreq, required_area_unit_guess, Hlt, Hnmm. reflexivity.
Qed.
End MomentUnits.

(** A 1 m beam under 0.004 kN/m: the design moment is 0.00075 kNm, passed on
    as 750 Nmm, and the steel is sized for 750e6 Nmm; and 50 kNm is sized
    like 5e7 Nmm. *)
Lemma moment_unit_guess_witness :
  exists L,
    beam_extract (RT := example_runtime) Examples.beam_feather = inl L
    /\ beam_Mu_nmm L = 750%float
    /\ required_steel_for_nmm (RT := example_runtime) 750e6 (beam_fck L) (beam_fy L)
         (beam_width L) (beam_d L) = inl (beam_Ast_required L)
    /\ calculate_required_area_of_steel (RT := example_runtime) 50 20 415 300 567
       = calculate_required_area_of_steel (RT := example_runtime) 5e7 20 415 300 567.
Proof.
  destruct (beam_extract (RT := example_runtime) Examples.beam_feather) as [L|] eqn:E;
    [| vm_compute in E; discriminate E].
  exists L. split; [reflexivity|].
  destruct (@moment_unit_guess example_runtime Examples.beam_feather L E)
    as (_ & _ & Hsame & Hnmm & _ & Hdouble).
  vm_compute in E. injection E as <-.
  split; [reflexivity|].
  split.
  - apply Hdouble. reflexivity.
  - apply (Hsame 50%float); reflexivity.
Defined.

(** ** The design record after the load calculator *)

Section AutoLoadsShape.
Context {RT : Runtime}.
Local Open Scope float_scope.

Lemma resolve_building_parameters_dict (design_data building_data design_data' : value) :
  resolve_building_parameters design_data = inl (building_data, design_data') ->
  exists dd, design_data = VDict dd
    /\ design_data' = VDict (dict_set "building_parameters" building_data dd).
Proof.
  intros H. unfold resolve_building_parameters in H. unfold_binds H.
  repeat step_bind H. injection H as <- <-.
  match goal with E : set_item ?d _ _ = inl _ |- _ =>
    destruct d; try discriminate E; injection E as <- end.
  eexists; split; reflexivity.
Qed.

Lemma resolve_wind_parameters_dict (design_data wind_data design_data' : value) :
  resolve_wind_parameters design_data = inl (wind_data, design_data') ->
  exists dd, design_data = VDict dd
    /\ design_data' = VDict (dict_set "wind_parameters" wind_data dd).
Proof.
  intros H. unfold resolve_wind_parameters in H. unfold_binds H.
  repeat step_bind H. injection H as <- <-.
  match goal with E : set_item ?d _ _ = inl _ |- _ =>
    destruct d; try discriminate E; injection E as <- end.
  eexists; split; reflexivity.
Qed.

Lemma store_loads_dict (dd : dict) (loads lc wc : value) :
  store_loads (VDict dd) loads lc wc
  = inl (VDict (dict_set "wind_calculations" wc
                  (dict_set "load_calculations" lc (dict_set "loads" loads dd)))).
Proof. reflexivity. Qed.

Lemma stored_loads_read (dd : dict) (loads lc wc : value) :
  dict_get "loads" (dict_set "wind_calculations" wc
                      (dict_set "load_calculations" lc (dict_set "loads" loads dd)))
  = Some loads.
Proof.
  rewrite !dict_get_set_other by discriminate. apply dict_get_set_same.
Qed.

Lemma stored_load_calculations_read (dd : dict) (loads lc wc : value) :
  dict_get "load_calculations"
    (dict_set "wind_calculations" wc
       (dict_set "load_calculations" lc (dict_set "loads" loads dd)))
  = Some lc.
Proof.
  rewrite dict_get_set_other by discriminate. apply dict_get_set_same.
Qed.

(** The footing branch: the record returned and its ['loads'] block. *)
Lemma auto_loads_footing_shape (design_data d' : value) :
  auto_calculate_loads "footing" design_data = inl d' ->
  exists dd a lc,
    d' = VDict (dict_set "wind_calculations" (fal_wind_load_data a)
                  (dict_set "load_calculations" (VDict lc)
                     (dict_set "loads" (VDict (footing_loads_block a)) dd)))
    /\ dict_get "total_dead_load" lc = Some (VFloat (fal_total_dead_load a))
    /\ dict_get "total_live_load" lc = Some (VFloat (fal_total_live_load a))
    /\ dict_get "footing_self_weight" lc = Some (VFloat (fal_footing_self_weight a)).
Proof.
  intros H. unfold auto_calculate_loads in H.
  destruct (resolve_building_parameters design_data) as [[bd d1]|] eqn:Eb;
    [|discriminate H].
  cbn [bind] in H.
  destruct (resolve_wind_parameters d1) as [[wd d2]|] eqn:Ew; [|discriminate H].
  cbn [bind] in H.
  destruct (resolve_wind_parameters_dict _ _ _ Ew) as (dd1 & -> & ->).
  change (auto_loads_footing (VDict (dict_set "wind_parameters" wd dd1)) bd wd = inl d') in H.
  unfold auto_loads_footing in H.
  destruct (footing_auto_derive _ bd wd) as [a|]; [|discriminate H].
  cbn [bind] in H. rewrite store_loads_dict in H. injection H as <-.
  eexists _, a, _. repeat split; reflexivity.
Qed.
End AutoLoadsShape.

(** ** Footings checked on automatically calculated loads *)

Section FootingOnAutoLoads.
Context {RT : Runtime}.
Local Open Scope float_scope.

Lemma footing_block_keys (a : footing_auto_loads) :
  dict_keys (footing_loads_block a)
  = ["vertical_load"; "dead_load"; "live_load"; "wind_moment"]%string.
Proof. reflexivity. Qed.

Lemma footing_block_defaults (a : footing_auto_loads) :
  get_method (VDict (footing_loads_block a)) "axial_load" (VInt 0) = inl (VInt 0)
  /\ get_method (VDict (footing_loads_block a)) "moment" (VInt 0) = inl (VInt 0)
  /\ get_method (VDict (footing_loads_block a)) "safe_bearing_capacity" (VInt 200)
     = inl (VInt 200).
Proof. repeat split; reflexivity. Qed.

Lemma py_float_small_ints :
  py_float (VInt 0) = inl 0 /\ py_float (VInt 200) = inl 200.
Proof. split; reflexivity. Qed.

(** What the footing checker derives when its ['loads'] block is a block
    the load calculator wrote (lines 44-56). *)
Lemma footing_extract_on_block (dd : dict) (a : footing_auto_loads) (L : footing_locals) :
  dict_get "loads" dd = Some (VDict (footing_loads_block a)) ->
  footing_extract (VDict dd) = inl L ->
  ftg_axial_load L = 0
  /\ ftg_sbc L = 200
  /\ ftg_self_weight L
     = ftg_footing_area L * ftg_thickness L / 1000 * MaterialConstants.CONCRETE_DENSITY
  /\ ftg_bearing_pressure L = (0 + ftg_self_weight L) / ftg_footing_area L.
Proof.
  intros Hloads H. unfold footing_extract in H. cbn [subscript] in H.
  rewrite Hloads in H. unfold_binds H.
  destruct (footing_block_defaults a) as (Ha & Hm & Hs).
  rewrite Ha, Hm, Hs in H. unfold_binds H.
  destruct py_float_small_ints as [H0 H200].
  rewrite H0, H200 in H. unfold_binds H.
  repeat step_bind H. injection H as <-.
  cbn [ftg_axial_load ftg_sbc ftg_self_weight ftg_footing_area ftg_thickness
       ftg_bearing_pressure].
  repeat split; try reflexivity.
  match goal with E : PyFloat.div (0 + _) _ = inl ?bp |- ?bp = _ =>
    unfold PyFloat.div in E;
    match type of E with (if ?c then _ else _) = _ => destruct c end;
    [discriminate E | injection E as <-; reflexivity]
  end.
Qed.

(** The bearing-pressure check of a footing report (lines 97-103). *)
Lemma footing_report_bearing (L : footing_locals) (r : value) :
  footing_report L = inl r ->
  exists c,
    named_check r "bearing_pressure" = Some c
    /\ check_pass_flag c = Some (ftg_bearing_pressure L <=? ftg_sbc L).
Proof.
  intros H. unfold footing_report in H. unfold_binds H. repeat step_bind H.
  injection H as <-. eexists. split; reflexivity.
Qed.

(** C10: the ['loads'] block the load calculator writes for a footing has
    exactly the keys [vertical_load], [dead_load], [live_load] and
    [wind_moment], hence no ['axial_load'] (and no
    ['safe_bearing_capacity']); the footing checker run on that record reads
    an axial load of 0 and the default capacity of 200, so its
    bearing-pressure check compares the footing's self-weight divided by
    its area against the safe bearing capacity. *)
Theorem footing_auto_loads_lack_axial_load (design_data d' : value) :
  auto_calculate_loads "footing" design_data = inl d' ->
  exists loads,
    result_field d' "loads" = Some (VDict loads)
    /\ dict_keys loads = ["vertical_load"; "dead_load"; "live_load"; "wind_moment"]%string
    /\ dict_get "axial_load" loads = None
    /\ (forall L r,
          footing_extract d' = inl L ->
          footing_report L = inl r ->
          ftg_axial_load L = 0
          /\ ftg_self_weight L
             = ftg_footing_area L * ftg_thickness L / 1000
               * MaterialConstants.CONCRETE_DENSITY
          /\ ftg_bearing_pressure L = (0 + ftg_self_weight L) / ftg_footing_area L
          /\ exists c,
               named_check r "bearing_pressure" = Some c
               /\ check_pass_flag c
                  = Some ((0 + ftg_self_weight L) / ftg_footing_area L <=? 200)).
Proof.
  intros H.
  destruct (auto_loads_footing_shape _ _ H) as (dd & a & lc & -> & _).
  exists (footing_loads_block a).
  split; [cbn [result_field]; apply stored_loads_read|].
  split; [apply footing_block_keys|].
  split; [reflexivity|].
  intros L r HL Hr.
  destruct (footing_extract_on_block _ a L (stored_loads_read _ _ _ _) HL)
    as (Hax & Hsbc & Hsw & Hbp).
  destruct (footing_report_bearing _ _ Hr) as (c & Hc & Hflag).
  repeat split; auto.
  exists c. split; [exact Hc|]. rewrite Hflag, Hbp, Hsbc. reflexivity.
Qed.
End FootingOnAutoLoads.

(** The 2 m by 2 m footing: the calculated block has no axial load, and the
    checker compares 12.5 kN/m2 of self-weight against 200 kN/m2. *)
Lemma footing_auto_loads_lack_axial_load_witness :
  exists d' L r c,
    auto_calculate_loads (RT := example_runtime) "footing" Examples.footing_E = inl d'
    /\ footing_extract (RT := example_runtime) d' = inl L
    /\ footing_report (RT := example_runtime) L = inl r
    /\ ftg_axial_load L = 0%float
    /\ ftg_bearing_pressure L = 12.5%float
    /\ named_check r "bearing_pressure" = Some c
    /\ check_pass_flag c = Some true.
Proof.
  destruct (auto_calculate_loads (RT := example_runtime) "footing" Examples.footing_E)
    as [d'|] eqn:Ed; [| vm_compute in Ed; discriminate Ed].
  destruct (@footing_auto_loads_lack_axial_load example_runtime Examples.footing_E d' Ed)
    as (loads & _ & _ & _ & Hchk).
  destruct (footing_extract (RT := example_runtime) d') as [L|] eqn:EL;
    [| vm_compute in Ed; injection Ed as <-; vm_compute in EL; discriminate EL].
  destruct (footing_report (RT := example_runtime) L) as [r|] eqn:Er;
    [| vm_compute in Ed; injection Ed as <-; vm_compute in EL; injection EL as <-;
       vm_compute in Er; discriminate Er].
  destruct (Hchk L r eq_refl Er) as (Hax & _ & Hbp & c & Hc & Hflag).
  exists d', L, r, c.
  repeat split; auto.
  - rewrite Hbp. vm_compute in Ed. injection Ed as <-.
    vm_compute in EL. injection EL as <-. reflexivity.
  - rewrite Hflag. vm_compute in Ed. injection Ed as <-.
    vm_compute in EL. injection EL as <-. reflexivity.
Defined.

(** ** Load combinations *)

Section LoadCombinations.
Context {RT : Runtime}.
Local Open Scope float_scope.
Import LoadCalculator.

Lemma dict_setdefault_nonempty (k : string) (v : value) (d : dict) :
  dict_setdefault k v d <> [].
Proof.
  unfold dict_setdefault, dict_mem.
  destruct d as [|[k' v'] tl]; cbn [dict_get dict_set]; [discriminate|].
  destruct (String.eqb k k'); [discriminate|].
  destruct (dict_get k tl); discriminate.
Qed.

Lemma resolve_wind_parameters_truthy (design_data wind_data design_data' : value) :
  resolve_wind_parameters design_data = inl (wind_data, design_data') ->
  truthy wind_data = true.
Proof.
  intros H. unfold resolve_wind_parameters in H. unfold_binds H.
  repeat step_bind H. injection H as <- _.
  match goal with E : setdefault_method ?w "importance_factor" _ = inl _ |- _ =>
    destruct w; try discriminate E; injection E as <- end.
  cbn [truthy].
  match goal with |- match ?x with [] => _ | _ => _ end = _ =>
    pose proof (dict_setdefault_nonempty "importance_factor" (VFloat 1.0) d) as Hne;
    destruct x; [contradiction Hne; reflexivity | reflexivity]
  end.
Qed.

(** What [calculate_column_axial_load] returns for a column whose wind
    block is not empty. *)
Lemma column_axial_load_shape (dimensions building_data wind_data lr : value) :
  truthy wind_data = true ->
  calculate_column_axial_load
    (VDict [("dimensions", dimensions); ("building_data", building_data);
            ("wind_data", wind_data)]%string) = inl lr ->
  exists DL LL WL,
    result_field lr "total_dead_load" = Some (VFloat DL)
    /\ result_field lr "total_live_load" = Some (VFloat LL)
    /\ result_field lr "total_wind_load" = Some (VFloat WL)
    /\ read_float lr "critical_axial_load" 0 = inl (governing_combination DL LL WL).
Proof.
  intros Hw H. unfold calculate_column_axial_load in H.
  cbn [get_method dict_get String.eqb Ascii.eqb Bool.eqb] in H.
  unfold_binds H. rewrite Hw in H.
  repeat step_bind H.
  match goal with E : _ = inl (_, _) |- _ =>
    repeat step_bind E; injection E as <- <- end.
  injection H as <-.
  eexists _, _, _. repeat split; reflexivity.
Qed.

(** C4, as the code has it: for every column the load calculator
    processes, the ['axial_load'] written into the ['loads'] block is the
    governing combination
    [max(1.5*(DL+LL), 1.2*(DL+LL+WL), 1.5*(DL+0.25*LL+WL))] of the aggregated
    dead, live and wind loads reported in ['load_calculations'].  For a
    footing no combination is formed: the block holds the unfactored sum
    [DL + LL + footing self-weight] as ['vertical_load'], next to [DL] and
    [LL] themselves. *)
Theorem auto_loads_design_load (design_data d' : value) :
  (auto_calculate_loads "column" design_data = inl d' ->
   exists lr loads DL LL WL,
     result_field d' "load_calculations" = Some lr
     /\ result_field lr "total_dead_load" = Some (VFloat DL)
     /\ result_field lr "total_live_load" = Some (VFloat LL)
     /\ result_field lr "total_wind_load" = Some (VFloat WL)
     /\ result_field d' "loads" = Some (VDict loads)
     /\ dict_get "axial_load" loads
        = Some (VStr (str_of_float (governing_combination DL LL WL))))
  /\ (auto_calculate_loads "footing" design_data = inl d' ->
      exists lc loads DL LL SW,
        result_field d' "load_calculations" = Some (VDict lc)
        /\ dict_get "total_dead_load" lc = Some (VFloat DL)
        /\ dict_get "total_live_load" lc = Some (VFloat LL)
        /\ dict_get "footing_self_weight" lc = Some (VFloat SW)
        /\ result_field d' "loads" = Some (VDict loads)
        /\ dict_get "vertical_load" loads = Some (VStr (str_of_float (DL + LL + SW)))
        /\ dict_get "dead_load" loads = Some (VStr (str_of_float DL))
        /\ dict_get "live_load" loads = Some (VStr (str_of_float LL))).
Proof.
  split.
  - intros H. unfold auto_calculate_loads in H.
    destruct (resolve_building_parameters design_data) as [[bd d1]|] eqn:Eb;
      [|discriminate H].
    cbn [bind] in H.
    destruct (resolve_wind_parameters d1) as [[wd d2]|] eqn:Ew; [|discriminate H].
    cbn [bind] in H.
    pose proof (resolve_wind_parameters_truthy _ _ _ Ew) as Hw.
    destruct (resolve_wind_parameters_dict _ _ _ Ew) as (dd1 & -> & ->).
    change (auto_loads_column (VDict (dict_set "wind_parameters" wd dd1)) bd wd = inl d') in H.
    unfold auto_loads_column in H. unfold_binds H. repeat step_bind H.
    match goal with E : calculate_column_axial_load _ = inl ?lr |- _ =>
      destruct (column_axial_load_shape _ _ _ _ Hw E) as (DL & LL & WL & HDL & HLL & HWL & Hcrit)
    end.
    match goal with E : read_float _ "critical_axial_load" _ = inl _ |- _ =>
      rewrite Hcrit in E; injection E as <- end.
    rewrite store_loads_dict in H. injection H as <-.
    eexists _, _, DL, LL, WL. cbn [result_field].
    rewrite stored_load_calculations_read, stored_loads_read.
    repeat split; try eassumption; reflexivity.
  - intros H.
    destruct (auto_loads_footing_shape _ _ H) as (dd & a & lc & -> & HDL & HLL & HSW).
    exists lc, (footing_loads_block a), (fal_total_dead_load a), (fal_total_live_load a),
           (fal_footing_self_weight a).
    cbn [result_field].
    rewrite stored_load_calculations_read, stored_loads_read.
    repeat split; try assumption; reflexivity.
Qed.
End LoadCombinations.

(** A 300 x 300 mm column of 3 m with no loads block, and the 2 m footing:
    the calculator runs on both, writing the governing combination for the
    column and the plain sum for the footing. *)
Lemma auto_loads_design_load_witness :
  (exists d' lr loads DL LL WL,
     auto_calculate_loads (RT := example_runtime) "column" Examples.column_F = inl d'
     /\ result_field d' "load_calculations" = Some lr
     /\ result_field lr "total_dead_load" = Some (VFloat DL)
     /\ result_field lr "total_live_load" = Some (VFloat LL)
     /\ result_field lr "total_wind_load" = Some (VFloat WL)
     /\ result_field d' "loads" = Some (VDict loads)
     /\ dict_get "axial_load" loads
        = Some (VStr (@str_of_float example_runtime (governing_combination DL LL WL))))
  /\ (exists d' lc loads DL LL SW,
        auto_calculate_loads (RT := example_runtime) "footing" Examples.footing_E = inl d'
        /\ result_field d' "load_calculations" = Some (VDict lc)
        /\ dict_get "total_dead_load" lc = Some (VFloat DL)
        /\ dict_get "total_live_load" lc = Some (VFloat LL)
        /\ dict_get "footing_self_weight" lc = Some (VFloat SW)
        /\ result_field d' "loads" = Some (VDict loads)
        /\ dict_get "vertical_load" loads
           = Some (VStr (@str_of_float example_runtime (DL + LL + SW)))).
Proof.
  split.
  - destruct (auto_calculate_loads (RT := example_runtime) "column" Examples.column_F)
      as [d'|] eqn:Ed; [| vm_compute in Ed; discriminate Ed].
    destruct (proj1 (@auto_loads_design_load example_runtime Examples.column_F d') Ed)
      as (lr & loads & DL & LL & WL & Hlr & HDL & HLL & HWL & Hloads & Hax).
    exists d', lr, loads, DL, LL, WL. repeat split; assumption.
  - destruct (auto_calculate_loads (RT := example_runtime) "footing" Examples.footing_E)
      as [d'|] eqn:Ed; [| vm_compute in Ed; discriminate Ed].
    destruct (proj2 (@auto_loads_design_load example_runtime Examples.footing_E d') Ed)
      as (lc & loads & DL & LL & SW & Hlc & HDL & HLL & HSW & Hloads & Hv & _).
    exists d', lc, loads, DL, LL, SW. repeat split; assumption.
Defined.

(** C4 as stated fails for footings.  For the 2 m footing the calculator
    aggregates 141 kN of dead load, 40 kN of live load and a wind force of
    34.848 kN, whose governing combination is 278.772 kN (written out,
    ["278.77200000000005"]).  The ['loads'] block it writes holds
    ["181.00005"] (the unfactored vertical load), ["141.0"], ["40.0"] and a
    wind moment of ["52.272"]: no entry is the governing combination. *)
Lemma footing_loads_not_governing_combination :
  exists d' a loads,
    auto_calculate_loads (RT := example_runtime) "footing" Examples.footing_E = inl d'
    /\ fal_total_dead_load a = 141%float
    /\ fal_total_live_load a = 40%float
    /\ fal_wind_force a = 34.848%float
    /\ governing_combination (fal_total_dead_load a) (fal_total_live_load a) (fal_wind_force a)
       = 278.77200000000005%float
    /\ @str_of_float example_runtime 278.77200000000005 = "278.77200000000005"
    /\ loads = footing_loads_block (RT := example_runtime) a
    /\ result_field d' "loads" = Some (VDict loads)
    /\ loads = [("vertical_load", VStr "181.00005"); ("dead_load", VStr "141.0");
                ("live_load", VStr "40.0"); ("wind_moment", VStr "52.272")]
    /\ (forall k, dict_get k loads <> Some (VStr "278.77200000000005")).
Proof.
  destruct (auto_calculate_loads (RT := example_runtime) "footing" Examples.footing_E)
    as [d'|] eqn:Ed; [| vm_compute in Ed; discriminate Ed].
  exists d'.
  unfold auto_calculate_loads in Ed.
  destruct (resolve_building_parameters Examples.footing_E) as [[bd d1]|] eqn:Eb;
    [| vm_compute in Eb; discriminate Eb].
  vm_compute in Eb. injection Eb as <- <-. cbn [bind] in Ed.
  match type of Ed with bind ?c _ = _ =>
    destruct c as [[wd d2]|] eqn:Ew; [| vm_compute in Ew; discriminate Ew] end.
  vm_compute in Ew. injection Ew as <- <-. cbn [bind] in Ed.
  cbn [String.eqb Ascii.eqb Bool.eqb] in Ed.
  unfold auto_loads_footing in Ed.
  match type of Ed with bind ?c _ = _ =>
    destruct c as [a|] eqn:Ea; [| vm_compute in Ea; discriminate Ea] end.
  exists a, (footing_loads_block (RT := example_runtime) a).
  cbn [bind] in Ed. rewrite store_loads_dict in Ed. injection Ed as <-.
  vm_compute in Ea. injection Ea as <-.
  split; [reflexivity|].
  repeat (split; [vm_compute; reflexivity|]).
  intros k. vm_compute.
  repeat match goal with
  | |- context [if ?c then _ else _] => destruct c
  end; discriminate.
Qed.

(** ** The orchestrator *)

Section OrchestratorFacts.
Context {RT : Runtime}.



Lemma unsupported_not_dispatched (mt : string) :
  ~ In mt ["beam"; "column"; "slab"; "footing"]%string ->
  String.eqb mt "beam" = false /\ String.eqb mt "column" = false
  /\ String.eqb mt "slab" = false /\ String.eqb mt "footing" = false.
Proof.
  intros Hn. repeat split; apply String.eqb_neq; intros ->; apply Hn; cbn; auto.
Qed.






End OrchestratorFacts.



(** ** Faults *)

Section Faults.
Context {RT : Runtime}.

Lemma finish_result_keeps (mt : string) (design_data : value) (cf : dict) (res : value) :
  finish_result mt design_data (VDict cf) = inl res ->
  forall k, In k ["error"; "checks"; "member_type"]%string ->
            result_field res k = dict_get k cf.
Proof.
  intros H k Hk. unfold finish_result in H. cbn [get_method] in H.
  unfold_binds H.
  assert (Hrec : forall v, dict_get k (dict_set "recommendations" v cf) = dict_get k cf).
  { intros v. apply dict_get_set_other.
    destruct Hk as [<-|[<-|[<-|[]]]]; discriminate. }
  assert (Hkeep : forall v w cf', dict_get k cf' = dict_get k cf ->
            dict_get k (dict_set "calculated_loads" w (dict_set "load_calculations" v cf'))
            = dict_get k cf).
  { intros v w cf' Hcf'.
    rewrite !dict_get_set_other by (destruct Hk as [<-|[<-|[<-|[]]]]; discriminate).
    exact Hcf'. }
  destruct (negb (truthy _)); destruct (has_key design_data "load_calculations");
    repeat first [ progress (cbn [set_item] in H)
                 | progress (unfold_binds H)
                 | step_bind H ];
    injection H as <-; cbn [result_field]; auto.
Qed.

Lemma checker_for_cases (mt : string) (checker : value -> value) :
  checker_for mt = Some checker ->
  forall d, (exists member, is_report member (checker d))
            \/ (exists e msg,
                  checker d = VDict [("error", VStr (msg ++ str_of_exn e));
                                     ("member_type", VStr mt)]).
Proof.
  unfold checker_for. intros H d.
  destruct (String.eqb_spec mt "beam") as [->|_].
  { injection H as <-.
    destruct (beam_result_cases d) as [(L & r & _ & _ & -> & Hrep)|[e He]];
      [left; eexists; exact Hrep | right; eexists _, _; exact He]. }
  destruct (String.eqb_spec mt "column") as [->|_].
  { injection H as <-.
    destruct (column_result_cases d) as [(L & r & _ & _ & -> & Hrep)|[e He]];
      [left; eexists; exact Hrep | right; eexists _, _; exact He]. }
  destruct (String.eqb_spec mt "slab") as [->|_].
  { injection H as <-.
    destruct (slab_result_cases d) as [(L & r & _ & _ & -> & Hrep)|[e He]];
      [left; eexists; exact Hrep | right; eexists _, _; exact He]. }
  destruct (String.eqb_spec mt "footing") as [->|_]; [|discriminate H].
  injection H as <-.
  destruct (footing_result_cases d) as [(L & r & _ & _ & -> & Hrep)|[e He]];
    [left; eexists; exact Hrep | right; eexists _, _; exact He].
Qed.

(** Once [member_type] is bound, nothing escapes [check_compliance]: it
    returns a full report (no ['error'], a verdict consistent with its
    checks) or an error result without any ['checks']. *)
Lemma faults_become_error_results (design_data : value) (mt : string) :
  member_type_of design_data = inl mt ->
  exists r,
    check_compliance design_data = inl r
    /\ ((result_field r "error" = None /\ verdict_consistent r) \/ is_error_result r).
Proof.
  intros Hmt. unfold check_compliance, check_compliance_traced.
  unfold member_type_of in Hmt. rewrite Hmt.
  destruct (compliance_steps mt design_data) as [tr [res|e]] eqn:Esteps; cbn [snd].
  2:{ eexists. split; [reflexivity|]. right.
      repeat split; cbn; [discriminate | left; discriminate]. }
  exists res. split; [reflexivity|].
  unfold compliance_steps in Esteps.
  destruct (resolve_loads mt design_data) as [tr0 [dd|e]]; [|discriminate Esteps].
  destruct (checker_for mt) as [checker|] eqn:Echk.
  - injection Esteps as _ Hfin.
    destruct (checker_for_cases mt checker Echk dd) as [(member & Hrep)|(e & msg & He)].
    + left. destruct Hrep as (overall & summary & checks & Hc & Hov & HF).
      rewrite Hc in Hfin.
      pose proof (finish_result_keeps _ _ _ _ Hfin) as Hkeep.
      assert (Hrep' : is_report member (checker dd)).
      { exists overall, summary, checks. auto. }
      split.
      * rewrite (Hkeep "error") by (cbn; auto). reflexivity.
      * destruct (is_report_consistent _ _ Hrep')
          as (checks' & Hchk & Hflags & Hoverall & Hpass & Hfail).
        rewrite Hc in Hchk, Hoverall, Hpass, Hfail. cbn [result_field] in *.
        exists checks'.
        rewrite (Hkeep "checks") by (cbn; auto).
        unfold finish_result in Hfin. cbn [get_method] in Hfin. unfold_binds Hfin.
        assert (Hother : forall k, In k ["overall_compliance"; "status"]%string ->
                  result_field res k
                  = dict_get k [("member_type", VStr member);
                                ("overall_compliance", VBool overall);
                                ("design_summary", VDict summary);
                                ("checks", VDict checks);
                                ("status", status_of overall)]%string).
        { intros k Hk.
          destruct (negb (truthy _)); destruct (has_key dd "load_calculations");
            repeat first [ progress (cbn [set_item] in Hfin)
                         | progress (unfold_binds Hfin)
                         | step_bind Hfin ];
            injection Hfin as <-; cbn [result_field];
            destruct Hk as [<-|[<-|[]]]; reflexivity. }
        rewrite (Hother "overall_compliance") by (cbn; auto).
        rewrite (Hother "status") by (cbn; auto).
        repeat split; auto; try apply Hpass; try apply Hfail.
    + right. rewrite He in Hfin.
      pose proof (finish_result_keeps _ _ _ _ Hfin) as Hkeep.
      unfold is_error_result.
      rewrite (Hkeep "error"), (Hkeep "checks"), (Hkeep "member_type") by (cbn; auto).
      repeat split; cbn; [discriminate | left; discriminate].
  - injection Esteps as _ <-. right.
    repeat split; cbn; [discriminate | right; discriminate].
Qed.

(** C2 at the input that breaks it: when [member_type] is not a string
    ([None] here), the first statement of the [try] body raises before
    [member_type] is bound, the handler reads the unbound name, and an
    [UnboundLocalError] escapes [check_compliance]; no error result is
    returned. *)
Theorem unbound_member_type_escapes :
  check_compliance Examples.untyped_member = inr (UnboundLocalError "member_type")
  /\ member_type_of Examples.untyped_member = inr (AttributeError "lower").
Proof. split; reflexivity. Qed.

(** More generally, exactly the faults of the first statement escape. *)
Lemma escaping_faults (design_data : value) (e : exn) :
  check_compliance design_data = inr e <->
  (e = UnboundLocalError "member_type" /\ exists e', member_type_of design_data = inr e').
Proof.
  split.
  - intros H.
    destruct (member_type_of design_data) as [mt|e'] eqn:Hmt.
    + destruct (faults_become_error_results design_data mt Hmt) as (r & Hr & _).
      rewrite Hr in H. discriminate H.
    + unfold check_compliance, check_compliance_traced in H.
      unfold member_type_of in Hmt. rewrite Hmt in H. cbn in H.
      injection H as <-. split; [reflexivity | eexists; reflexivity].
  - intros [-> [e' He']]. unfold check_compliance, check_compliance_traced.
    unfold member_type_of in He'. rewrite He'. reflexivity.
Qed.
End Faults.

(** * Further properties *)

(** Reading a key back through the entries stored after it. *)
Ltac dict_lookup :=
  repeat first [ rewrite dict_get_set_same | rewrite dict_get_set_other by discriminate ].

(** ** What a member checker reads *)

Section CheckerInputs.
Context {RT : Runtime}.

(** A member checker sees of the design only the four blocks it
    subscripts. *)
Lemma checker_frame (checker : value -> value) (a b : dict) :
  In checker [check_beam_compliance; check_column_compliance;
              check_slab_compliance; check_footing_compliance] ->
  (forall k, In k ["dimensions"; "loads"; "materials"; "reinforcement"] ->
             dict_get k a = dict_get k b) ->
  checker (VDict a) = checker (VDict b).
Proof.
  intros Hin Hsame.
  assert (Hsub : forall k, In k ["dimensions"; "loads"; "materials"; "reinforcement"] ->
            subscript (VDict a) k = subscript (VDict b) k).
  { intros k Hk. cbn [subscript]. rewrite (Hsame k Hk). reflexivity. }
  pose proof (Hsub "dimensions" ltac:(cbn; auto)) as Hd.
  pose proof (Hsub "loads" ltac:(cbn; auto)) as Hl.
  pose proof (Hsub "materials" ltac:(cbn; auto)) as Hm.
  pose proof (Hsub "reinforcement" ltac:(cbn; auto 6)) as Hr.
  destruct Hin as [<-|[<-|[<-|[<-|[]]]]].
  - unfold check_beam_compliance, beam_body, beam_extract.
    rewrite Hd, Hl, Hm, Hr. reflexivity.
  - unfold check_column_compliance, column_body, column_extract.
    rewrite Hd, Hl, Hm, Hr. reflexivity.
  - unfold check_slab_compliance, slab_body, slab_extract.
    rewrite Hd, Hl, Hm, Hr. reflexivity.
  - unfold check_footing_compliance, footing_body, footing_extract.
    rewrite Hd, Hl, Hm, Hr. reflexivity.
Qed.

Lemma checker_for_in (mt : string) (checker : value -> value) :
  checker_for mt = Some checker ->
  In checker [check_beam_compliance; check_column_compliance;
              check_slab_compliance; check_footing_compliance].
Proof.
  unfold checker_for.
  destruct (String.eqb mt "beam"); [intros H; injection H as <-; cbn; auto|].
  destruct (String.eqb mt "column"); [intros H; injection H as <-; cbn; auto|].
  destruct (String.eqb mt "slab"); [intros H; injection H as <-; cbn; auto|].
  destruct (String.eqb mt "footing"); [intros H; injection H as <-; cbn; auto 6|].
  discriminate.
Qed.

(** X1: each member checker (beam, column, slab, footing) reads its input
    only through the four blocks it subscripts, ['dimensions'], ['loads'],
    ['materials'] and ['reinforcement']: two design records that hold the
    same four blocks get the same result, whatever else they carry
    ([member_type], flags, parameter blocks, further keys). *)
Theorem checkers_read_four_blocks (checker : value -> value) (dd1 dd2 : dict) :
  In checker [check_beam_compliance; check_column_compliance;
              check_slab_compliance; check_footing_compliance] ->
  agree_on required_blocks dd1 dd2 ->
  checker (VDict dd1) = checker (VDict dd2).
Proof. intros Hin Hsame. exact (checker_frame checker dd1 dd2 Hin Hsame). Qed.

(** X2: when a design record lacks one of the four blocks, every member
    checker returns an error result, and the message names the first
    missing block in the order dimensions, loads, materials, reinforcement
    (the [KeyError] of the first failing subscript); the error result is
    tagged with the checker's member type. *)
Theorem missing_block_is_reported (dd : dict) (k : string) :
  first_missing_block dd = Some k ->
  check_beam_compliance (VDict dd)
  = VDict [("error", VStr ("Beam compliance check failed: " ++ str_of_exn (KeyError k)));
           ("member_type", VStr "beam")]
  /\ check_column_compliance (VDict dd)
     = VDict [("error", VStr ("Column compliance check failed: " ++ str_of_exn (KeyError k)));
              ("member_type", VStr "column")]
  /\ check_slab_compliance (VDict dd)
     = VDict [("error", VStr ("Slab compliance check failed: " ++ str_of_exn (KeyError k)));
              ("member_type", VStr "slab")]
  /\ check_footing_compliance (VDict dd)
     = VDict [("error", VStr ("Footing compliance check failed: " ++ str_of_exn (KeyError k)));
              ("member_type", VStr "footing")].
Proof.
  unfold first_missing_block, required_blocks, dict_mem. cbn [find].
  unfold check_beam_compliance, beam_body, beam_extract,
         check_column_compliance, column_body, column_extract,
         check_slab_compliance, slab_body, slab_extract,
         check_footing_compliance, footing_body, footing_extract.
  cbn [subscript].
  intros H.
  destruct (dict_get "dimensions" dd); cbn [negb] in H;
    [| injection H as <-; repeat split; reflexivity].
  destruct (dict_get "loads" dd); cbn [negb] in H;
    [| injection H as <-; repeat split; reflexivity].
  destruct (dict_get "materials" dd); cbn [negb] in H;
    [| injection H as <-; repeat split; reflexivity].
  destruct (dict_get "reinforcement" dd); cbn [negb] in H;
    [discriminate H | injection H as <-; repeat split; reflexivity].
Qed.

End CheckerInputs.

Section CheckerInputsExamples.
Local Open Scope float_scope.

(** Scenario A once more, tagged ["BEAM"] and carrying a project name:
    the beam checker returns what it returns for scenario A. *)
Lemma checkers_read_four_blocks_witness :
  check_beam_compliance (RT := example_runtime) Examples.beam_upper
  = check_beam_compliance (RT := example_runtime) Examples.beam_A.
Proof.
  apply (@checkers_read_four_blocks example_runtime check_beam_compliance).
  - left. reflexivity.
  - intros k Hk. destruct Hk as [<-|[<-|[<-|[<-|[]]]]]; reflexivity.
Defined.

(** The 2 m footing has no ['loads'] block. *)
Lemma missing_block_is_reported_witness :
  check_footing_compliance (RT := example_runtime) Examples.footing_E
  = VDict [("error", VStr "Footing compliance check failed: 'loads'");
           ("member_type", VStr "footing")].
Proof.
  refine (proj2 (proj2 (proj2 (@missing_block_is_reported example_runtime _ "loads" _)))).
  reflexivity.
Defined.
End CheckerInputsExamples.

(** ** Sections for which there is no report *)

Lemma div_defined (a b q : float) :
  PyFloat.div a b = inl q -> PrimFloat.eqb b 0 = false /\ q = PrimFloat.div a b.
Proof.
  unfold PyFloat.div. destruct (PrimFloat.eqb b 0); intros H; [discriminate H|].
  injection H as <-. split; reflexivity.
Qed.

Section DegenerateSections.
Context {RT : Runtime}.
Local Open Scope float_scope.

(** X3: the beam checker returns a report only when the effective depth
    [d = depth - cover - bar_diameter/2] is not zero: [d] is the divisor of
    the span-to-depth ratio [span / d], which every report has passed. *)
Theorem beam_report_needs_effective_depth (d : value) :
  result_field (check_beam_compliance d) "error" = None ->
  exists L,
    beam_extract d = inl L
    /\ beam_d L = beam_depth L - beam_cover L - beam_bar_dia L / 2
    /\ (beam_d L =? 0) = false.
Proof.
  intros Herr.
  destruct (beam_result_cases d) as [(L & r & HL & Hrep & _ & _)|[e He]].
  2:{ rewrite He in Herr. discriminate Herr. }
  exists L. split; [exact HL|]. split.
  - unfold beam_extract in HL. unfold_binds HL. repeat step_bind HL.
    injection HL as <-. reflexivity.
  - unfold beam_report, check_maximum_steel in Hrep. unfold_binds Hrep.
    repeat step_bind Hrep.
    match goal with E : PyFloat.div (beam_span L) (beam_d L) = inl _ |- _ =>
      exact (proj1 (div_defined _ _ _ E)) end.
Qed.

(** X4: the column checker returns a report only when the gross area
    [Ag = width * depth] is not zero (the steel percentage [100*Ast/Ag]) and
    the least radius of gyration [min(width, depth) / (2*sqrt 3)] is not
    zero (the slenderness ratio). *)
Theorem column_report_needs_section (d : value) :
  result_field (check_column_compliance d) "error" = None ->
  exists L,
    column_extract d = inl L
    /\ col_Ag L = col_width L * col_depth L
    /\ (col_Ag L =? 0) = false
    /\ (PyFloat.min (col_width L) (col_depth L) / (2 * PrimFloat.sqrt 3) =? 0) = false.
Proof.
  intros Herr.
  destruct (column_result_cases d) as [(L & r & HL & Hrep & _ & _)|[e He]].
  2:{ rewrite He in Herr. discriminate Herr. }
  exists L. split; [exact HL|]. split.
  - unfold column_extract in HL. unfold_binds HL. repeat step_bind HL.
    injection HL as <-. reflexivity.
  - unfold column_report in Hrep. unfold_binds Hrep. repeat step_bind Hrep.
    split.
    + match goal with E : PyFloat.div _ (col_Ag L) = inl _ |- _ =>
        exact (proj1 (div_defined _ _ _ E)) end.
    + match goal with E : PyFloat.div (col_height L) _ = inl _ |- _ =>
        exact (proj1 (div_defined _ _ _ E)) end.
Qed.

(** X5: the slab checker returns a report only when the shorter plan
    dimension [min(length, breadth)] is not zero (the aspect ratio), the bar
    spacing is not zero (the provided steel) and [1000 * d] is not zero for
    the effective depth [d = thickness - cover - bar_diameter/2] (the shear
    stress). *)
Theorem slab_report_needs_section (d : value) :
  result_field (check_slab_compliance d) "error" = None ->
  exists L,
    slab_extract d = inl L
    /\ slab_d L = slab_thickness L - slab_cover L - slab_bar_dia L / 2
    /\ (PyFloat.min (slab_length L) (slab_breadth L) =? 0) = false
    /\ (slab_spacing L =? 0) = false
    /\ (1000 * slab_d L =? 0) = false.
Proof.
  intros Herr.
  destruct (slab_result_cases d) as [(L & r & HL & Hrep & _ & _)|[e He]].
  2:{ rewrite He in Herr. discriminate Herr. }
  exists L. split; [exact HL|].
  unfold slab_report in Hrep. unfold_binds Hrep. repeat step_bind Hrep.
  unfold slab_extract in HL. unfold_binds HL. repeat step_bind HL.
  injection HL as <-.
  cbn [slab_d slab_thickness slab_cover slab_bar_dia slab_length slab_breadth slab_spacing] in *.
  split; [reflexivity|].
  repeat split.
  - match goal with E : PyFloat.div (PyFloat.max _ _) _ = inl _ |- _ =>
      exact (proj1 (div_defined _ _ _ E)) end.
  - match goal with E : PyFloat.div (1000 * (PyFloat.pi * _)) _ = inl _ |- _ =>
      exact (proj1 (div_defined _ _ _ E)) end.
  - match goal with E : PyFloat.div (100 * _) (1000 * _) = inl _ |- _ =>
      exact (proj1 (div_defined _ _ _ E)) end.
Qed.

(** X6: the footing checker returns a report only when the footing area
    [length * breadth / 1e6] is not zero (the bearing pressure), the shorter
    side is not zero, the bar spacing is not zero (the number of bars) and
    the punching perimeter times the effective depth,
    [4 * (column_size + d) * d], is not zero. *)
Theorem footing_report_needs_section (d : value) :
  result_field (check_footing_compliance d) "error" = None ->
  exists L,
    footing_extract d = inl L
    /\ ftg_footing_area L = ftg_length L * ftg_breadth L / 1e6
    /\ (ftg_footing_area L =? 0) = false
    /\ (PyFloat.min (ftg_length L) (ftg_breadth L) =? 0) = false
    /\ (ftg_spacing L =? 0) = false
    /\ (4 * (ftg_column_size L + ftg_d L) * ftg_d L =? 0) = false.
Proof.
  intros Herr.
  destruct (footing_result_cases d) as [(L & r & HL & Hrep & _ & _)|[e He]].
  2:{ rewrite He in Herr. discriminate Herr. }
  exists L. split; [exact HL|].
  unfold footing_report in Hrep. unfold_binds Hrep. repeat step_bind Hrep.
  unfold footing_extract in HL. unfold_binds HL. repeat step_bind HL.
  injection HL as <-.
  cbn [ftg_footing_area ftg_length ftg_breadth ftg_spacing ftg_column_size ftg_d] in *.
  split; [reflexivity|].
  repeat split.
  - match goal with E : PyFloat.div _ (_ * _ / 1e6) = inl _ |- _ =>
      exact (proj1 (div_defined _ _ _ E)) end.
  - match goal with E : PyFloat.div (_ * 1e6) _ = inl _ |- _ =>
      exact (proj1 (div_defined _ _ _ E)) end.
  - match goal with
    | E : match PyFloat.div (PyFloat.min _ _) _ with inl _ => _ | inr _ => _ end = inl _ |- _ =>
        step_bind E
    end.
    match goal with E : PyFloat.div (PyFloat.min _ _) _ = inl _ |- _ =>
      exact (proj1 (div_defined _ _ _ E)) end.
  - match goal with E : PyFloat.div _ (4 * _ * _) = inl _ |- _ =>
      exact (proj1 (div_defined _ _ _ E)) end.
Qed.

End DegenerateSections.

Section DegenerateSectionsExamples.
Local Open Scope float_scope.

(** Scenario A: the effective depth is 567 mm. *)
Lemma beam_report_needs_effective_depth_witness :
  result_field (check_beam_compliance (RT := example_runtime) Examples.beam_A) "error" = None
  /\ exists L,
       beam_extract (RT := example_runtime) Examples.beam_A = inl L
       /\ beam_d L = beam_depth L - beam_cover L - beam_bar_dia L / 2
       /\ (beam_d L =? 0) = false.
Proof.
  split; [reflexivity|].
  apply (@beam_report_needs_effective_depth example_runtime Examples.beam_A).
  reflexivity.
Defined.

(** Scenario B: a gross area of 22500 mm2. *)
Lemma column_report_needs_section_witness :
  result_field (check_column_compliance (RT := example_runtime) Examples.column_B) "error"
  = None
  /\ exists L,
       column_extract (RT := example_runtime) Examples.column_B = inl L
       /\ col_Ag L = col_width L * col_depth L
       /\ (col_Ag L =? 0) = false
       /\ (PyFloat.min (col_width L) (col_depth L) / (2 * PrimFloat.sqrt 3) =? 0) = false.
Proof.
  split; [reflexivity|].
  apply (@column_report_needs_section example_runtime Examples.column_B).
  reflexivity.
Defined.

(** Scenario D: the 5 m by 2 m slab. *)
Lemma slab_report_needs_section_witness :
  result_field (check_slab_compliance (RT := example_runtime) (Examples.slab_D 5.0)) "error"
  = None
  /\ exists L,
       slab_extract (RT := example_runtime) (Examples.slab_D 5.0) = inl L
       /\ slab_d L = slab_thickness L - slab_cover L - slab_bar_dia L / 2
       /\ (PyFloat.min (slab_length L) (slab_breadth L) =? 0) = false
       /\ (slab_spacing L =? 0) = false
       /\ (1000 * slab_d L =? 0) = false.
Proof.
  split; [reflexivity|].
  apply (@slab_report_needs_section example_runtime (Examples.slab_D 5.0)).
  reflexivity.
Defined.

(** A 2 m by 2 m footing under 400 kN. *)
Lemma footing_report_needs_section_witness :
  result_field (check_footing_compliance (RT := example_runtime) Examples.footing_G) "error"
  = None
  /\ exists L,
       footing_extract (RT := example_runtime) Examples.footing_G = inl L
       /\ ftg_footing_area L = ftg_length L * ftg_breadth L / 1e6
       /\ (ftg_footing_area L =? 0) = false
       /\ (PyFloat.min (ftg_length L) (ftg_breadth L) =? 0) = false
       /\ (ftg_spacing L =? 0) = false
       /\ (4 * (ftg_column_size L + ftg_d L) * ftg_d L =? 0) = false.
Proof.
  split; [reflexivity|].
  apply (@footing_report_needs_section example_runtime Examples.footing_G).
  reflexivity.
Defined.
End DegenerateSectionsExamples.

(** ** An entry that is read and never used *)

Lemma set_entry_differs (block key : string) (x : value) (dd b : dict) :
  dict_get block dd = Some (VDict b) ->
  differ_only_in_entry block key (set_entry block key x (VDict dd)) (VDict dd).
Proof.
  intros Hb. unfold set_entry. rewrite Hb.
  exists (dict_set block (VDict (dict_set key x b)) dd), dd, (dict_set key x b), b.
  repeat split; auto.
  - intros k Hk. apply dict_get_set_other. exact Hk.
  - apply dict_get_set_same.
  - intros k Hk. apply dict_get_set_other. exact Hk.
Qed.

(** Replaying the equations of one successful run into another. *)
Ltac replay_into H2 :=
  match goal with
  | E : ?c = inl ?a |- _ =>
      match type of H2 with
      | match c with inl _ => _ | inr _ => _ end = inl _ => rewrite E in H2
      end
  | E : ?p = (_, _) |- _ =>
      match type of H2 with
      | (let '(_, _) := p in _) = inl _ => rewrite E in H2; cbv beta iota in H2
      end
  end.

Ltac step_alongside H2 := repeat first [replay_into H2 | step_bind H2].

Section UnusedMoment.
Context {RT : Runtime}.
Local Open Scope float_scope.

Lemma column_extract_ignores_moment (d1 d2 : value) (L1 L2 : column_locals) :
  differ_only_in_entry "loads" "moment" d1 d2 ->
  column_extract d1 = inl L1 -> column_extract d2 = inl L2 ->
  column_report L1 = column_report L2.
Proof.
  intros (dd1 & dd2 & b1 & b2 & -> & -> & Hdd & Hb1 & Hb2 & Hb) H1 H2.
  unfold column_extract in H1, H2. cbn [subscript] in H1, H2.
  rewrite Hb1 in H1. rewrite Hb2 in H2.
  rewrite <- !Hdd in H2 by discriminate.
  unfold_binds H1. unfold_binds H2.
  cbn [get_method] in H1, H2.
  rewrite <- (Hb "axial_load") in H2 by discriminate.
  repeat step_bind H1.
  step_alongside H2.
  injection H1 as <-. injection H2 as <-.
  reflexivity.
Qed.

Lemma footing_extract_ignores_moment (d1 d2 : value) (L1 L2 : footing_locals) :
  differ_only_in_entry "loads" "moment" d1 d2 ->
  footing_extract d1 = inl L1 -> footing_extract d2 = inl L2 ->
  footing_report L1 = footing_report L2.
Proof.
  intros (dd1 & dd2 & b1 & b2 & -> & -> & Hdd & Hb1 & Hb2 & Hb) H1 H2.
  unfold footing_extract in H1, H2. cbn [subscript] in H1, H2.
  rewrite Hb1 in H1. rewrite Hb2 in H2.
  rewrite <- !Hdd in H2 by discriminate.
  unfold_binds H1. unfold_binds H2.
  cbn [get_method] in H1, H2.
  rewrite <- (Hb "axial_load") in H2 by discriminate.
  rewrite <- (Hb "safe_bearing_capacity") in H2 by discriminate.
  repeat step_bind H1.
  step_alongside H2.
  injection H1 as <-. injection H2 as <-.
  reflexivity.
Qed.

(** X7: the column checker and the footing checker read [loads['moment']]
    (and fail when it is not a number) but never use it: two designs that
    differ only in that entry and both get a report get the same report,
    check for check. *)
Theorem design_moment_is_ignored (d1 d2 : value) :
  differ_only_in_entry "loads" "moment" d1 d2 ->
  (result_field (check_column_compliance d1) "error" = None ->
   result_field (check_column_compliance d2) "error" = None ->
   check_column_compliance d1 = check_column_compliance d2)
  /\ (result_field (check_footing_compliance d1) "error" = None ->
      result_field (check_footing_compliance d2) "error" = None ->
      check_footing_compliance d1 = check_footing_compliance d2).
Proof.
  intros Hdiff. split; intros Herr1 Herr2.
  - destruct (column_result_cases d1) as [(L1 & r1 & HL1 & Hrep1 & Hr1 & _)|[e He]].
    2:{ rewrite He in Herr1. discriminate Herr1. }
    destruct (column_result_cases d2) as [(L2 & r2 & HL2 & Hrep2 & Hr2 & _)|[e He]].
    2:{ rewrite He in Herr2. discriminate Herr2. }
    rewrite Hr1, Hr2.
    rewrite (column_extract_ignores_moment _ _ _ _ Hdiff HL1 HL2) in Hrep1.
    congruence.
  - destruct (footing_result_cases d1) as [(L1 & r1 & HL1 & Hrep1 & Hr1 & _)|[e He]].
    2:{ rewrite He in Herr1. discriminate Herr1. }
    destruct (footing_result_cases d2) as [(L2 & r2 & HL2 & Hrep2 & Hr2 & _)|[e He]].
    2:{ rewrite He in Herr2. discriminate Herr2. }
    rewrite Hr1, Hr2.
    rewrite (footing_extract_ignores_moment _ _ _ _ Hdiff HL1 HL2) in Hrep1.
    congruence.
Qed.

End UnusedMoment.

Section UnusedMomentExamples.
Local Open Scope float_scope.

(** Scenario B with a design moment of 75 kNm added: the same report. *)
Lemma design_moment_is_ignored_witness :
  differ_only_in_entry "loads" "moment" Examples.column_B_moment Examples.column_B
  /\ check_column_compliance (RT := example_runtime) Examples.column_B_moment
     = check_column_compliance (RT := example_runtime) Examples.column_B.
Proof.
  assert (Hdiff : differ_only_in_entry "loads" "moment" Examples.column_B_moment Examples.column_B).
  { apply set_entry_differs with (b := [("axial_load", VFloat 100.0)]). reflexivity. }
  split; [exact Hdiff|].
  apply (proj1 (@design_moment_is_ignored example_runtime _ _ Hdiff)); reflexivity.
Defined.
End UnusedMomentExamples.

(** ** One-way shear of a footing, the shear table, the grades *)

Section ShearAndGrades.
Context {RT : Runtime}.
Local Open Scope float_scope.

(** X8: in a footing report, when the shear span
    [cantilever_length - d/1000] is not positive (the critical section at [d]
    from the column face falls outside the footing), the one-way shear check
    is the fixed entry with both stresses [0], [pass = True] and the
    description ["One-way shear - Not critical"]; the cantilever length is
    [(max(length, breadth) - column_size) / 2 / 1000]. *)
Theorem footing_short_cantilever_shear_passes (d : value) :
  result_field (check_footing_compliance d) "error" = None ->
  exists L,
    footing_extract d = inl L
    /\ ftg_cantilever_length L
       = (PyFloat.max (ftg_length L) (ftg_breadth L) - ftg_column_size L) / 2 / 1000
    /\ (PyFloat.gtb (ftg_cantilever_length L - ftg_d L / 1000) 0 = false ->
        named_check (check_footing_compliance d) "one_way_shear"
        = Some (VDict [("design_shear_stress", VInt 0);
                       ("allowable_shear_stress", VInt 0);
                       ("pass", VBool true);
                       ("description", VStr "One-way shear - Not critical")])).
Proof.
  intros Herr.
  destruct (footing_result_cases d) as [(L & r & HL & Hrep & Hr & _)|[e He]].
  2:{ rewrite He in Herr. discriminate Herr. }
  exists L. split; [exact HL|]. split.
  - unfold footing_extract in HL. unfold_binds HL. repeat step_bind HL.
    injection HL as <-. reflexivity.
  - intros Hspan. rewrite Hr.
    unfold footing_report in Hrep. unfold_binds Hrep. repeat step_bind Hrep.
    injection Hrep as <-.
    match goal with E : footing_one_way_shear L = inl _ |- _ =>
      unfold footing_one_way_shear in E; rewrite Hspan in E; injection E as <- end.
    reflexivity.
Qed.

Ltac split_band p :=
  repeat match goal with
  | |- ((if p <=? ?t then _ else _) <=? _) = true => destruct (p <=? t) eqn:?
  | |- (_ <=? (if p <=? ?t then _ else _)) = true => destruct (p <=? t) eqn:?
  end.

(** X9: the design shear strength of concrete read from the table of
    [calculate_shear_capacity] (grades up to M20) never decreases when the
    steel percentage grows, and always lies between 0.28 and 0.58 N/mm2. *)
Theorem shear_table_monotone (pt1 pt2 : float) :
  (pt1 <=? pt2) = true ->
  (tau_c_table pt1 <=? tau_c_table pt2) = true
  /\ (0.28 <=? tau_c_table pt1) = true
  /\ (tau_c_table pt2 <=? 0.58) = true.
Proof.
  intros H. unfold tau_c_table. repeat split.
  - split_band pt1; split_band pt2;
      first [ reflexivity
            | match goal with
              | Hp2 : (pt2 <=? ?t) = true, E : (pt1 <=? ?t) = false |- _ =>
                  rewrite (float_leb_trans _ _ _ H Hp2) in E; discriminate E
              end ].
  - split_band pt1; reflexivity.
  - split_band pt2; reflexivity.
Qed.

Lemma table_get_in {A : Type} (tbl : list (string * A)) (v : value) (dflt x : A) :
  table_get tbl v dflt = inl x -> x = dflt \/ In x (map snd tbl).
Proof.
  unfold table_get. destruct v; intros H; try discriminate H;
    try (injection H as <-; left; reflexivity).
  injection H as <-.
  destruct (find _ tbl) as [kv|] eqn:Ef; [right | left; reflexivity].
  apply find_some in Ef. apply in_map. exact (proj1 Ef).
Qed.

(** X10: whatever the grade entries of a design are, the strengths the
    checkers work with come from the grade tables or are the defaults:
    [15 <= fck <= 60] and [415 <= fy <= 600] (so neither [0.85 / fy] nor
    [sqrt(fck)] can fail), and a grade name that is not in its table
    silently gives [fck = 20], respectively [fy = 500]. *)
Theorem material_strengths_in_range (concrete_grade steel_grade : value) (fck fy : float) :
  grade_value MaterialConstants.CONCRETE_GRADES concrete_grade 20 = inl fck ->
  grade_value MaterialConstants.STEEL_GRADES steel_grade 500 = inl fy ->
  (15 <=? fck) = true /\ (fck <=? 60) = true
  /\ (415 <=? fy) = true /\ (fy <=? 600) = true
  /\ (forall s, concrete_grade = VStr s ->
        ~ In s (map fst MaterialConstants.CONCRETE_GRADES) -> fck = 20)
  /\ (forall s, steel_grade = VStr s ->
        ~ In s (map fst MaterialConstants.STEEL_GRADES) -> fy = 500).
Proof.
  unfold grade_value. intros Hc Hs. unfold_binds Hc. unfold_binds Hs.
  repeat step_bind Hc. repeat step_bind Hs.
  injection Hc as <-. injection Hs as <-.
  match goal with E : table_get MaterialConstants.CONCRETE_GRADES _ _ = inl _ |- _ =>
    pose proof (table_get_in _ _ _ _ E); rename E into Ec end.
  match goal with E : table_get MaterialConstants.STEEL_GRADES _ _ = inl _ |- _ =>
    pose proof (table_get_in _ _ _ _ E); rename E into Es end.
  assert (Hfind : forall (A : Type) (tbl : list (string * A)) s,
            ~ In s (map fst tbl) -> find (fun kv => String.eqb s (fst kv)) tbl = None).
  { intros A tbl s Hn. destruct (find _ tbl) as [kv|] eqn:Ef; [|reflexivity].
    apply find_some in Ef. destruct Ef as [Hin Heq]. apply String.eqb_eq in Heq.
    exfalso. apply Hn. rewrite Heq. apply in_map. exact Hin. }
  repeat split.
  - match goal with H : _ = 20%Z \/ In _ (map snd MaterialConstants.CONCRETE_GRADES) |- _ =>
      cbn in H; intuition (subst; reflexivity) end.
  - match goal with H : _ = 20%Z \/ In _ (map snd MaterialConstants.CONCRETE_GRADES) |- _ =>
      cbn in H; intuition (subst; reflexivity) end.
  - match goal with H : _ = 500%Z \/ In _ (map snd MaterialConstants.STEEL_GRADES) |- _ =>
      cbn in H; intuition (subst; reflexivity) end.
  - match goal with H : _ = 500%Z \/ In _ (map snd MaterialConstants.STEEL_GRADES) |- _ =>
      cbn in H; intuition (subst; reflexivity) end.
  - intros s -> Hn. unfold table_get in Ec. rewrite (Hfind _ _ _ Hn) in Ec.
    injection Ec as <-. reflexivity.
  - intros s -> Hn. unfold table_get in Es. rewrite (Hfind _ _ _ Hn) in Es.
    injection Es as <-. reflexivity.
Qed.

End ShearAndGrades.

Section ShearAndGradesExamples.
Local Open Scope float_scope.

(** A 0.5 m footing under a 300 mm column: the cantilever is 100 mm, the
    effective depth 444 mm, and the one-way shear check is not critical. *)
Lemma footing_short_cantilever_shear_passes_witness :
  result_field (check_footing_compliance (RT := example_runtime) Examples.footing_small) "error"
  = None
  /\ named_check (check_footing_compliance (RT := example_runtime) Examples.footing_small)
       "one_way_shear"
     = Some (VDict [("design_shear_stress", VInt 0);
                    ("allowable_shear_stress", VInt 0);
                    ("pass", VBool true);
                    ("description", VStr "One-way shear - Not critical")]).
Proof.
  assert (Herr : result_field
            (check_footing_compliance (RT := example_runtime) Examples.footing_small) "error"
          = None) by reflexivity.
  split; [exact Herr|].
  destruct (@footing_short_cantilever_shear_passes example_runtime Examples.footing_small Herr)
    as (L & HL & _ & Hshear).
  apply Hshear. vm_compute in HL. injection HL as <-. reflexivity.
Defined.

(** 0.2 percent of steel against 1.1 percent: 0.30 and 0.45 N/mm2. *)
Lemma shear_table_monotone_witness :
  (tau_c_table 0.2 <=? tau_c_table 1.1) = true
  /\ (0.28 <=? tau_c_table 0.2) = true
  /\ (tau_c_table 1.1 <=? 0.58) = true.
Proof. apply shear_table_monotone. reflexivity. Defined.

(** An unknown concrete grade and Fe415. *)
Lemma material_strengths_in_range_witness :
  grade_value MaterialConstants.CONCRETE_GRADES (VStr "M99") 20 = inl 20
  /\ grade_value MaterialConstants.STEEL_GRADES (VStr "Fe415") 500 = inl 415
  /\ (15 <=? 20) = true /\ (20 <=? 60) = true
  /\ (415 <=? 415) = true /\ (415 <=? 600) = true.
Proof.
  split; [reflexivity|]. split; [reflexivity|].
  destruct (material_strengths_in_range (VStr "M99") (VStr "Fe415") 20 415 eq_refl eq_refl)
    as (H1 & H2 & H3 & H4 & _).
  repeat split; assumption.
Defined.
End ShearAndGradesExamples.

(** ** After the checker: recommendations and the load audit *)

Section AfterTheChecker.
Context {RT : Runtime}.

Lemma supported_checker (mt : string) :
  In mt ["beam"; "column"; "slab"; "footing"] <-> checker_for mt <> None.
Proof.
  unfold checker_for. split.
  - intros Hin. destruct Hin as [<-|[<-|[<-|[<-|[]]]]]; discriminate.
  - intros H.
    destruct (String.eqb_spec mt "beam") as [Hb|_]; [rewrite Hb; cbn; auto|].
    destruct (String.eqb_spec mt "column") as [Hb|_]; [rewrite Hb; cbn; auto|].
    destruct (String.eqb_spec mt "slab") as [Hb|_]; [rewrite Hb; cbn; auto|].
    destruct (String.eqb_spec mt "footing") as [Hb|_]; [rewrite Hb; cbn; auto 6|].
    contradiction H. reflexivity.
Qed.

(** What the load calculator leaves behind for a member type it knows:
    the two parameter blocks, filled in, and the three blocks it stores. *)
Lemma auto_calculate_loads_stores (mt : string) (design_data d' : value) :
  In mt ["beam"; "column"; "slab"; "footing"] ->
  auto_calculate_loads mt design_data = inl d' ->
  exists dd bd wd loads lc wc,
    design_data = VDict dd
    /\ resolve_building_parameters design_data
       = inl (bd, VDict (dict_set "building_parameters" bd dd))
    /\ resolve_wind_parameters (VDict (dict_set "building_parameters" bd dd))
       = inl (wd, VDict (dict_set "wind_parameters" wd
                           (dict_set "building_parameters" bd dd)))
    /\ d' = VDict (dict_set "wind_calculations" wc
                    (dict_set "load_calculations" lc
                       (dict_set "loads" loads
                          (dict_set "wind_parameters" wd
                             (dict_set "building_parameters" bd dd))))).
Proof.
  intros Hin H. unfold auto_calculate_loads in H.
  destruct (resolve_building_parameters design_data) as [[bd d1]|] eqn:Eb;
    [|discriminate H].
  cbn [bind] in H.
  destruct (resolve_wind_parameters d1) as [[wd d2]|] eqn:Ew; [|discriminate H].
  cbn [bind] in H.
  destruct (resolve_building_parameters_dict _ _ _ Eb) as (dd & -> & ->).
  destruct (resolve_wind_parameters_dict _ _ _ Ew) as (dd1 & Hdd1 & ->).
  injection Hdd1 as <-.
  exists dd, bd, wd.
  destruct Hin as [<-|[<-|[<-|[<-|[]]]]]; cbn [String.eqb Ascii.eqb Bool.eqb] in H.
  - unfold auto_loads_beam in H. unfold_binds H. repeat step_bind H.
    rewrite store_loads_dict in H. injection H as <-.
    eexists _, _, _. repeat split; first [assumption | reflexivity].
  - unfold auto_loads_column in H. unfold_binds H. repeat step_bind H.
    rewrite store_loads_dict in H. injection H as <-.
    eexists _, _, _. repeat split; first [assumption | reflexivity].
  - unfold auto_loads_slab in H. unfold_binds H. repeat step_bind H.
    rewrite store_loads_dict in H. injection H as <-.
    eexists _, _, _. repeat split; first [assumption | reflexivity].
  - unfold auto_loads_footing in H. unfold_binds H. repeat step_bind H.
    rewrite store_loads_dict in H. injection H as <-.
    eexists _, _, _. repeat split; first [assumption | reflexivity].
Qed.

Lemma checker_for_dict (mt : string) (checker : value -> value) (d : value) :
  checker_for mt = Some checker ->
  exists cf, checker d = VDict cf
    /\ (dict_get "overall_compliance" cf = None
        \/ exists b, dict_get "overall_compliance" cf = Some (VBool b))
    /\ dict_get "recommendations" cf = None
    /\ dict_get "load_calculations" cf = None
    /\ dict_get "calculated_loads" cf = None.
Proof.
  intros Hc.
  destruct (checker_for_cases mt checker Hc d)
    as [(member & overall & summary & checks & -> & _)|(e & msg & ->)].
  - eexists. split; [reflexivity|]. repeat split; try reflexivity.
    right. exists overall. reflexivity.
  - eexists. split; [reflexivity|]. repeat split; try reflexivity.
    left. reflexivity.
Qed.

(** [finish_result] on what a checker returned, entry by entry. *)
Lemma finish_result_entries (mt : string) (design_data : value) (cf : dict) (res : value) :
  finish_result mt design_data (VDict cf) = inl res ->
  (dict_get "overall_compliance" cf = None
   \/ exists b, dict_get "overall_compliance" cf = Some (VBool b)) ->
  result_field res "overall_compliance" = dict_get "overall_compliance" cf
  /\ result_field res "recommendations"
     = (if match dict_get "overall_compliance" cf with
           | Some (VBool false) => true
           | _ => false
           end
        then Some (recommendations_for mt)
        else dict_get "recommendations" cf)
  /\ (has_key design_data "load_calculations" = true ->
      result_field res "load_calculations" = result_field design_data "load_calculations"
      /\ result_field res "calculated_loads" = result_field design_data "loads")
  /\ (has_key design_data "load_calculations" = false ->
      result_field res "load_calculations" = dict_get "load_calculations" cf
      /\ result_field res "calculated_loads" = dict_get "calculated_loads" cf).
Proof.
  intros H Hov. unfold finish_result in H. cbn [get_method] in H. unfold_binds H.
  assert (Hflag : negb (truthy match dict_get "overall_compliance" cf with
                               | Some x => x
                               | None => VBool true
                               end)
                  = match dict_get "overall_compliance" cf with
                    | Some (VBool false) => true
                    | _ => false
                    end).
  { destruct Hov as [->|[b ->]]; [reflexivity | destruct b; reflexivity]. }
  rewrite Hflag in H. clear Hflag Hov.
  destruct (has_key design_data "load_calculations") eqn:Hk.
  - destruct design_data as [| | | | | |dd]; try discriminate Hk.
    cbn [has_key] in Hk. unfold dict_mem in Hk.
    destruct (dict_get "load_calculations" dd) as [lc|] eqn:Elc; [|discriminate Hk].
    cbn [subscript] in H. rewrite Elc in H.
    destruct (match dict_get "overall_compliance" cf with
              | Some (VBool false) => true
              | _ => false
              end);
      cbn [set_item] in H; unfold_binds H; cbn [set_item] in H;
      (destruct (dict_get "loads" dd) as [l|] eqn:El; [|discriminate H]);
      injection H as <-; cbn [result_field];
      (repeat split; intros; try discriminate; dict_lookup; congruence).
  - destruct (match dict_get "overall_compliance" cf with
              | Some (VBool false) => true
              | _ => false
              end);
      cbn [set_item] in H; injection H as <-; cbn [result_field];
      (repeat split; intros; try discriminate; dict_lookup; reflexivity).
Qed.

Lemma recommendations_pair (mt : string) :
  checker_for mt <> None ->
  exists a b, recommendations_for mt = VList [VStr a; VStr b].
Proof.
  intros H. apply supported_checker in H.
  destruct H as [<-|[<-|[<-|[<-|[]]]]]; eexists _, _; reflexivity.
Qed.

(** [check_compliance] for a member type that has a checker, step by
    step. *)
Lemma check_compliance_supported (dd : dict) (mt : string) (checker : value -> value) :
  member_type_of (VDict dd) = inl mt ->
  checker_for mt = Some checker ->
  check_compliance (VDict dd)
  = match (if auto_calc_flag dd || negb (dict_mem "loads" dd)
           then auto_calculate_loads mt (VDict dd)
           else inl (VDict dd)) with
    | inl d' =>
        match finish_result mt d' (checker d') with
        | inl r => inl r
        | inr e =>
            inl (VDict [("error", VStr ("Compliance check failed: " ++ str_of_exn e));
                        ("member_type", VStr mt)])
        end
    | inr e =>
        inl (VDict [("error", VStr ("Compliance check failed: " ++ str_of_exn e));
                    ("member_type", VStr mt)])
    end.
Proof.
  intros Hmt Hchk. unfold check_compliance, check_compliance_traced.
  unfold member_type_of in Hmt. rewrite Hmt.
  unfold compliance_steps, resolve_loads, auto_calc_flag. cbn [get_method has_key].
  cbv beta iota delta [ret].
  replace (truthy match dict_get "auto_calculate_loads" dd with
                  | Some x => x
                  | None => VBool true
                  end)
    with (match dict_get "auto_calculate_loads" dd with
          | Some v => truthy v
          | None => true
          end)
    by (destruct (dict_get "auto_calculate_loads" dd); reflexivity).
  rewrite Hchk.
  destruct (_ || negb (dict_mem "loads" dd)).
  - destruct (auto_calculate_loads mt (VDict dd)) as [d'|e]; [|reflexivity].
    cbn [snd]. destruct (finish_result mt d' (checker d')); reflexivity.
  - cbn [snd]. destruct (finish_result mt (VDict dd) (checker (VDict dd))); reflexivity.
Qed.

Lemma finish_result_returns (mt : string) (dd cf : dict) :
  (dict_mem "load_calculations" dd = true -> dict_mem "loads" dd = true) ->
  exists res, finish_result mt (VDict dd) (VDict cf) = inl res.
Proof.
  intros Hl. unfold finish_result. cbn [get_method has_key subscript]. cbv beta iota zeta delta [bind ret].
  unfold dict_mem in Hl |- *.
  destruct (negb (truthy _)); cbn [set_item];
    (destruct (dict_get "load_calculations" dd);
      [ specialize (Hl eq_refl); destruct (dict_get "loads" dd); [|discriminate Hl]
      | ]); eexists; reflexivity.
Qed.

(** X11: in what [check_compliance] returns, ['recommendations'] is present
    exactly when ['overall_compliance'] is [False]; it is then the fixed
    pair of sentences of the member type.  A passing report and every error
    result carry no recommendations. *)
Theorem recommendations_follow_verdict (dd : dict) (mt : string) (r : value) :
  member_type_of (VDict dd) = inl mt ->
  check_compliance (VDict dd) = inl r ->
  (result_field r "overall_compliance" = Some (VBool false) ->
   result_field r "recommendations" = Some (recommendations_for mt)
   /\ exists a b, recommendations_for mt = VList [VStr a; VStr b])
  /\ (result_field r "overall_compliance" <> Some (VBool false) ->
      result_field r "recommendations" = None).
Proof.
  intros Hmt Hr. unfold check_compliance, check_compliance_traced in Hr.
  unfold member_type_of in Hmt. rewrite Hmt in Hr.
  destruct (compliance_steps mt (VDict dd)) as [tr [res|e]] eqn:Esteps; cbn [snd] in Hr;
    injection Hr as <-.
  2:{ cbn. split; [discriminate | reflexivity]. }
  unfold compliance_steps in Esteps.
  destruct (resolve_loads mt (VDict dd)) as [tr0 [d'|e]]; [|discriminate Esteps].
  destruct (checker_for mt) as [checker|] eqn:Echk.
  - injection Esteps as _ Hfin.
    destruct (checker_for_dict mt checker d' Echk) as (cf & Hcf & Hov & Hrec & _).
    rewrite Hcf in Hfin.
    destruct (finish_result_entries _ _ _ _ Hfin Hov) as (Hoc & Hrecs & _).
    rewrite Hoc, Hrecs, Hrec. split.
    + intros ->. split; [reflexivity|].
      apply recommendations_pair. rewrite Echk. discriminate.
    + intros Hne.
      destruct (dict_get "overall_compliance" cf) as [[| [|] | | | | |]|]; try reflexivity.
      contradiction Hne. reflexivity.
  - injection Esteps as _ <-. cbn. split; [discriminate | reflexivity].
Qed.

(** X12: for a supported member type, when the load calculator has run and
    returned, [check_compliance] returns a result whose
    ['load_calculations'] and ['calculated_loads'] are the
    ['load_calculations'] and ['loads'] blocks the calculator stored (also
    when the checker itself returned an error result); when the calculator
    is switched off, the loads are given and the design holds no
    ['load_calculations'], the result has neither entry. *)
Theorem load_audit_follows_calculator (dd : dict) (mt : string) :
  member_type_of (VDict dd) = inl mt ->
  In mt ["beam"; "column"; "slab"; "footing"] ->
  (forall d',
      auto_calc_flag dd = true \/ dict_mem "loads" dd = false ->
      auto_calculate_loads mt (VDict dd) = inl d' ->
      exists r lc loads,
        check_compliance (VDict dd) = inl r
        /\ result_field d' "load_calculations" = Some lc
        /\ result_field d' "loads" = Some loads
        /\ result_field r "load_calculations" = Some lc
        /\ result_field r "calculated_loads" = Some loads)
  /\ (auto_calc_flag dd = false -> dict_mem "loads" dd = true ->
      dict_mem "load_calculations" dd = false ->
      exists r,
        check_compliance (VDict dd) = inl r
        /\ result_field r "load_calculations" = None
        /\ result_field r "calculated_loads" = None).
Proof.
  intros Hmt Hin.
  destruct (checker_for mt) as [checker|] eqn:Echk.
  2:{ apply supported_checker in Hin. contradiction. }
  rewrite (check_compliance_supported dd mt checker Hmt Echk).
  split.
  - intros d' Hrun Hd'.
    assert (Hc : auto_calc_flag dd || negb (dict_mem "loads" dd) = true).
    { rewrite orb_true_iff, negb_true_iff. exact Hrun. }
    rewrite Hc, Hd'.
    destruct (auto_calculate_loads_stores mt _ _ Hin Hd')
      as (dd0 & bd & wd & loads & lc & wc & _ & _ & _ & ->).
    destruct (checker_for_dict mt checker
                (VDict (dict_set "wind_calculations" wc
                          (dict_set "load_calculations" lc
                             (dict_set "loads" loads
                                (dict_set "wind_parameters" wd
                                   (dict_set "building_parameters" bd dd0)))))) Echk)
      as (cf & Hcf & Hov & _).
    rewrite Hcf.
    match goal with |- context [finish_result mt (VDict ?d) (VDict cf)] =>
      destruct (finish_result_returns mt d cf) as (res & Hres)
    end.
    { intros _. unfold dict_mem. rewrite stored_loads_read. reflexivity. }
    rewrite Hres.
    destruct (finish_result_entries _ _ _ _ Hres Hov) as (_ & _ & Hon & _).
    destruct Hon as [Hlc Hl].
    { cbn [has_key]. unfold dict_mem. rewrite stored_load_calculations_read. reflexivity. }
    exists res, lc, loads. cbn [result_field] in *.
    rewrite stored_load_calculations_read in *. rewrite stored_loads_read in *.
    repeat split; auto.
  - intros Hoff Hloads Hnone.
    rewrite Hoff, Hloads. cbn [orb negb].
    destruct (checker_for_dict mt checker (VDict dd) Echk) as (cf & Hcf & Hov & _ & Hlc & Hcl).
    rewrite Hcf.
    destruct (finish_result_returns mt dd cf) as (res & Hres).
    { rewrite Hnone. discriminate. }
    rewrite Hres.
    destruct (finish_result_entries _ _ _ _ Hres Hov) as (_ & _ & _ & Hoffk).
    destruct (Hoffk Hnone) as [H1 H2].
    exists res. rewrite H1, H2. repeat split; auto.
Qed.

(** X13: when the load calculator is invoked and raises, [check_compliance]
    prints its line, calls the calculator and nothing else (no member
    checker is called), and returns the error result
    [{'error': 'Compliance check failed: <message>', 'member_type': <type>}]. *)
Theorem calculator_fault_is_reported (dd : dict) (mt : string) (e : exn) :
  member_type_of (VDict dd) = inl mt ->
  auto_calc_flag dd = true \/ dict_mem "loads" dd = false ->
  auto_calculate_loads mt (VDict dd) = inr e ->
  check_compliance_traced (VDict dd)
  = ([Printed ("Auto-calculating loads for " ++ mt);
      CalledAutoCalculateLoads mt (VDict dd)],
     inl (VDict [("error", VStr ("Compliance check failed: " ++ str_of_exn e));
                 ("member_type", VStr mt)])).
Proof.
  intros Hmt Hrun He. unfold check_compliance_traced.
  unfold member_type_of in Hmt. rewrite Hmt.
  unfold compliance_steps, resolve_loads. cbn [get_method has_key].
  cbv beta iota delta [ret].
  assert (Hc : truthy match dict_get "auto_calculate_loads" dd with
                      | Some x => x
                      | None => VBool true
                      end || negb (dict_mem "loads" dd) = true).
  { rewrite orb_true_iff, negb_true_iff. unfold auto_calc_flag in Hrun.
    destruct (dict_get "auto_calculate_loads" dd); exact Hrun. }
  rewrite Hc, He. reflexivity.
Qed.

(** X14: [check_compliance] returns (rather than raises) exactly when its
    first statement binds [member_type], that is when
    [design_data.get('member_type', '').lower()] succeeds; and whatever it
    returns is either a report with no ['error'] and a verdict consistent
    with its checks, or an error result without ['checks']. *)
Theorem returns_iff_member_type_binds (design_data : value) :
  ((exists mt, member_type_of design_data = inl mt)
   <-> (exists r, check_compliance design_data = inl r))
  /\ (forall r, check_compliance design_data = inl r ->
                (result_field r "error" = None /\ verdict_consistent r)
                \/ is_error_result r).
Proof.
  split; [split|].
  - intros [mt Hmt].
    destruct (faults_become_error_results design_data mt Hmt) as (r & Hr & _).
    exists r. exact Hr.
  - intros [r Hr]. unfold check_compliance, check_compliance_traced in Hr.
    unfold member_type_of.
    destruct (v <- get_method design_data "member_type" (VStr EmptyString) ;; lower_method v)
      as [mt|e]; [exists mt; reflexivity | discriminate Hr].
  - intros r Hr.
    destruct (member_type_of design_data) as [mt|e] eqn:Hmt.
    + destruct (faults_become_error_results design_data mt Hmt) as (r' & Hr' & Hcases).
      rewrite Hr in Hr'. injection Hr' as <-. exact Hcases.
    + unfold check_compliance, check_compliance_traced in Hr.
      unfold member_type_of in Hmt. rewrite Hmt in Hr. discriminate Hr.
Qed.

End AfterTheChecker.

Section AfterTheCheckerExamples.
Local Open Scope float_scope.

(** Scenario B fails and is sent back with the two column sentences. *)
Lemma recommendations_follow_verdict_witness :
  exists r,
    check_compliance (RT := example_runtime) Examples.column_B = inl r
    /\ result_field r "overall_compliance" = Some (VBool false)
    /\ result_field r "recommendations"
       = Some (VList [VStr "Increase column dimensions if axial capacity is exceeded";
                      VStr "Check minimum reinforcement percentage"]).
Proof.
  destruct (check_compliance (RT := example_runtime) Examples.column_B) as [r|] eqn:Er;
    [| vm_compute in Er; discriminate Er].
  exists r. split; [first [reflexivity | exact Er]|].
  destruct ((fun Hmt => @recommendations_follow_verdict example_runtime _ "column" r Hmt Er)
              eq_refl) as [Hfail _].
  assert (Hov : result_field r "overall_compliance" = Some (VBool false))
    by (vm_compute in Er; injection Er as <-; reflexivity).
  split; [exact Hov|]. exact (proj1 (Hfail Hov)).
Defined.

(** The 300 mm column without loads: the calculator's blocks are in the
    result. *)
Lemma load_audit_follows_calculator_witness :
  exists d' r lc loads,
    auto_calculate_loads (RT := example_runtime) "column" Examples.column_F = inl d'
    /\ check_compliance (RT := example_runtime) Examples.column_F = inl r
    /\ result_field d' "load_calculations" = Some lc
    /\ result_field d' "loads" = Some loads
    /\ result_field r "load_calculations" = Some lc
    /\ result_field r "calculated_loads" = Some loads.
Proof.
  destruct (auto_calculate_loads (RT := example_runtime) "column" Examples.column_F)
    as [d'|] eqn:Ed; [| vm_compute in Ed; discriminate Ed].
  destruct (proj1 (@load_audit_follows_calculator example_runtime _ "column"
                     (eq_refl : member_type_of (RT := example_runtime) Examples.column_F = inl "column")
                     (or_intror (or_introl eq_refl)))
              d' (or_introl eq_refl) Ed)
    as (r & lc & loads & Hr & Hlc & Hl & Hrlc & Hrl).
  exists d', r, lc, loads. repeat split; assumption.
Defined.

(** A beam without a length: the calculator divides by the zero length. *)
Lemma calculator_fault_is_reported_witness :
  check_compliance_traced (RT := example_runtime) Examples.beam_no_length
  = ([Printed "Auto-calculating loads for beam";
      CalledAutoCalculateLoads "beam" Examples.beam_no_length],
     inl (VDict [("error", VStr "Compliance check failed: float division by zero");
                 ("member_type", VStr "beam")])).
Proof.
  apply (@calculator_fault_is_reported example_runtime _ "beam" ZeroDivisionError).
  - reflexivity.
  - left. reflexivity.
  - vm_compute. reflexivity.
Defined.

(** Scenario B with a design moment: [member_type] binds, and a result
    comes back. *)
Lemma returns_iff_member_type_binds_witness :
  exists r,
    check_compliance (RT := example_runtime) Examples.column_B_moment = inl r
    /\ ((result_field r "error" = None /\ verdict_consistent r) \/ is_error_result r).
Proof.
  destruct (proj1 (proj1 (@returns_iff_member_type_binds example_runtime Examples.column_B_moment))
              (ex_intro _ "column" eq_refl)) as [r Hr].
  exists r. split; [exact Hr|].
  exact (proj2 (@returns_iff_member_type_binds example_runtime Examples.column_B_moment) r Hr).
Defined.
End AfterTheCheckerExamples.

(** ** Members checked on calculated loads *)

Lemma float_ltb_leb (a b : float) :
  PrimFloat.ltb a b = true -> PrimFloat.leb a b = true.
Proof.
  rewrite ltb_spec, leb_spec. unfold SFltb, SFleb.
  destruct (SFcompare (Prim2SF a) (Prim2SF b)) as [[| |]|]; congruence.
Qed.

Section CalculatedLoads.
Context {RT : Runtime}.
Local Open Scope float_scope.
Import LoadCalculator.

Lemma calculate_wind_load_height (height wind_zone terrain_category wld : value)
    (importance_factor : float) :
  calculate_wind_load height wind_zone terrain_category importance_factor = inl wld ->
  result_field wld "height" = Some height.
Proof.
  intros H. unfold calculate_wind_load in H. unfold_binds H. repeat step_bind H.
  injection H as <-. reflexivity.
Qed.

(** The column branch of the load calculator (lines 460-487). *)
Lemma auto_loads_column_shape (design_data d' : value) :
  auto_calculate_loads "column" design_data = inl d' ->
  exists dd dimensions len lr wld wp th2 DL LL WL,
    d' = VDict (dict_set "wind_calculations" wld
                  (dict_set "load_calculations" lr
                     (dict_set "loads"
                        (VDict [("axial_load",
                                 VStr (str_of_float (governing_combination DL LL WL)));
                                ("moment",
                                 VStr (str_of_num (max_int_float 50 (wp * th2 / 6))))])
                        dd)))
    /\ dict_get "dimensions" dd = Some dimensions
    /\ (v <- get_method dimensions "length" (VInt 3000) ;; py_float v) = inl len
    /\ result_field wld "height" = Some (VFloat (len / 1000))
    /\ sq (len / 1000) = inl th2
    /\ read_float wld "wind_pressure" 0 = inl wp
    /\ result_field lr "total_dead_load" = Some (VFloat DL)
    /\ result_field lr "total_live_load" = Some (VFloat LL)
    /\ result_field lr "total_wind_load" = Some (VFloat WL).
Proof.
  intros H. unfold auto_calculate_loads in H.
  destruct (resolve_building_parameters design_data) as [[bd d1]|] eqn:Eb;
    [|discriminate H].
  cbn [bind] in H.
  destruct (resolve_wind_parameters d1) as [[wd d2]|] eqn:Ew; [|discriminate H].
  cbn [bind] in H.
  pose proof (resolve_wind_parameters_truthy _ _ _ Ew) as Hw.
  destruct (resolve_wind_parameters_dict _ _ _ Ew) as (dd1 & -> & ->).
  change (auto_loads_column (VDict (dict_set "wind_parameters" wd dd1)) bd wd = inl d') in H.
  unfold auto_loads_column in H. unfold_binds H. repeat step_bind H.
  match goal with E : calculate_column_axial_load _ = inl ?lr |- _ =>
    destruct (column_axial_load_shape _ _ _ _ Hw E) as (DL & LL & WL & HDL & HLL & HWL & Hcrit)
  end.
  match goal with E : read_float _ "critical_axial_load" _ = inl _ |- _ =>
    rewrite Hcrit in E; injection E as <- end.
  rewrite store_loads_dict in H. injection H as <-.
  match goal with E : subscript (VDict ?d) "dimensions" = inl ?dims |- _ =>
    exists d, dims; cbn [subscript] in E;
    destruct (dict_get "dimensions" d) as [x|] eqn:Ed; [injection E as ->|discriminate E]
  end.
  match goal with E : calculate_wind_load (VFloat (?len / 1000)) _ _ _ = inl ?wld |- _ =>
    exists len; pose proof (calculate_wind_load_height _ _ _ _ _ E)
  end.
  eexists _, _, _, _, DL, LL, WL.
  repeat split; first [reflexivity | eassumption].
Qed.

(** X15: the ['moment'] the load calculator writes for a column is
    [str(max(50, wind_pressure * height^2 / 6))], with the wind pressure of
    ['wind_calculations'] and [height = float(dimensions['length']) / 1000]:
    it is never below 50; when the wind moment is not above 50 (or is not a
    number) the entry is the text ["50"] of the [int], otherwise the text of
    the wind moment. *)
Theorem column_moment_floor (design_data d' : value) :
  auto_calculate_loads "column" design_data = inl d' ->
  exists loads wld dimensions len wind_pressure height2,
    result_field d' "loads" = Some (VDict loads)
    /\ result_field d' "wind_calculations" = Some wld
    /\ read_float wld "wind_pressure" 0 = inl wind_pressure
    /\ result_field d' "dimensions" = Some dimensions
    /\ (v <- get_method dimensions "length" (VInt 3000) ;; py_float v) = inl len
    /\ sq (len / 1000) = inl height2
    /\ dict_get "moment" loads
       = Some (VStr (str_of_num (max_int_float 50 (wind_pressure * height2 / 6))))
    /\ (50 <=? num_as_float (max_int_float 50 (wind_pressure * height2 / 6))) = true
    /\ ((50 <? wind_pressure * height2 / 6) = true ->
        dict_get "moment" loads = Some (VStr (str_of_float (wind_pressure * height2 / 6))))
    /\ ((50 <? wind_pressure * height2 / 6) = false ->
        dict_get "moment" loads = Some (VStr "50")).
Proof.
  intros H.
  destruct (auto_loads_column_shape _ _ H)
    as (dd & dimensions & len & lr & wld & wp & th2 & DL & LL & WL
        & -> & Hdims & Hlen & _ & Hsq & Hwp & _).
  exists [("axial_load", VStr (str_of_float (governing_combination DL LL WL)));
          ("moment", VStr (str_of_num (max_int_float 50 (wp * th2 / 6))))],
         wld, dimensions, len, wp, th2.
  cbn [result_field].
  rewrite stored_loads_read. dict_lookup. rewrite Hdims.
  do 6 (split; [first [reflexivity | assumption]|]).
  split; [reflexivity|].
  unfold max_int_float, PyFloat.gtb.
  change (PyFloat.of_Z_rounded 50) with 50.
  destruct (50 <? wp * th2 / 6) eqn:Hgt; cbn [num_as_float str_of_num].
  - repeat split; try reflexivity; [apply float_ltb_leb; exact Hgt | discriminate].
  - repeat split; try reflexivity; try discriminate.
Qed.

(** X16: a column checked on the loads the calculator wrote.  The
    calculator stores the governing factored combination of [DL], [LL] and
    [WL] as ['axial_load'] (as text); the column checker reads it back and
    multiplies it by the load factor 1.5 again:
    [Pu = 1.5 * max(1.5*(DL+LL), 1.2*(DL+LL+WL), 1.5*(DL+0.25*LL+WL))],
    provided the text of the load converts back to the same float. *)
Theorem column_auto_load_factored_twice (design_data d' : value) (L : column_locals) :
  auto_calculate_loads "column" design_data = inl d' ->
  column_extract d' = inl L ->
  exists lr DL LL WL,
    result_field d' "load_calculations" = Some lr
    /\ result_field lr "total_dead_load" = Some (VFloat DL)
    /\ result_field lr "total_live_load" = Some (VFloat LL)
    /\ result_field lr "total_wind_load" = Some (VFloat WL)
    /\ (float_of_str (str_of_float (governing_combination DL LL WL))
        = Some (governing_combination DL LL WL) ->
        col_axial_load L = governing_combination DL LL WL
        /\ col_Pu L = 1.5 * governing_combination DL LL WL).
Proof.
  intros H HL.
  destruct (auto_loads_column_shape _ _ H)
    as (dd & dimensions & len & lr & wld & wp & th2 & DL & LL & WL
        & -> & _ & _ & _ & _ & _ & HDL & HLL & HWL).
  exists lr, DL, LL, WL. cbn [result_field].
  rewrite stored_load_calculations_read.
  split; [reflexivity|]. split; [exact HDL|]. split; [exact HLL|]. split; [exact HWL|].
  intros Hrt.
  unfold column_extract in HL. cbn [subscript] in HL.
  rewrite stored_loads_read in HL. unfold_binds HL.
  cbn [get_method dict_get String.eqb Ascii.eqb Bool.eqb] in HL. unfold_binds HL.
  cbn [py_float] in HL. rewrite Hrt in HL. unfold_binds HL.
  repeat step_bind HL. injection HL as <-. split; reflexivity.
Qed.

(** X17: the two modules read [dimensions['length']] of a column in
    different units.  The load calculator takes it in millimetres (the wind
    height is [length / 1000] metres) and the column checker in metres (the
    column height is [length * 1000] millimetres), on the same record. *)
Theorem column_length_read_in_two_units (design_data d' : value) (L : column_locals) :
  auto_calculate_loads "column" design_data = inl d' ->
  column_extract d' = inl L ->
  exists dimensions len wld,
    result_field d' "dimensions" = Some dimensions
    /\ result_field d' "wind_calculations" = Some wld
    /\ (v <- get_method dimensions "length" (VInt 3000) ;; py_float v) = inl len
    /\ result_field wld "height" = Some (VFloat (len / 1000))
    /\ (result_field dimensions "length" <> None -> col_height L = len * 1000).
Proof.
  intros H HL.
  destruct (auto_loads_column_shape _ _ H)
    as (dd & dimensions & len & lr & wld & wp & th2 & DL & LL & WL
        & -> & Hdims & Hlen & Hheight & _).
  exists dimensions, len, wld. cbn [result_field].
  dict_lookup. rewrite Hdims.
  repeat split; auto.
  intros Hpresent.
  unfold column_extract in HL. cbn [subscript] in HL.
  rewrite !dict_get_set_other in HL by discriminate.
  rewrite Hdims in HL. unfold_binds HL.
  assert (Hsame : (v <- get_method dimensions "length" (VInt 0) ;; py_float v) = inl len).
  { rewrite <- Hlen. destruct dimensions as [| | | | | |dims]; try reflexivity.
    cbn [get_method result_field] in *.
    destruct (dict_get "length" dims); [reflexivity | contradiction Hpresent; reflexivity]. }
  unfold_binds Hsame.
  repeat step_bind HL.
  match goal with
  | E : match get_method dimensions "length" (VInt 0) with inl _ => _ | inr _ => _ end = inl ?x
    |- _ => assert (Hx : x = len) by congruence; rewrite Hx in *
  end.
  injection HL as <-. reflexivity.
Qed.

(** The slab branch of [calculate_self_weight] (lines 97-108). *)
Lemma slab_self_weight_per_area (dimensions sw : value) :
  calculate_self_weight "slab" dimensions (VStr "concrete") = inl sw ->
  exists depth,
    (v <- get_method dimensions "depth" (VInt 0) ;; py_float v) = inl depth
    /\ read_float sw "self_weight_per_area" 0 = inl (25.0 * (depth / 1000)).
Proof.
  intros H. unfold calculate_self_weight in H.
  cbn [String.eqb Ascii.eqb Bool.eqb table_get MATERIAL_DENSITIES find fst snd] in H.
  unfold_binds H. repeat step_bind H. injection H as <-.
  eexists. split; [eassumption | reflexivity].
Qed.

(** The slab branch of the load calculator (lines 520-551). *)
Lemma auto_loads_slab_shape (design_data d' : value) :
  auto_calculate_loads "slab" design_data = inl d' ->
  exists dd dimensions depth sw sd ld sidl live uplift wld,
    d' = VDict (dict_set "wind_calculations" wld
                  (dict_set "load_calculations"
                     (VDict [("self_weight", sw); ("sidl", sd); ("live_load", ld)])
                     (dict_set "loads"
                        (VDict [("dead_load",
                                 VStr (str_of_float (25.0 * (depth / 1000) + sidl)));
                                ("live_load", VStr (str_of_float live));
                                ("wind_load", VStr (str_of_float uplift));
                                ("total_load",
                                 VStr (str_of_float
                                         (25.0 * (depth / 1000) + sidl + live)))])
                        dd)))
    /\ dict_get "dimensions" dd = Some dimensions
    /\ (v <- get_method dimensions "depth" (VInt 0) ;; py_float v) = inl depth
    /\ read_float sd "total_sidl" 2.0 = inl sidl
    /\ read_float ld "live_load" 2.0 = inl live.
Proof.
  intros H. unfold auto_calculate_loads in H.
  destruct (resolve_building_parameters design_data) as [[bd d1]|] eqn:Eb;
    [|discriminate H].
  cbn [bind] in H.
  destruct (resolve_wind_parameters d1) as [[wd d2]|] eqn:Ew; [|discriminate H].
  cbn [bind] in H.
  destruct (resolve_wind_parameters_dict _ _ _ Ew) as (dd1 & -> & ->).
  change (auto_loads_slab (VDict (dict_set "wind_parameters" wd dd1)) bd wd = inl d') in H.
  unfold auto_loads_slab in H. unfold_binds H. repeat step_bind H.
  match goal with E : calculate_self_weight "slab" _ _ = inl _ |- _ =>
    destruct (slab_self_weight_per_area _ _ E) as (depth & Hdepth & Hswpa)
  end.
  match goal with E : read_float _ "self_weight_per_area" _ = inl _ |- _ =>
    rewrite Hswpa in E; injection E as <- end.
  rewrite store_loads_dict in H. injection H as <-.
  match goal with E : subscript (VDict ?d) "dimensions" = inl ?dims |- _ =>
    exists d, dims; cbn [subscript] in E;
    destruct (dict_get "dimensions" d) as [x|] eqn:Ed; [injection E as ->|discriminate E]
  end.
  exists depth. eexists _, _, _, _, _, _, _.
  split; [reflexivity|]. split; [reflexivity|]. split; [exact Hdepth|].
  split; eassumption.
Qed.

(** X18: a slab checked on the loads the calculator wrote.  The calculator
    stores [dead_load = 25 * thickness/1000 + total_sidl], the self-weight
    included; the slab checker adds the self-weight [thickness/1000 * 25]
    once more before factoring:
    [wu = 1.5 * (25*t/1000 + sidl + t/1000*25) + 1.5 * live], provided the two
    texts convert back to the floats they were written from. *)
Theorem slab_self_weight_counted_twice (design_data d' : value) (L : slab_locals) :
  auto_calculate_loads "slab" design_data = inl d' ->
  slab_extract d' = inl L ->
  exists loads lc sd ld sidl live,
    result_field d' "loads" = Some (VDict loads)
    /\ result_field d' "load_calculations" = Some lc
    /\ result_field lc "sidl" = Some sd
    /\ read_float sd "total_sidl" 2.0 = inl sidl
    /\ result_field lc "live_load" = Some ld
    /\ read_float ld "live_load" 2.0 = inl live
    /\ dict_get "dead_load" loads
       = Some (VStr (str_of_float (25.0 * (slab_thickness L / 1000) + sidl)))
    /\ dict_get "live_load" loads = Some (VStr (str_of_float live))
    /\ (float_of_str (str_of_float (25.0 * (slab_thickness L / 1000) + sidl))
        = Some (25.0 * (slab_thickness L / 1000) + sidl) ->
        float_of_str (str_of_float live) = Some live ->
        slab_wu L
        = 1.5 * (25.0 * (slab_thickness L / 1000) + sidl + slab_thickness L / 1000 * 25.0)
          + 1.5 * live).
Proof.
  intros H HL.
  destruct (auto_loads_slab_shape _ _ H)
    as (dd & dimensions & depth & sw & sd & ld & sidl & live & uplift & wld
        & -> & Hdims & Hdepth & Hsidl & Hlive).
  assert (Ht : slab_thickness L = depth).
  { unfold slab_extract in HL. cbn [subscript] in HL.
    rewrite !dict_get_set_other in HL by discriminate. rewrite Hdims in HL.
    unfold_binds HL. unfold_binds Hdepth. repeat step_bind HL.
    injection HL as <-. cbn [slab_thickness]. congruence. }
  eexists _, _, sd, ld, sidl, live. cbn [result_field].
  rewrite stored_loads_read, stored_load_calculations_read.
  split; [reflexivity|]. split; [reflexivity|]. split; [reflexivity|].
  split; [exact Hsidl|]. split; [reflexivity|]. split; [exact Hlive|].
  rewrite Ht.
  split; [reflexivity|]. split; [reflexivity|].
  intros Hdl Hll. clear Ht.
  unfold slab_extract in HL. cbn [subscript] in HL.
  rewrite stored_loads_read in HL.
  rewrite !dict_get_set_other in HL by discriminate. rewrite Hdims in HL.
  unfold_binds HL.
  cbn [get_method dict_get String.eqb Ascii.eqb Bool.eqb] in HL. unfold_binds HL.
  cbn [py_float] in HL. rewrite Hdl, Hll in HL. unfold_binds HL.
  unfold_binds Hdepth.
  repeat step_bind HL.
  match goal with
  | E : match get_method dimensions "depth" (VInt 0) with inl _ => _ | inr _ => _ end = inl ?x
    |- _ => assert (Hx : x = depth) by congruence; rewrite Hx in *
  end.
  injection HL as <-. reflexivity.
Qed.

(** What [calculate_beam_loads] returns (lines 392-405). *)
Lemma beam_loads_shape (beam_data lr : value) :
  calculate_beam_loads beam_data = inl lr ->
  exists DL LL,
    result_field lr "total_dead_load" = Some (VFloat DL)
    /\ result_field lr "total_live_load" = Some (VFloat LL)
    /\ result_field lr "factored_load" = Some (VFloat (1.5 * (DL + LL)))
    /\ read_float lr "total_dead_load" 0 = inl DL
    /\ read_float lr "total_live_load" 0 = inl LL
    /\ read_float lr "factored_load" 0 = inl (1.5 * (DL + LL)).
Proof.
  intros H. unfold calculate_beam_loads in H. unfold_binds H. repeat step_bind H.
  injection H as <-. eexists _, _. repeat split; reflexivity.
Qed.

(** The beam branch of the load calculator (lines 489-518). *)
Lemma auto_loads_beam_shape (design_data d' : value) :
  auto_calculate_loads "beam" design_data = inl d' ->
  exists dd lr wld DL LL wind,
    d' = VDict (dict_set "wind_calculations" wld
                  (dict_set "load_calculations" lr
                     (dict_set "loads"
                        (VDict [("dead_load", VStr (str_of_float DL));
                                ("live_load", VStr (str_of_float LL));
                                ("wind_load", VStr (str_of_float wind));
                                ("factored_load", VStr (str_of_float (1.5 * (DL + LL))))])
                        dd)))
    /\ result_field lr "total_dead_load" = Some (VFloat DL)
    /\ result_field lr "total_live_load" = Some (VFloat LL)
    /\ result_field lr "factored_load" = Some (VFloat (1.5 * (DL + LL))).
Proof.
  intros H. unfold auto_calculate_loads in H.
  destruct (resolve_building_parameters design_data) as [[bd d1]|] eqn:Eb;
    [|discriminate H].
  cbn [bind] in H.
  destruct (resolve_wind_parameters d1) as [[wd d2]|] eqn:Ew; [|discriminate H].
  cbn [bind] in H.
  destruct (resolve_wind_parameters_dict _ _ _ Ew) as (dd1 & -> & ->).
  change (auto_loads_beam (VDict (dict_set "wind_parameters" wd dd1)) bd wd = inl d') in H.
  unfold auto_loads_beam in H. unfold_binds H. repeat step_bind H.
  match goal with E : calculate_beam_loads _ = inl _ |- _ =>
    destruct (beam_loads_shape _ _ E) as (DL & LL & HDL & HLL & HFL & RDL & RLL & RFL)
  end.
  repeat match goal with
  | E : read_float ?lr ?k _ = inl _, R : read_float ?lr ?k _ = inl _ |- _ =>
      rewrite R in E; injection E as <-
  end.
  rewrite store_loads_dict in H. injection H as <-.
  eexists _, _, _, DL, LL, _. repeat split; first [reflexivity | assumption].
Qed.

(** X19: a beam checked on the loads the calculator wrote.  The beam
    checker reads back the total dead and live load of ['load_calculations']
    and forms [wu = 1.5*DL + 1.5*LL] itself; the ['factored_load']
    [1.5 * (DL + LL)] the calculator also stored is not read.  (Provided the
    two texts convert back to the floats they were written from.) *)
Theorem beam_auto_loads_read_back (design_data d' : value) (L : beam_locals) :
  auto_calculate_loads "beam" design_data = inl d' ->
  beam_extract d' = inl L ->
  exists lr DL LL,
    result_field d' "load_calculations" = Some lr
    /\ result_field lr "total_dead_load" = Some (VFloat DL)
    /\ result_field lr "total_live_load" = Some (VFloat LL)
    /\ result_field lr "factored_load" = Some (VFloat (1.5 * (DL + LL)))
    /\ (float_of_str (str_of_float DL) = Some DL ->
        float_of_str (str_of_float LL) = Some LL ->
        beam_dead_load L = DL /\ beam_live_load L = LL
        /\ beam_wu L = 1.5 * DL + 1.5 * LL).
Proof.
  intros H HL.
  destruct (auto_loads_beam_shape _ _ H)
    as (dd & lr & wld & DL & LL & wind & -> & HDL & HLL & HFL).
  exists lr, DL, LL. cbn [result_field]. rewrite stored_load_calculations_read.
  split; [reflexivity|]. split; [exact HDL|]. split; [exact HLL|]. split; [exact HFL|].
  intros Hdl Hll.
  unfold beam_extract in HL. cbn [subscript] in HL.
  rewrite stored_loads_read in HL. unfold_binds HL.
  cbn [get_method dict_get String.eqb Ascii.eqb Bool.eqb] in HL. unfold_binds HL.
  cbn [py_float] in HL. rewrite Hdl, Hll in HL. unfold_binds HL.
  repeat step_bind HL. injection HL as <-. repeat split; reflexivity.
Qed.

End CalculatedLoads.

Section CalculatedLoadsExamples.
Local Open Scope float_scope.

(** The 300 mm column, 3 m high: the wind moment is far below 50 kNm. *)
Lemma column_moment_floor_witness :
  exists d' loads,
    auto_calculate_loads (RT := example_runtime) "column" Examples.column_F = inl d'
    /\ result_field d' "loads" = Some (VDict loads)
    /\ dict_get "moment" loads = Some (VStr "50").
Proof.
  destruct (auto_calculate_loads (RT := example_runtime) "column" Examples.column_F)
    as [d'|] eqn:Ed; [| vm_compute in Ed; discriminate Ed].
  destruct (@column_moment_floor example_runtime Examples.column_F d' Ed)
    as (loads & wld & dimensions & len & wp & h2
        & Hloads & Hwld & Hwp & Hdims & Hlen & Hsq & _ & _ & _ & Hfloor).
  exists d', loads. split; [first [reflexivity | exact Ed]|]. split; [exact Hloads|].
  apply Hfloor.
  vm_compute in Ed. injection Ed as <-.
  vm_compute in Hwld. injection Hwld as <-.
  vm_compute in Hwp. injection Hwp as <-.
  vm_compute in Hdims. injection Hdims as <-.
  vm_compute in Hlen. injection Hlen as <-.
  vm_compute in Hsq. injection Hsq as <-.
  reflexivity.
Defined.

(** The 300 mm column: the governing combination is factored again. *)
Lemma column_auto_load_factored_twice_witness :
  exists d' L DL LL WL,
    auto_calculate_loads (RT := example_runtime) "column" Examples.column_F = inl d'
    /\ column_extract (RT := example_runtime) d' = inl L
    /\ col_axial_load L = governing_combination DL LL WL
    /\ col_Pu L = 1.5 * governing_combination DL LL WL.
Proof.
  destruct (auto_calculate_loads (RT := example_runtime) "column" Examples.column_F)
    as [d'|] eqn:Ed; [| vm_compute in Ed; discriminate Ed].
  destruct (column_extract (RT := example_runtime) d') as [L|] eqn:EL;
    [| vm_compute in Ed; injection Ed as <-; vm_compute in EL; discriminate EL].
  destruct (@column_auto_load_factored_twice example_runtime Examples.column_F d' L Ed EL)
    as (lr & DL & LL & WL & Hlr & HDL & HLL & HWL & Hrt).
  exists d', L, DL, LL, WL. split; [first [reflexivity | exact Ed]|]. split; [first [reflexivity | exact EL]|].
  apply Hrt.
  vm_compute in Ed. injection Ed as <-.
  vm_compute in Hlr. injection Hlr as <-.
  vm_compute in HDL. injection HDL as <-.
  vm_compute in HLL. injection HLL as <-.
  vm_compute in HWL. injection HWL as <-.
  vm_compute. reflexivity.
Defined.

(** The 300 mm column with [length = 3000]: a wind height of 3 m for the
    calculator, a column of 3 000 000 mm for the checker. *)
Lemma column_length_read_in_two_units_witness :
  exists d' L wld,
    auto_calculate_loads (RT := example_runtime) "column" Examples.column_F = inl d'
    /\ column_extract (RT := example_runtime) d' = inl L
    /\ result_field d' "wind_calculations" = Some wld
    /\ result_field wld "height" = Some (VFloat 3)
    /\ col_height L = 3000000.
Proof.
  destruct (auto_calculate_loads (RT := example_runtime) "column" Examples.column_F)
    as [d'|] eqn:Ed; [| vm_compute in Ed; discriminate Ed].
  destruct (column_extract (RT := example_runtime) d') as [L|] eqn:EL;
    [| vm_compute in Ed; injection Ed as <-; vm_compute in EL; discriminate EL].
  destruct (@column_length_read_in_two_units example_runtime Examples.column_F d' L Ed EL)
    as (dimensions & len & wld & Hdims & Hwld & Hlen & Hheight & Hcol).
  exists d', L, wld. split; [first [reflexivity | exact Ed]|]. split; [first [reflexivity | exact EL]|]. split; [exact Hwld|].
  vm_compute in Ed. injection Ed as <-.
  vm_compute in Hdims. injection Hdims as <-.
  vm_compute in Hlen. injection Hlen as <-.
  split.
  - rewrite Hheight. reflexivity.
  - rewrite Hcol by discriminate. reflexivity.
Defined.

(** The 150 mm slab of scenario D: 3.75 kN/m2 of self-weight enters the
    factored load twice. *)
Lemma slab_self_weight_counted_twice_witness :
  exists d' L,
    auto_calculate_loads (RT := example_runtime) "slab" (Examples.slab_D 5.0) = inl d'
    /\ slab_extract (RT := example_runtime) d' = inl L
    /\ slab_thickness L = 150
    /\ slab_wu L = 1.5 * (25.0 * (150 / 1000) + 3.3 + 150 / 1000 * 25.0) + 1.5 * 2.0.
Proof.
  destruct (auto_calculate_loads (RT := example_runtime) "slab" (Examples.slab_D 5.0))
    as [d'|] eqn:Ed; [| vm_compute in Ed; discriminate Ed].
  destruct (slab_extract (RT := example_runtime) d') as [L|] eqn:EL;
    [| vm_compute in Ed; injection Ed as <-; vm_compute in EL; discriminate EL].
  destruct (@slab_self_weight_counted_twice example_runtime _ d' L Ed EL)
    as (loads & lc & sd & ld & sidl & live
        & Hloads & Hlc & Hsd & Hsidl & Hld & Hlive & _ & _ & Hwu).
  exists d', L. split; [first [reflexivity | exact Ed]|]. split; [first [reflexivity | exact EL]|].
  vm_compute in Ed. injection Ed as <-.
  vm_compute in Hlc. injection Hlc as <-.
  vm_compute in Hsd. injection Hsd as <-.
  vm_compute in Hsidl. injection Hsidl as <-.
  vm_compute in Hld. injection Hld as <-.
  vm_compute in Hlive. injection Hlive as <-.
  assert (Ht : slab_thickness L = 150)
    by (vm_compute in EL; injection EL as <-; reflexivity).
  split; [exact Ht|].
  rewrite Ht in Hwu. apply Hwu; vm_compute; reflexivity.
Defined.

(** The beam of scenario A on calculated loads. *)
Lemma beam_auto_loads_read_back_witness :
  exists d' L DL LL,
    auto_calculate_loads (RT := example_runtime) "beam" Examples.beam_A = inl d'
    /\ beam_extract (RT := example_runtime) d' = inl L
    /\ beam_dead_load L = DL /\ beam_live_load L = LL
    /\ beam_wu L = 1.5 * DL + 1.5 * LL.
Proof.
  destruct (auto_calculate_loads (RT := example_runtime) "beam" Examples.beam_A)
    as [d'|] eqn:Ed; [| vm_compute in Ed; discriminate Ed].
  destruct (beam_extract (RT := example_runtime) d') as [L|] eqn:EL;
    [| vm_compute in Ed; injection Ed as <-; vm_compute in EL; discriminate EL].
  destruct (@beam_auto_loads_read_back example_runtime _ d' L Ed EL)
    as (lr & DL & LL & Hlr & HDL & HLL & _ & Hrt).
  exists d', L, DL, LL. split; [first [reflexivity | exact Ed]|]. split; [first [reflexivity | exact EL]|].
  apply Hrt.
  - vm_compute in Ed. injection Ed as <-.
    vm_compute in Hlr. injection Hlr as <-.
    vm_compute in HDL. injection HDL as <-. vm_compute. reflexivity.
  - vm_compute in Ed. injection Ed as <-.
    vm_compute in Hlr. injection Hlr as <-.
    vm_compute in HLL. injection HLL as <-. vm_compute. reflexivity.
Defined.
End CalculatedLoadsExamples.

(** ** Default parameters *)

Lemma dict_setdefault_keeps (k k' : string) (v v' : value) (d : dict) :
  dict_get k d = Some v -> dict_get k (dict_setdefault k' v' d) = Some v.
Proof.
  unfold dict_setdefault, dict_mem. intros H.
  destruct (dict_get k' d) eqn:E; [exact H|].
  rewrite dict_get_set_other; [exact H|]. intros ->. congruence.
Qed.

Lemma dict_setdefault_mem (k : string) (v : value) (d : dict) :
  dict_mem k (dict_setdefault k v d) = true.
Proof.
  unfold dict_setdefault. destruct (dict_mem k d) eqn:E; [exact E|].
  unfold dict_mem. rewrite dict_get_set_same. reflexivity.
Qed.

Lemma dict_setdefault_mem_keeps (k k' : string) (v' : value) (d : dict) :
  dict_mem k d = true -> dict_mem k (dict_setdefault k' v' d) = true.
Proof.
  unfold dict_mem at 1. destruct (dict_get k d) as [v|] eqn:E; [|discriminate].
  intros _. unfold dict_mem. rewrite (dict_setdefault_keeps k k' v v' d E). reflexivity.
Qed.

Lemma setdefault_method_dict (x y : value) (k : string) (v : value) :
  setdefault_method x k v = inl y ->
  exists d, x = VDict d /\ y = VDict (dict_setdefault k v d).
Proof.
  destruct x; intros H; try discriminate H. injection H as <-. eexists; split; reflexivity.
Qed.

Ltac setdefaults_inverted :=
  repeat match goal with
  | E : setdefault_method _ _ _ = inl _ |- _ =>
      apply setdefault_method_dict in E; destruct E as (? & ? & ?); subst
  end;
  repeat match goal with
  | E : VDict _ = VDict _ |- _ => injection E as E; subst
  end.

Ltac filled_key :=
  repeat first [ apply dict_setdefault_mem | apply dict_setdefault_mem_keeps ].

Section Defaults.
Context {RT : Runtime}.

Lemma resolve_building_parameters_filled (dd : dict) (bd d1 : value) :
  resolve_building_parameters (VDict dd) = inl (bd, d1) ->
  exists b,
    bd = VDict b
    /\ (forall k, In k ["building_use"; "num_floors"; "floor_height"; "slab_thickness";
                        "tributary_area"; "tributary_width"; "wall_load"] ->
                  dict_mem k b = true)
    /\ (forall p k v, dict_get "building_parameters" dd = Some (VDict p) -> p <> [] ->
                      dict_get k p = Some v -> dict_get k b = Some v)
    /\ (dict_get "building_parameters" dd = None
        \/ dict_get "building_parameters" dd = Some (VDict []) ->
        b = [("building_use", VStr "residential"); ("num_floors", VInt 1);
             ("floor_height", VFloat 3.0); ("slab_thickness", VInt 150);
             ("tributary_area", VFloat 20.0); ("tributary_width", VFloat 3.0);
             ("wall_load", VInt 0)]).
Proof.
  intros H. unfold resolve_building_parameters in H. cbn [get_method] in H.
  unfold_binds H. repeat step_bind H. injection H as <- _.
  setdefaults_inverted.
  eexists. split; [reflexivity|]. split; [|split].
  - intros k Hk.
    destruct Hk as [<-|[<-|[<-|[<-|[<-|[<-|[<-|[]]]]]]]]; filled_key.
  - intros p k v Hp Hne Hk.
    match goal with E : (if truthy ?t then _ else _) = VDict ?d |- _ =>
      rewrite Hp in E; cbn [truthy] in E;
      destruct p; [contradiction Hne; reflexivity|]; injection E as <- end.
    repeat apply dict_setdefault_keeps. exact Hk.
  - intros Hp.
    match goal with E : (if truthy ?t then _ else _) = VDict ?d |- _ =>
      destruct Hp as [Hp|Hp]; rewrite Hp in E; cbn [truthy] in E;
      injection E as <-; reflexivity end.
Qed.

Lemma resolve_wind_parameters_filled (dd : dict) (wd d1 : value) :
  resolve_wind_parameters (VDict dd) = inl (wd, d1) ->
  exists w,
    wd = VDict w
    /\ (forall k, In k ["wind_zone"; "terrain_category"; "importance_factor"] ->
                  dict_mem k w = true)
    /\ (forall p k v, dict_get "wind_parameters" dd = Some (VDict p) -> p <> [] ->
                      dict_get k p = Some v -> dict_get k w = Some v)
    /\ (dict_get "wind_parameters" dd = None
        \/ dict_get "wind_parameters" dd = Some (VDict []) ->
        w = [("wind_zone", VStr "zone_2"); ("terrain_category", VInt 2);
             ("importance_factor", VFloat 1.0)]).
Proof.
  intros H. unfold resolve_wind_parameters in H. cbn [get_method] in H.
  unfold_binds H. repeat step_bind H. injection H as <- _.
  setdefaults_inverted.
  eexists. split; [reflexivity|]. split; [|split].
  - intros k Hk.
    destruct Hk as [<-|[<-|[<-|[]]]]; filled_key.
  - intros p k v Hp Hne Hk.
    match goal with E : (if truthy ?t then _ else _) = VDict ?d |- _ =>
      rewrite Hp in E; cbn [truthy] in E;
      destruct p; [contradiction Hne; reflexivity|]; injection E as <- end.
    repeat apply dict_setdefault_keeps. exact Hk.
  - intros Hp.
    match goal with E : (if truthy ?t then _ else _) = VDict ?d |- _ =>
      destruct Hp as [Hp|Hp]; rewrite Hp in E; cbn [truthy] in E;
      injection E as <-; reflexivity end.
Qed.

Lemma supported_or_not (mt : string) :
  In mt ["beam"; "column"; "slab"; "footing"] \/ ~ In mt ["beam"; "column"; "slab"; "footing"].
Proof.
  destruct (in_dec string_dec mt ["beam"; "column"; "slab"; "footing"]); auto.
Qed.

(** The two parameter blocks of the record the load calculator returns are
    the ones it resolved, for every member type. *)
Lemma auto_calculate_loads_blocks (mt : string) (dd : dict) (d' : value) :
  auto_calculate_loads mt (VDict dd) = inl d' ->
  exists bd wd,
    resolve_building_parameters (VDict dd)
    = inl (bd, VDict (dict_set "building_parameters" bd dd))
    /\ resolve_wind_parameters (VDict (dict_set "building_parameters" bd dd))
       = inl (wd, VDict (dict_set "wind_parameters" wd
                           (dict_set "building_parameters" bd dd)))
    /\ result_field d' "building_parameters" = Some bd
    /\ result_field d' "wind_parameters" = Some wd.
Proof.
  intros H. destruct (supported_or_not mt) as [Hin|Hn].
  - destruct (auto_calculate_loads_stores mt _ _ Hin H)
      as (dd0 & bd & wd & loads & lc & wc & Hdd & Hb & Hw & ->).
    injection Hdd as <-.
    exists bd, wd. cbn [result_field]. dict_lookup. repeat split; assumption.
  - unfold auto_calculate_loads in H.
    destruct (resolve_building_parameters (VDict dd)) as [[bd d1]|] eqn:Eb;
      [|discriminate H].
    cbn [bind] in H.
    destruct (resolve_wind_parameters d1) as [[wd d2]|] eqn:Ew; [|discriminate H].
    cbn [bind] in H.
    destruct (resolve_building_parameters_dict _ _ _ Eb) as (dd0 & Hdd & ->).
    injection Hdd as <-.
    destruct (resolve_wind_parameters_dict _ _ _ Ew) as (dd1 & Hdd1 & ->).
    injection Hdd1 as <-.
    destruct (unsupported_not_dispatched mt Hn) as (Hb & Hc & Hs & Hf).
    rewrite Hb, Hc, Hs, Hf in H. injection H as <-.
    exists bd, wd. cbn [result_field]. dict_lookup. repeat split; assumption.
Qed.

(** X20: after the load calculator, for every member type, the record holds
    a ['building_parameters'] block with all of [building_use],
    [num_floors], [floor_height], [slab_thickness], [tributary_area],
    [tributary_width] and [wall_load], and a ['wind_parameters'] block with
    [wind_zone], [terrain_category] and [importance_factor]; an entry of a
    non-empty block given by the caller is kept as given, and an absent or
    empty block becomes exactly the defaults. *)
Theorem parameter_defaults_fill_gaps (mt : string) (dd : dict) (d' : value) :
  auto_calculate_loads mt (VDict dd) = inl d' ->
  exists b w,
    result_field d' "building_parameters" = Some (VDict b)
    /\ result_field d' "wind_parameters" = Some (VDict w)
    /\ (forall k, In k ["building_use"; "num_floors"; "floor_height"; "slab_thickness";
                        "tributary_area"; "tributary_width"; "wall_load"] ->
                  dict_mem k b = true)
    /\ (forall k, In k ["wind_zone"; "terrain_category"; "importance_factor"] ->
                  dict_mem k w = true)
    /\ (forall p k v, dict_get "building_parameters" dd = Some (VDict p) -> p <> [] ->
                      dict_get k p = Some v -> dict_get k b = Some v)
    /\ (forall p k v, dict_get "wind_parameters" dd = Some (VDict p) -> p <> [] ->
                      dict_get k p = Some v -> dict_get k w = Some v)
    /\ (dict_get "building_parameters" dd = None
        \/ dict_get "building_parameters" dd = Some (VDict []) ->
        b = [("building_use", VStr "residential"); ("num_floors", VInt 1);
             ("floor_height", VFloat 3.0); ("slab_thickness", VInt 150);
             ("tributary_area", VFloat 20.0); ("tributary_width", VFloat 3.0);
             ("wall_load", VInt 0)])
    /\ (dict_get "wind_parameters" dd = None
        \/ dict_get "wind_parameters" dd = Some (VDict []) ->
        w = [("wind_zone", VStr "zone_2"); ("terrain_category", VInt 2);
             ("importance_factor", VFloat 1.0)]).
Proof.
  intros H.
  destruct (auto_calculate_loads_blocks mt dd d' H) as (bd & wd & Eb & Ew & Hbd & Hwd).
  destruct (resolve_building_parameters_filled _ _ _ Eb) as (b & -> & Hbk & Hbp & Hbd0).
  destruct (resolve_wind_parameters_filled _ _ _ Ew) as (w & -> & Hwk & Hwp & Hwd0).
  exists b, w. repeat split; auto.
  - intros p k v Hp. apply Hwp. rewrite dict_get_set_other by discriminate. exact Hp.
  - intros Hp. apply Hwd0. rewrite dict_get_set_other by discriminate. exact Hp.
Qed.

End Defaults.

Section DefaultsExamples.
Local Open Scope float_scope.

(** The 2 m footing carries no parameter blocks: both become the
    defaults. *)
Lemma parameter_defaults_fill_gaps_witness :
  exists d',
    auto_calculate_loads (RT := example_runtime) "footing" Examples.footing_E = inl d'
    /\ result_field d' "building_parameters"
       = Some (VDict [("building_use", VStr "residential"); ("num_floors", VInt 1);
                      ("floor_height", VFloat 3.0); ("slab_thickness", VInt 150);
                      ("tributary_area", VFloat 20.0); ("tributary_width", VFloat 3.0);
                      ("wall_load", VInt 0)])
    /\ result_field d' "wind_parameters"
       = Some (VDict [("wind_zone", VStr "zone_2"); ("terrain_category", VInt 2);
                      ("importance_factor", VFloat 1.0)]).
Proof.
  destruct (auto_calculate_loads (RT := example_runtime) "footing" Examples.footing_E)
    as [d'|] eqn:Ed; [| vm_compute in Ed; discriminate Ed].
  destruct (@parameter_defaults_fill_gaps example_runtime "footing" _ d' Ed)
    as (b & w & Hb & Hw & _ & _ & _ & _ & Hbd & Hwd).
  exists d'. split; [first [reflexivity | exact Ed]|].
  rewrite Hb, Hw, Hbd, Hwd by (left; reflexivity).
  split; reflexivity.
Defined.
End DefaultsExamples.

(** ** What [check_compliance] observes *)

Lemma dict_set_agree_on (ks : list string) (x : string) (v : value) (a b : dict) :
  agree_on ks a b -> agree_on ks (dict_set x v a) (dict_set x v b).
Proof.
  intros H k Hk. destruct (string_dec k x) as [->|Hne].
  - rewrite !dict_get_set_same. reflexivity.
  - rewrite !dict_get_set_other by exact Hne. exact (H k Hk).
Qed.

Lemma agree_on_incl (ks ks' : list string) (a b : dict) :
  incl ks' ks -> agree_on ks a b -> agree_on ks' a b.
Proof. intros Hi H k Hk. apply H. apply Hi. exact Hk. Qed.

Lemma checked_keys_observed : incl checked_keys observed_keys.
Proof. intros k Hk. cbn in Hk |- *. intuition. Qed.

(** Two runs whose pending computations are the same term: take both
    apart at once. *)
Ltac lockstep :=
  repeat (match goal with
          | |- context [match ?c with inl _ => _ | inr _ => _ end] => destruct c
          end; cbv beta iota).

Ltac stored_alike H :=
  cbv beta iota zeta delta [same_outcome]; repeat apply dict_set_agree_on; exact H.

Lemma dict_get_setdefault (k k' : string) (v : value) (d : dict) :
  dict_get k (dict_setdefault k' v d)
  = match dict_get k d with
    | Some x => Some x
    | None => if String.eqb k k' then Some v else None
    end.
Proof.
  unfold dict_setdefault, dict_mem.
  destruct (dict_get k' d) as [x'|] eqn:E.
  - destruct (dict_get k d) eqn:Ek; [reflexivity|].
    destruct (String.eqb_spec k k') as [->|_]; [congruence | reflexivity].
  - destruct (String.eqb_spec k k') as [->|Hne].
    + rewrite dict_get_set_same, E. reflexivity.
    + rewrite dict_get_set_other by exact Hne. destruct (dict_get k d); reflexivity.
Qed.

Section Observed.
Context {RT : Runtime}.
Import LoadCalculator.

Lemma resolve_building_parameters_frame (a b : dict)
    (related : result (value * value) -> result (value * value) -> Prop) :
  dict_get "building_parameters" a = dict_get "building_parameters" b ->
  (forall bd, related (inl (bd, VDict (dict_set "building_parameters" bd a)))
                      (inl (bd, VDict (dict_set "building_parameters" bd b)))) ->
  (forall e, related (inr e) (inr e)) ->
  related (resolve_building_parameters (VDict a)) (resolve_building_parameters (VDict b)).
Proof.
  intros H Hok Herr.
  unfold resolve_building_parameters. cbn [get_method set_item]. rewrite H.
  cbv beta iota zeta delta [bind ret]. lockstep; auto.
Qed.

Lemma resolve_wind_parameters_frame (a b : dict)
    (related : result (value * value) -> result (value * value) -> Prop) :
  dict_get "wind_parameters" a = dict_get "wind_parameters" b ->
  (forall wd, related (inl (wd, VDict (dict_set "wind_parameters" wd a)))
                      (inl (wd, VDict (dict_set "wind_parameters" wd b)))) ->
  (forall e, related (inr e) (inr e)) ->
  related (resolve_wind_parameters (VDict a)) (resolve_wind_parameters (VDict b)).
Proof.
  intros H Hok Herr.
  unfold resolve_wind_parameters. cbn [get_method set_item]. rewrite H.
  cbv beta iota zeta delta [bind ret]. lockstep; auto.
Qed.

Lemma auto_loads_frame (mt : string) (ks : list string) (a b : dict) (bd wd : value) :
  dict_get "dimensions" a = dict_get "dimensions" b ->
  agree_on ks a b ->
  same_outcome ks
    (if String.eqb mt "column" then auto_loads_column (VDict a) bd wd
     else if String.eqb mt "beam" then auto_loads_beam (VDict a) bd wd
     else if String.eqb mt "slab" then auto_loads_slab (VDict a) bd wd
     else if String.eqb mt "footing" then auto_loads_footing (VDict a) bd wd
     else ret (VDict a))
    (if String.eqb mt "column" then auto_loads_column (VDict b) bd wd
     else if String.eqb mt "beam" then auto_loads_beam (VDict b) bd wd
     else if String.eqb mt "slab" then auto_loads_slab (VDict b) bd wd
     else if String.eqb mt "footing" then auto_loads_footing (VDict b) bd wd
     else ret (VDict b)).
Proof.
  intros Hd H.
  destruct (String.eqb mt "column");
    [|destruct (String.eqb mt "beam");
      [|destruct (String.eqb mt "slab"); [|destruct (String.eqb mt "footing")]]].
  - unfold auto_loads_column, store_loads. cbn [subscript]. rewrite Hd.
    cbv beta iota zeta delta [bind ret set_item].
    lockstep; first [reflexivity | stored_alike H].
  - unfold auto_loads_beam, store_loads. cbn [subscript]. rewrite Hd.
    cbv beta iota zeta delta [bind ret set_item].
    lockstep; first [reflexivity | stored_alike H].
  - unfold auto_loads_slab, store_loads. cbn [subscript]. rewrite Hd.
    cbv beta iota zeta delta [bind ret set_item].
    lockstep; first [reflexivity | stored_alike H].
  - unfold auto_loads_footing, footing_auto_derive, store_loads.
    cbn [subscript]. rewrite Hd.
    cbv beta iota zeta delta [bind ret set_item].
    lockstep; first [reflexivity | stored_alike H].
  - exact H.
Qed.

Lemma auto_calculate_loads_frame (mt : string) (a b : dict) :
  agree_on observed_keys a b ->
  same_outcome observed_keys (auto_calculate_loads mt (VDict a))
                             (auto_calculate_loads mt (VDict b)).
Proof.
  intros H. unfold auto_calculate_loads.
  match goal with |- same_outcome _ (bind _ ?K) _ =>
    apply (resolve_building_parameters_frame a b
             (fun r1 r2 => same_outcome observed_keys (bind r1 K) (bind r2 K)));
      [apply H; cbn; auto 10 | | intros e; reflexivity]
  end.
  intros bd. cbn [bind].
  assert (Hb : agree_on observed_keys (dict_set "building_parameters" bd a)
                                      (dict_set "building_parameters" bd b))
    by (apply dict_set_agree_on; exact H).
  match goal with |- same_outcome _ (bind _ ?K) _ =>
    apply (resolve_wind_parameters_frame _ _
             (fun r1 r2 => same_outcome observed_keys (bind r1 K) (bind r2 K)));
      [apply Hb; cbn; auto 10 | | intros e; reflexivity]
  end.
  intros wd. cbn [bind].
  apply auto_loads_frame.
  - rewrite !dict_get_set_other by discriminate. apply H. cbn. auto 10.
  - repeat apply dict_set_agree_on. exact H.
Qed.

(** What follows the load calculator (lines 40-79) on two records that
    agree on the observed keys. *)
Lemma checked_alike (mt : string) (a b : dict) :
  agree_on checked_keys a b ->
  match checker_for mt with
  | Some checker => finish_result mt (VDict a) (checker (VDict a))
  | None => ret (VDict [("error", VStr ("Unsupported member type: " ++ mt));
                        ("supported_types", supported_types)])
  end
  = match checker_for mt with
    | Some checker => finish_result mt (VDict b) (checker (VDict b))
    | None => ret (VDict [("error", VStr ("Unsupported member type: " ++ mt));
                          ("supported_types", supported_types)])
    end.
Proof.
  intros H. destruct (checker_for mt) as [checker|] eqn:Echk; [|reflexivity].
  rewrite (checker_frame checker a b (checker_for_in mt checker Echk))
    by (intros k Hk; apply H; cbn in Hk |- *; intuition).
  unfold finish_result. cbn [has_key subscript]. unfold dict_mem.
  rewrite (H "load_calculations") by (cbn; auto 10).
  rewrite (H "loads") by (cbn; auto 10).
  reflexivity.
Qed.

(** Lines 34-79 once [member_type] is bound, on two records for which the
    load calculator, if it runs, behaves alike. *)
Lemma compliance_steps_alike (mt : string) (dd1 dd2 : dict) :
  dict_get "auto_calculate_loads" dd1 = dict_get "auto_calculate_loads" dd2 ->
  agree_on checked_keys dd1 dd2 ->
  same_outcome checked_keys (auto_calculate_loads mt (VDict dd1))
                            (auto_calculate_loads mt (VDict dd2)) ->
  snd (compliance_steps mt (VDict dd1)) = snd (compliance_steps mt (VDict dd2)).
Proof.
  intros Hflag H Hauto.
  unfold compliance_steps, resolve_loads. cbn [get_method has_key]. unfold dict_mem.
  rewrite Hflag. rewrite (H "loads") by (cbn; auto 10).
  cbv beta iota delta [ret].
  match goal with |- context [if ?c then _ else _] => destruct c end.
  - destruct (auto_calculate_loads mt (VDict dd1)) as [[| | | | | |da]|e1],
             (auto_calculate_loads mt (VDict dd2)) as [[| | | | | |db]|e2];
      cbn in Hauto; try contradiction; try discriminate Hauto.
    + pose proof (checked_alike mt da db Hauto) as Hc.
      destruct (checker_for mt); cbn [snd]; [rewrite Hc|]; reflexivity.
    + subst e2. reflexivity.
  - pose proof (checked_alike mt dd1 dd2 H) as Hc.
    destruct (checker_for mt); cbn [snd]; [rewrite Hc|]; reflexivity.
Qed.

Lemma same_outcome_incl (ks ks' : list string) (r1 r2 : result value) :
  incl ks' ks -> same_outcome ks r1 r2 -> same_outcome ks' r1 r2.
Proof.
  intros Hi. unfold same_outcome.
  destruct r1 as [[| | | | | |da]|e1], r2 as [[| | | | | |db]|e2]; auto.
  apply agree_on_incl. exact Hi.
Qed.

(** X21: the result of [check_compliance] depends on the design record only
    through the lower-cased [member_type] and the entries
    [auto_calculate_loads], [loads], [building_parameters],
    [wind_parameters], [dimensions], [materials], [reinforcement] and
    [load_calculations]: two records that agree on these get the same result
    (or the same exception).  In particular the member type is matched
    without regard to case, and any further key is ignored. *)
Theorem check_compliance_observes (dd1 dd2 : dict) :
  member_type_of (VDict dd1) = member_type_of (VDict dd2) ->
  agree_on observed_keys dd1 dd2 ->
  check_compliance (VDict dd1) = check_compliance (VDict dd2).
Proof.
  intros Hmt H. unfold check_compliance, check_compliance_traced.
  unfold member_type_of in Hmt. rewrite Hmt.
  destruct (v <- get_method (VDict dd2) "member_type" (VStr EmptyString) ;; lower_method v)
    as [mt|e]; [|reflexivity].
  assert (Hsteps : snd (compliance_steps mt (VDict dd1))
                   = snd (compliance_steps mt (VDict dd2))).
  { apply compliance_steps_alike.
    - apply H. cbn. auto 10.
    - exact (agree_on_incl _ _ _ _ checked_keys_observed H).
    - exact (same_outcome_incl _ _ _ _ checked_keys_observed
               (auto_calculate_loads_frame mt dd1 dd2 H)). }
  destruct (compliance_steps mt (VDict dd1)) as [tr1 r1],
           (compliance_steps mt (VDict dd2)) as [tr2 r2].
  cbn [snd] in Hsteps |- *. rewrite Hsteps. reflexivity.
Qed.

(** [resolve_wind_parameters] on a record whose wind block is a
    dictionary: it returns, and every entry of the resolved block is the
    one given, or else the default. *)
Lemma resolve_wind_parameters_block (dd p : dict) :
  dict_get "wind_parameters" dd = Some (VDict p) ->
  exists w,
    resolve_wind_parameters (VDict dd)
    = inl (VDict w, VDict (dict_set "wind_parameters" (VDict w) dd))
    /\ truthy (VDict w) = true
    /\ (forall k, dict_get k w
                  = match dict_get k p with
                    | Some v => Some v
                    | None => dict_get k [("wind_zone", VStr "zone_2");
                                          ("terrain_category", VInt 2);
                                          ("importance_factor", VFloat 1.0)]
                    end).
Proof.
  intros H. unfold resolve_wind_parameters. cbn [get_method]. rewrite H.
  cbv beta iota zeta delta [bind ret]. cbn [truthy].
  destruct p as [|x tl].
  - eexists. split; [reflexivity|]. split; [reflexivity|]. intros k. reflexivity.
  - cbn [setdefault_method set_item]. eexists. split; [reflexivity|]. split.
    + cbn [truthy].
      match goal with |- match ?w with [] => _ | _ => _ end = _ =>
        pose proof (dict_setdefault_nonempty "importance_factor" (VFloat 1.0)
                      (dict_setdefault "terrain_category" (VInt 2)
                         (dict_setdefault "wind_zone" (VStr "zone_2") (x :: tl)))) as Hne;
        destruct w; [contradiction Hne; reflexivity | reflexivity]
      end.
    + intros k. rewrite !dict_get_setdefault.
      destruct (dict_get k (x :: tl)); [reflexivity|].
      cbn [dict_get].
      destruct (String.eqb k "wind_zone"); [reflexivity|].
      destruct (String.eqb k "terrain_category"); [reflexivity|].
      destruct (String.eqb k "importance_factor"); reflexivity.
Qed.

(** The branches read of the wind block its zone and terrain category, and
    whether it is empty. *)
Lemma auto_loads_wind_frame (mt : string) (ks : list string) (a b w1 w2 : dict) (bd : value) :
  dict_get "dimensions" a = dict_get "dimensions" b ->
  agree_on ks a b ->
  dict_get "wind_zone" w1 = dict_get "wind_zone" w2 ->
  dict_get "terrain_category" w1 = dict_get "terrain_category" w2 ->
  truthy (VDict w1) = true -> truthy (VDict w2) = true ->
  same_outcome ks
    (if String.eqb mt "column" then auto_loads_column (VDict a) bd (VDict w1)
     else if String.eqb mt "beam" then auto_loads_beam (VDict a) bd (VDict w1)
     else if String.eqb mt "slab" then auto_loads_slab (VDict a) bd (VDict w1)
     else if String.eqb mt "footing" then auto_loads_footing (VDict a) bd (VDict w1)
     else ret (VDict a))
    (if String.eqb mt "column" then auto_loads_column (VDict b) bd (VDict w2)
     else if String.eqb mt "beam" then auto_loads_beam (VDict b) bd (VDict w2)
     else if String.eqb mt "slab" then auto_loads_slab (VDict b) bd (VDict w2)
     else if String.eqb mt "footing" then auto_loads_footing (VDict b) bd (VDict w2)
     else ret (VDict b)).
Proof.
  intros Hd H Hz Ht Hw1 Hw2.
  destruct (String.eqb mt "column");
    [|destruct (String.eqb mt "beam");
      [|destruct (String.eqb mt "slab"); [|destruct (String.eqb mt "footing")]]].
  - unfold auto_loads_column, calculate_column_axial_load.
    cbn [subscript get_method dict_get String.eqb Ascii.eqb Bool.eqb].
    rewrite Hd, Hz, Ht.
    cbv beta iota zeta delta [bind ret set_item store_loads].
    rewrite Hw1, Hw2.
    cbn [get_method]. rewrite Hz, Ht.
    cbv beta iota zeta delta [bind ret].
    lockstep; first [reflexivity | stored_alike H].
  - unfold auto_loads_beam. cbn [subscript get_method]. rewrite Hd, Hz, Ht.
    cbv beta iota zeta delta [bind ret set_item store_loads].
    lockstep; first [reflexivity | stored_alike H].
  - unfold auto_loads_slab. cbn [subscript get_method]. rewrite Hd, Hz, Ht.
    cbv beta iota zeta delta [bind ret set_item store_loads].
    lockstep; first [reflexivity | stored_alike H].
  - unfold auto_loads_footing, footing_auto_derive.
    cbn [subscript get_method]. rewrite Hd, Hz, Ht.
    cbv beta iota zeta delta [bind ret set_item store_loads].
    lockstep; first [reflexivity | stored_alike H].
  - exact H.
Qed.

Lemma auto_calculate_loads_wind_frame (mt : string) (dd1 dd2 p1 p2 : dict) :
  (forall k, k <> "wind_parameters" -> dict_get k dd1 = dict_get k dd2) ->
  dict_get "wind_parameters" dd1 = Some (VDict p1) ->
  dict_get "wind_parameters" dd2 = Some (VDict p2) ->
  (forall k, k <> "importance_factor" -> dict_get k p1 = dict_get k p2) ->
  same_outcome checked_keys (auto_calculate_loads mt (VDict dd1))
                            (auto_calculate_loads mt (VDict dd2)).
Proof.
  intros Hdd Hp1 Hp2 Hp. unfold auto_calculate_loads.
  match goal with |- same_outcome _ (bind _ ?K) _ =>
    apply (resolve_building_parameters_frame dd1 dd2
             (fun r1 r2 => same_outcome checked_keys (bind r1 K) (bind r2 K)));
      [apply Hdd; discriminate | | intros e; reflexivity]
  end.
  intros bd. cbn [bind].
  destruct (resolve_wind_parameters_block (dict_set "building_parameters" bd dd1) p1)
    as (w1 & Ew1 & Hne1 & Hl1);
    [rewrite dict_get_set_other by discriminate; exact Hp1|].
  destruct (resolve_wind_parameters_block (dict_set "building_parameters" bd dd2) p2)
    as (w2 & Ew2 & Hne2 & Hl2);
    [rewrite dict_get_set_other by discriminate; exact Hp2|].
  rewrite Ew1, Ew2. cbn [bind].
  apply auto_loads_wind_frame; auto.
  - rewrite !dict_get_set_other by discriminate. apply Hdd. discriminate.
  - intros k Hk. rewrite !dict_get_set_other
      by (cbn in Hk; intros ->; intuition discriminate).
    apply Hdd. cbn in Hk. intros ->. intuition discriminate.
  - rewrite Hl1, Hl2, (Hp "wind_zone") by discriminate. reflexivity.
  - rewrite Hl1, Hl2, (Hp "terrain_category") by discriminate. reflexivity.
Qed.

(** X22: [wind_parameters['importance_factor']] is given a default but has
    no effect: two designs that differ only in that entry get the same
    result from [check_compliance] (every call of [calculate_wind_load]
    passes the zone and the terrain category only). *)
Theorem importance_factor_is_ignored (d1 d2 : value) :
  differ_only_in_entry "wind_parameters" "importance_factor" d1 d2 ->
  check_compliance d1 = check_compliance d2.
Proof.
  intros (dd1 & dd2 & p1 & p2 & -> & -> & Hdd & Hp1 & Hp2 & Hp).
  unfold check_compliance, check_compliance_traced. cbn [get_method].
  rewrite (Hdd "member_type") by discriminate.
  cbv beta iota zeta delta [bind ret].
  destruct (lower_method _) as [mt|e]; [|reflexivity].
  assert (Hsteps : snd (compliance_steps mt (VDict dd1))
                   = snd (compliance_steps mt (VDict dd2))).
  { apply compliance_steps_alike.
    - apply Hdd. discriminate.
    - intros k Hk. apply Hdd. cbn in Hk. intros ->. intuition discriminate.
    - exact (auto_calculate_loads_wind_frame mt dd1 dd2 p1 p2 Hdd Hp1 Hp2 Hp). }
  destruct (compliance_steps mt (VDict dd1)) as [tr1 r1],
           (compliance_steps mt (VDict dd2)) as [tr2 r2].
  cbn [snd] in Hsteps |- *. rewrite Hsteps. reflexivity.
Qed.

End Observed.

Section ObservedExamples.
Local Open Scope float_scope.

(** Scenario A tagged ["BEAM"], with a project name. *)
Lemma check_compliance_observes_witness :
  member_type_of (RT := example_runtime) Examples.beam_upper = inl "beam"
  /\ check_compliance (RT := example_runtime) Examples.beam_upper
     = check_compliance (RT := example_runtime) Examples.beam_A.
Proof.
  split; [reflexivity|].
  apply (@check_compliance_observes example_runtime).
  - reflexivity.
  - intros k Hk.
    destruct Hk as [<-|[<-|[<-|[<-|[<-|[<-|[<-|[<-|[]]]]]]]]]; reflexivity.
Defined.

(** A column in wind zone 4 with an importance factor of 1.5, and of 1.0. *)
Lemma importance_factor_is_ignored_witness :
  result_field Examples.column_windy_important "wind_parameters"
  = Some (VDict [("wind_zone", VStr "zone_4"); ("importance_factor", VFloat 1.5)])
  /\ check_compliance (RT := example_runtime) Examples.column_windy_important
     = check_compliance (RT := example_runtime) Examples.column_windy.
Proof.
  split; [reflexivity|].
  apply (@importance_factor_is_ignored example_runtime).
  apply set_entry_differs with
    (b := [("wind_zone", VStr "zone_4"); ("importance_factor", VFloat 1.0)]).
  reflexivity.
Defined.
End ObservedExamples.

(** ** When the load calculator runs *)

Section LoadResolution.
Context {RT : Runtime}.






End LoadResolution.

Section LoadResolutionExamples.
Local Open Scope float_scope.


End LoadResolutionExamples.
